(** * Construction cost analyzer: the stores, the cost rollup and the unit
    formatter of [app/data_manager.py], [app/routes.py] and
    [app/template_filters.py], embedded as Rocq functions.

    Python values are a tagged union [pyval]; dictionaries are insertion-ordered
    association lists; floats are the kernel's binary64 numbers; an exception
    is the [Raise] branch of [result]; the files the program reads and writes
    are the fields of [world]. *)

From Stdlib Require Import ZArith String Ascii List Bool Floats Lia.
From stdpp Require Import base option list gmap strings pretty.

Set Warnings "-inexact-float,-register-all".
Open Scope string_scope.
Open Scope Z_scope.

(** ** Python values *)

Inductive pyval : Type :=
| VNone
| VBool (b : bool)
| VInt (z : Z)
| VFloat (f : float)
| VStr (s : string)
| VList (l : list pyval)
| VDict (d : list (string * pyval)).

(** A [dict] with string keys, in insertion order. *)
Abbreviation dict := (list (string * pyval)).

(** The exceptions the program can meet. *)
Inductive exn : Type :=
| ValueError | TypeError | KeyError | AttributeError
| ZeroDivisionError | OverflowError.

Inductive result (A : Type) : Type :=
| Ok (a : A)
| Raise (e : exn).
Arguments Ok {A} a.
Arguments Raise {A} e.

Definition rbind {A B} (m : result A) (k : A -> result B) : result B :=
  match m with
  | Ok a => k a
  | Raise e => Raise e
  end.

Notation "x <- m ;; k" := (rbind m (fun x => k))
  (at level 100, m at next level, right associativity).

(** [except (ValueError, TypeError, KeyError)] and [except (ValueError, TypeError)]. *)
Definition caught_vtk (e : exn) : bool :=
  match e with ValueError | TypeError | KeyError => true | _ => false end.

Definition caught_vt (e : exn) : bool :=
  match e with ValueError | TypeError => true | _ => false end.

(** ** Dictionaries *)

Fixpoint dict_get (k : string) (d : dict) : option pyval :=
  match d with
  | [] => None
  | (k', v) :: d' => if String.eqb k' k then Some v else dict_get k d'
  end.

Definition dict_mem (k : string) (d : dict) : bool :=
  match dict_get k d with Some _ => true | None => false end.

(** [d[k] = v]: in place when the key is there, at the end otherwise. *)
Fixpoint dict_set (k : string) (v : pyval) (d : dict) : dict :=
  match d with
  | [] => [(k, v)]
  | (k', v') :: d' =>
      if String.eqb k' k then (k', v) :: d' else (k', v') :: dict_set k v d'
  end.

Fixpoint dict_del (k : string) (d : dict) : dict :=
  match d with
  | [] => []
  | (k', v') :: d' => if String.eqb k' k then d' else (k', v') :: dict_del k d'
  end.

(** [d.get(k, default)] *)
Definition dict_get_default (k : string) (default : pyval) (d : dict) : pyval :=
  match dict_get k d with Some v => v | None => default end.

(** [x.get(k, default)] on any value: only a dict has the method. *)
Definition py_get (x : pyval) (k : string) (default : pyval) : result pyval :=
  match x with
  | VDict d => Ok (dict_get_default k default d)
  | _ => Raise AttributeError
  end.

(** [x[k]] with a string key: a dict answers or raises [KeyError]; a list or
    a string refuses a string index and the other values are not
    subscriptable, both with [TypeError]. *)
Definition py_getitem (x : pyval) (k : string) : result pyval :=
  match x with
  | VDict d => match dict_get k d with Some v => Ok v | None => Raise KeyError end
  | _ => Raise TypeError
  end.

(** [for c in x]: the elements of a list, the keys of a dict, the
    characters of a string; the other values are not iterable. *)
Definition py_iter (x : pyval) : result (list pyval) :=
  match x with
  | VList l => Ok l
  | VDict d => Ok (map (fun kv => VStr (fst kv)) d)
  | VStr s => Ok (map (fun c => VStr (String c EmptyString)) (list_ascii_of_string s))
  | _ => Raise TypeError
  end.

(** Truth value of a Python object ([if x], [not x]). *)
Definition py_truthy (x : pyval) : bool :=
  match x with
  | VNone => false
  | VBool b => b
  | VInt z => negb (z =? 0)
  | VFloat f => negb (PrimFloat.eqb f 0%float)
  | VStr s => negb (String.eqb s "")
  | VList l => match l with [] => false | _ => true end
  | VDict d => match d with [] => false | _ => true end
  end.

(** ** Numbers *)

(** [float(n)] for an int: the nearest binary64, [OverflowError] past the range. *)
Definition float_of_Z (z : Z) : result float :=
  let f := SF2Prim (binary_normalize prec emax z 0 false) in
  if PrimFloat.is_infinity f then Raise OverflowError else Ok f.

(** [int(f)] for a float: truncation towards zero. *)
Definition Z_of_float (f : float) : result Z :=
  match Prim2SF f with
  | S754_zero _ => Ok 0
  | S754_finite s m e =>
      let a := if (0 <=? e) then Z.pos m * 2 ^ e else Z.pos m / 2 ^ (- e) in
      Ok (if s then - a else a)
  | S754_infinity _ => Raise OverflowError
  | S754_nan => Raise ValueError
  end.

(** Exact comparison of an int with a float, as [==] does it. *)
Definition Z_eqb_float (z : Z) (f : float) : bool :=
  match Prim2SF f with
  | S754_zero _ => z =? 0
  | S754_finite s m e =>
      let sm := if s then Z.neg m else Z.pos m in
      if (0 <=? e) then z =? sm * 2 ^ e
      else (Z.pos m mod 2 ^ (- e) =? 0) && (z =? sm / 2 ^ (- e))
  | _ => false
  end.

Definition Z_of_bool (b : bool) : Z := if b then 1 else 0.

(** The numeric tower: a bool counts as an int. *)
Inductive pynum : Type :=
| NInt (z : Z)
| NFloat (f : float).

Definition as_num (x : pyval) : option pynum :=
  match x with
  | VBool b => Some (NInt (Z_of_bool b))
  | VInt z => Some (NInt z)
  | VFloat f => Some (NFloat f)
  | _ => None
  end.

Definition num_float (n : pynum) : result float :=
  match n with
  | NInt z => float_of_Z z
  | NFloat f => Ok f
  end.

(** Arithmetic on two numbers: ints stay ints, a float operand makes the
    other one a float first. *)
Definition num_arith (fz : Z -> Z -> Z) (ff : float -> float -> float)
    (a b : pynum) : result pyval :=
  match a, b with
  | NInt x, NInt y => Ok (VInt (fz x y))
  | _, _ => fx <- num_float a ;; fy <- num_float b ;; Ok (VFloat (ff fx fy))
  end.

(** [a + b]: numbers add, strings and lists concatenate. *)
Definition py_add (a b : pyval) : result pyval :=
  match as_num a, as_num b with
  | Some x, Some y => num_arith Z.add PrimFloat.add x y
  | _, _ =>
      match a, b with
      | VStr s, VStr t => Ok (VStr (s ++ t))
      | VList l, VList l' => Ok (VList (l ++ l'))
      | _, _ => Raise TypeError
      end
  end.

(** [s * n] for a string: [n] copies of it, none when [n] is negative. *)
Fixpoint str_repeat (n : nat) (s : string) : string :=
  match n with
  | O => EmptyString
  | S n' => s ++ str_repeat n' s
  end.

(** [a * b]: numbers multiply, a string or a list is repeated by an int. *)
Definition py_mul (a b : pyval) : result pyval :=
  match as_num a, as_num b with
  | Some x, Some y => num_arith Z.mul PrimFloat.mul x y
  | Some (NInt n), None | None, Some (NInt n) =>
      match a, b with
      | VStr s, _ | _, VStr s => Ok (VStr (str_repeat (Z.to_nat n) s))
      | VList l, _ | _, VList l => Ok (VList (concat (replicate (Z.to_nat n) l)))
      | _, _ => Raise TypeError
      end
  | _, _ => Raise TypeError
  end.

(** [a / b] on two ints: the correctly rounded quotient.  The quotient is
    computed to 64 bits and more, with a sticky last bit, and rounded once. *)
Definition Z_truediv (a b : Z) : result float :=
  if b =? 0 then Raise ZeroDivisionError
  else
    let k := Z.max 0 (66 + Z.log2 (Z.abs b) - Z.log2 (Z.abs a)) in
    let n := Z.abs a * 2 ^ k in
    let q := n / Z.abs b in
    let sticky := if n mod Z.abs b =? 0 then 0 else 1 in
    let m := 2 * q + sticky in
    let neg := xorb (a <? 0) (b <? 0) in
    let sm := if neg then - m else m in
    let f := SF2Prim (binary_normalize prec emax sm (- k - 1) neg) in
    if PrimFloat.is_infinity f then Raise OverflowError else Ok f.

(** [a / b]: true division. *)
Definition py_truediv (a b : pyval) : result pyval :=
  match as_num a, as_num b with
  | Some (NInt x), Some (NInt y) => f <- Z_truediv x y ;; Ok (VFloat f)
  | Some x, Some y =>
      fx <- num_float x ;; fy <- num_float y ;;
      if PrimFloat.eqb fy 0%float then Raise ZeroDivisionError
      else Ok (VFloat (fx / fy)%float)
  | _, _ => Raise TypeError
  end.

(** [x > 0] against the int literal. *)
Definition py_gt_zero (x : pyval) : result bool :=
  match as_num x with
  | Some (NInt z) => Ok (0 <? z)
  | Some (NFloat f) => Ok (PrimFloat.ltb 0%float f)
  | None => Raise TypeError
  end.

(** [a == b] *)
Definition num_eqb (a b : pynum) : bool :=
  match a, b with
  | NInt x, NInt y => x =? y
  | NFloat x, NFloat y => PrimFloat.eqb x y
  | NInt x, NFloat y => Z_eqb_float x y
  | NFloat x, NInt y => Z_eqb_float y x
  end.

Fixpoint py_eqb (a b : pyval) {struct a} : bool :=
  match a, b with
  | VNone, VNone => true
  | VStr s, VStr t => String.eqb s t
  | VList xs, VList ys =>
      (fix go (xs ys : list pyval) {struct xs} : bool :=
         match xs, ys with
         | [], [] => true
         | x :: xs', y :: ys' => py_eqb x y && go xs' ys'
         | _, _ => false
         end) xs ys
  | VDict d, VDict d' =>
      (length d =? length d')%nat &&
      (fix go (d : dict) {struct d} : bool :=
         match d with
         | [] => true
         | (k, v) :: r =>
             match dict_get k d' with
             | Some w => py_eqb v w
             | None => false
             end && go r
         end) d
  | _, _ =>
      match as_num a, as_num b with
      | Some x, Some y => num_eqb x y
      | _, _ => false
      end
  end.

(** ** Strings

    A string is a sequence of 8-bit characters; the case of a character is
    ASCII's, so the string methods below are Python's on ASCII text. *)

Definition is_upper_char (c : ascii) : bool :=
  let n := nat_of_ascii c in (65 <=? n)%nat && (n <=? 90)%nat.

Definition is_lower_char (c : ascii) : bool :=
  let n := nat_of_ascii c in (97 <=? n)%nat && (n <=? 122)%nat.

Definition lower_char (c : ascii) : ascii :=
  if is_upper_char c then ascii_of_nat (nat_of_ascii c + 32) else c.

Definition upper_char (c : ascii) : ascii :=
  if is_lower_char c then ascii_of_nat (nat_of_ascii c - 32) else c.

(** [s.lower()] *)
Fixpoint str_lower (s : string) : string :=
  match s with
  | EmptyString => EmptyString
  | String c s' => String (lower_char c) (str_lower s')
  end.

(** [s.capitalize()] *)
Definition str_capitalize (s : string) : string :=
  match s with
  | EmptyString => EmptyString
  | String c s' => String (upper_char c) (str_lower s')
  end.

Fixpoint str_exists (p : ascii -> bool) (s : string) : bool :=
  match s with
  | EmptyString => false
  | String c s' => p c || str_exists p s'
  end.


(** [s.startswith(p)] *)
Definition str_startswith (p s : string) : bool := String.prefix p s.


(** [s.split(c)] for a one-character separator. *)
Fixpoint str_split (c : ascii) (s : string) : list string :=
  match s with
  | EmptyString => [EmptyString]
  | String a s' =>
      if Ascii.eqb a c then EmptyString :: str_split c s'
      else match str_split c s' with
           | [] => [String a EmptyString]
           | w :: ws => String a w :: ws
           end
  end.

(** [sub in s] *)
Fixpoint str_contains (sub s : string) : bool :=
  String.prefix sub s ||
  match s with
  | EmptyString => false
  | String _ s' => str_contains sub s'
  end.

(** [c in s] for a one-character [c]. *)
Definition str_has (c : ascii) (s : string) : bool :=
  str_exists (Ascii.eqb c) s.

(** ** Built-in conversions

    The program calls Python's [float()], [int()], [repr()] and [uuid4()].
    They are taken as an interface: every theorem below holds for any
    implementation of it, and [sample_builtins] further down is one that
    agrees with CPython on the inputs of the examples. *)

Class Builtins : Type := {
  (** [float(s)] on a string; [None] is [ValueError]. *)
  str_to_float : string -> option float;
  (** [int(s)] on a string; [None] is [ValueError]. *)
  str_to_int : string -> option Z;
  (** [repr(f)] of a float. *)
  float_repr : float -> string;
  (** [str(x)] of a list or a dict. *)
  container_repr : pyval -> string;
  (** The identifiers [str(uuid.uuid4())] returns, by number of the draw. *)
  uuid4 : nat -> string
}.

Section Conversions.
Context {B : Builtins}.

(** [float(x)] *)
Definition py_float (x : pyval) : result float :=
  match x with
  | VFloat f => Ok f
  | VInt z => float_of_Z z
  | VBool b => float_of_Z (Z_of_bool b)
  | VStr s => match str_to_float s with Some f => Ok f | None => Raise ValueError end
  | _ => Raise TypeError
  end.

(** [int(x)] *)
Definition py_int (x : pyval) : result Z :=
  match x with
  | VInt z => Ok z
  | VBool b => Ok (Z_of_bool b)
  | VFloat f => Z_of_float f
  | VStr s => match str_to_int s with Some z => Ok z | None => Raise ValueError end
  | _ => Raise TypeError
  end.

(** [str(x)], which an f-string applies to its fields. *)
Definition py_str (x : pyval) : string :=
  match x with
  | VNone => "None"
  | VBool b => if b then "True" else "False"
  | VInt z => pretty z
  | VFloat f => float_repr f
  | VStr s => s
  | _ => container_repr x
  end.

(** What [csv.writer] writes for a field: nothing for [None], [str(x)] otherwise. *)
Definition csv_cell (x : pyval) : string :=
  match x with
  | VNone => ""
  | _ => py_str x
  end.
End Conversions.

(** ** The files and the state monad *)

(** A CSV file as [csv.reader] sees it: the header row and the data rows,
    each a list of fields.  Quoting is the [csv] module's business. *)
Record csv_file : Type := CsvFile {
  header : list string;
  rows : list (list string)
}.

(** What the program reads and writes: the master catalogs [<item_type>.csv],
    the document [data.json] ([None] when the file is missing or is not
    JSON), the names of the files written so far, most recent first, and
    the number of identifiers drawn. *)
Record world : Type := World {
  csv_files : gmap string csv_file;
  json_file : option pyval;
  writes : list string;
  uuid_next : nat
}.

(** A computation reads and writes the files and ends in a value or an
    exception; what it wrote before raising stays written. *)
Definition M (A : Type) : Type := world -> result A * world.

Definition ret {A} (a : A) : M A := fun w => (Ok a, w).

Definition raise {A} (e : exn) : M A := fun w => (Raise e, w).

Definition bind {A B} (m : M A) (k : A -> M B) : M B :=
  fun w =>
    match m w with
    | (Ok a, w') => k a w'
    | (Raise e, w') => (Raise e, w')
    end.

Definition lift {A} (r : result A) : M A := fun w => (r, w).

Notation "x <~ m ;; k" := (bind m (fun x => k))
  (at level 100, m at next level, right associativity).

(** [for x in l: body], the body threading an accumulator. *)
Fixpoint for_each {A S} (l : list A) (body : S -> A -> M S) (s : S) : M S :=
  match l with
  | [] => ret s
  | x :: l' => s' <~ body s x ;; for_each l' body s'
  end.

Fixpoint rfor_each {A S} (l : list A) (body : S -> A -> result S) (s : S) : result S :=
  match l with
  | [] => Ok s
  | x :: l' => s' <- body s x ;; rfor_each l' body s'
  end.

(** [[f(x) for x in l]] *)
Fixpoint rmap {A C} (f : A -> result C) (l : list A) : result (list C) :=
  match l with
  | [] => Ok []
  | x :: l' => y <- f x ;; ys <- rmap f l' ;; Ok (y :: ys)
  end.

Definition csv_name (item_type : string) : string := item_type ++ ".csv".
Definition json_name : string := "data.json".

Section DataManager.
Context {B : Builtins}.

Definition fresh_uuid : M string :=
  fun w =>
    (Ok (uuid4 (uuid_next w)),
     World (csv_files w) (json_file w) (writes w) (S (uuid_next w))).

(** *** [data.json] *)

Definition default_data : pyval :=
  VDict [("categories", VList []); ("projects", VList [])].

Definition _load_json_data : M pyval :=
  fun w =>
    (Ok (match json_file w with Some v => v | None => default_data end), w).

Definition _save_json_data (data : pyval) : M unit :=
  fun w =>
    (Ok tt, World (csv_files w) (Some data) (json_name :: writes w) (uuid_next w)).

(** *** The master catalogs *)

(** The dict [csv.DictReader] makes of a row: [dict(zip(fieldnames, row))],
    then [None] under the field names a short row leaves out.  The fields
    of a long row past the header go under the key [None], which the
    program never reads; the model leaves them out. *)
Definition DictReader_row (fieldnames row : list string) : dict :=
  let d := fold_left (fun d kv => dict_set (fst kv) (VStr (snd kv)) d)
                     (combine fieldnames row) [] in
  fold_left (fun d k => dict_set k VNone d) (drop (length row) fieldnames) d.

Definition type_key_of (item_type : string) : string :=
  str_capitalize item_type ++ "Type".

(** The body of the loop of [_load_master_csv]. *)
Definition load_row (item_type : string) (row : dict) : M pyval :=
  row <~ (match dict_get "SerialNo" row with
          | Some v => ret (dict_set "id" v row)
          | None => u <~ fresh_uuid ;; ret (dict_set "id" (VStr u) row)
          end) ;;
  p <~ lift (py_float (dict_get_default "Price" (VFloat 0%float) row)) ;;
  let row := dict_set "Price" (VFloat p) row in
  let type_key := type_key_of item_type in
  let row :=
    match dict_get type_key row with
    | Some v => dict_set "name" v (dict_del type_key row)
    | None =>
        match dict_get "Type" row with
        | Some v => dict_set "name" v (dict_del "Type" row)
        | None => row
        end
    end in
  ret (VDict row).

(** The rows [csv.DictReader] yields: it passes over blank lines. *)
Definition DictReader_rows (f : csv_file) : list (list string) :=
  List.filter (fun row => match row with [] => false | _ => true end) (rows f).

Definition _load_master_csv (item_type : string) : M (list pyval) :=
  fun w =>
    match csv_files w !! item_type with
    | None => (Ok [], w)
    | Some f =>
        for_each (DictReader_rows f)
          (fun data row =>
             r <~ load_row item_type (DictReader_row (header f) row) ;;
             ret (data ++ [r])%list)
          [] w
    end.

Definition write_csv (item_type : string) (f : csv_file) : M unit :=
  fun w =>
    (Ok tt, World (<[item_type := f]> (csv_files w)) (json_file w)
                  (csv_name item_type :: writes w) (uuid_next w)).

(** The row [DictWriter.writerow] writes: the value under each header, in
    the order of the headers. *)
Definition DictWriter_row (fieldnames : list string) (rowdict : dict) : list string :=
  map (fun k => csv_cell (dict_get_default k (VStr "") rowdict)) fieldnames.

(** The rows [writer.writerow] gets through before a row raises, and the
    exception that stops it, if any. *)
Fixpoint written_rows (to_row : pyval -> result (list string)) (data : list pyval)
    : list (list string) * option exn :=
  match data with
  | [] => ([], None)
  | row :: data' =>
      match to_row row with
      | Ok r => let (rs, e) := written_rows to_row data' in (r :: rs, e)
      | Raise e => ([], Some e)
      end
  end.

(** The body of the loop of [_save_master_csv]: the internal keys mapped
    back to the headers, and the row [DictWriter] writes. *)
Definition save_row (item_type : string) (row : pyval) : result (list string) :=
  let type_key := type_key_of item_type in
  let headers := ["SerialNo"; type_key; "Unit"; "Price"] in
  id <- py_get row "id" VNone ;;
  name <- py_get row "name" VNone ;;
  unit <- py_get row "Unit" VNone ;;
  price <- py_get row "Price" VNone ;;
  let write_row :=
    dict_set "Price" price
      (dict_set "Unit" unit
         (dict_set type_key name
            (dict_set "SerialNo" id []))) in
  Ok (DictWriter_row headers write_row).

Definition _save_master_csv (item_type : string) (data : list pyval) : M unit :=
  let type_key := type_key_of item_type in
  let headers := ["SerialNo"; type_key; "Unit"; "Price"] in
  match data with
  | [] => write_csv item_type (CsvFile headers [])
  | _ =>
      let (rs, e) := written_rows (save_row item_type) data in
      _ <~ write_csv item_type (CsvFile headers rs) ;;
      match e with
      | None => ret tt
      | Some e => raise e
      end
  end.

(** *** Master inventory *)

Definition get_master_data (item_type : string) : M (list pyval) :=
  _load_master_csv item_type.

(** The body of the id scan of [add_master_item]:
    [try: max_id = max(max_id, int(item.get('id', 0)))],
    [except (ValueError, TypeError): continue]. *)
Definition max_id_step (max_id : Z) (item : pyval) : result Z :=
  match (v <- py_get item "id" (VInt 0) ;; py_int v) with
  | Ok n => Ok (Z.max max_id n)
  | Raise e => if caught_vt e then Ok max_id else Raise e
  end.

Definition add_master_item (item_type : string) (data : pyval) : M unit :=
  all_items <~ _load_master_csv item_type ;;
  max_id <~ lift (rfor_each all_items max_id_step 0) ;;
  let new_id := pretty (max_id + 1) in
  name <~ lift (py_getitem data "name") ;;
  unit <~ lift (py_getitem data "unit") ;;
  price <~ lift (py_getitem data "price") ;;
  let new_item :=
    VDict [("id", VStr new_id); ("name", name); ("Unit", unit); ("Price", price)] in
  _save_master_csv item_type (all_items ++ [new_item])%list.

(** The loop of [update_master_item]: the first item with the id is
    rewritten, and the loop breaks. *)
Fixpoint update_first (item_id : pyval) (data : pyval) (items : list pyval)
    : result (list pyval) :=
  match items with
  | [] => Ok []
  | item :: items' =>
      v <- py_get item "id" VNone ;;
      if py_eqb v item_id then
        name <- py_getitem data "name" ;;
        unit <- py_getitem data "unit" ;;
        price <- py_getitem data "price" ;;
        match item with
        | VDict d =>
            Ok (VDict (dict_set "Price" price
                         (dict_set "Unit" unit (dict_set "name" name d))) :: items')
        | _ => Raise TypeError
        end
      else
        rest <- update_first item_id data items' ;; Ok (item :: rest)
  end.

Definition update_master_item (item_type : string) (item_id : pyval) (data : pyval)
    : M unit :=
  all_items <~ _load_master_csv item_type ;;
  all_items <~ lift (update_first item_id data all_items) ;;
  _save_master_csv item_type all_items.

(** [[item for item in items if item.get('id') != item_id]] *)
Fixpoint keep_others (item_id : pyval) (items : list pyval) : result (list pyval) :=
  match items with
  | [] => Ok []
  | item :: items' =>
      v <- py_get item "id" VNone ;;
      rest <- keep_others item_id items' ;;
      Ok (if py_eqb v item_id then rest else item :: rest)
  end.

Definition delete_master_item (item_type : string) (item_id : pyval) : M unit :=
  all_items <~ _load_master_csv item_type ;;
  items_to_keep <~ lift (keep_others item_id all_items) ;;
  _save_master_csv item_type items_to_keep.

(** A dict whose keys are any hashable values, as [get_master_item_map]
    builds it: entries in insertion order, keys compared with [==]. *)
Definition pymap : Type := list (pyval * pyval).

Definition hashable (k : pyval) : bool :=
  match k with VList _ | VDict _ => false | _ => true end.

Fixpoint pymap_set (k v : pyval) (m : pymap) : pymap :=
  match m with
  | [] => [(k, v)]
  | (k', v') :: m' =>
      if py_eqb k' k then (k', v) :: m' else (k', v') :: pymap_set k v m'
  end.

(** [m[k]] *)
Fixpoint pymap_getitem (m : pymap) (k : pyval) : result pyval :=
  match m with
  | [] => Raise KeyError
  | (k', v) :: m' => if py_eqb k' k then Ok v else pymap_getitem m' k
  end.

(** [{item['id']: item for item in items}] *)
Definition map_by_id (items : list pyval) : result pymap :=
  rfor_each items
    (fun m item =>
       k <- py_getitem item "id" ;;
       if hashable k then Ok (pymap_set k item m) else Raise TypeError)
    [].

Definition get_master_item_map (item_type : string) : M pymap :=
  items <~ _load_master_csv item_type ;;
  lift (map_by_id items).

(** *** Categories and work items *)

Definition get_all_categories : M pyval :=
  data <~ _load_json_data ;;
  lift (py_get data "categories" (VList [])).

(** [for x in l: if x.get('id') == id: ...]: the first element with the
    id and its position, [None] when the loop runs to its end. *)
Fixpoint find_by_id (id : pyval) (l : list pyval) : result (option (nat * pyval)) :=
  match l with
  | [] => Ok None
  | x :: l' =>
      v <- py_get x "id" VNone ;;
      if py_eqb v id then Ok (Some (O, x))
      else
        r <- find_by_id id l' ;;
        Ok (match r with Some (i, y) => Some (S i, y) | None => None end)
  end.

Definition get_category_by_id (category_id : pyval) : M pyval :=
  cats <~ get_all_categories ;;
  cats <~ lift (py_iter cats) ;;
  r <~ lift (find_by_id category_id cats) ;;
  ret (match r with Some (_, c) => c | None => VNone end).

Definition add_new_category (category_name : pyval) : M unit :=
  data <~ _load_json_data ;;
  u <~ fresh_uuid ;;
  let new_category :=
    VDict [("id", VStr u); ("name", category_name); ("work_items", VList [])] in
  match data with
  | VDict d =>
      match dict_get_default "categories" (VList []) d with
      | VList l =>
          _save_json_data
            (VDict (dict_set "categories" (VList (l ++ [new_category])) d))
      | _ => raise AttributeError
      end
  | _ => raise AttributeError
  end.

(** [data] with [category] put back at position [i] of its categories.
    The loop mutates the category inside [data]; here the change is
    written back where the category came from. *)
Definition put_category (data : pyval) (i : nat) (category : pyval) : pyval :=
  match data with
  | VDict d =>
      match dict_get "categories" d with
      | Some (VList l) => VDict (dict_set "categories" (VList (<[i := category]> l)) d)
      | _ => data
      end
  | _ => data
  end.

(** The three updates of a category share their loop: find the category,
    change it, save the document, break. *)
Definition with_category (category_id : pyval) (change : pyval -> result pyval)
    : M unit :=
  data <~ _load_json_data ;;
  cats <~ lift (py_get data "categories" (VList [])) ;;
  cats <~ lift (py_iter cats) ;;
  r <~ lift (find_by_id category_id cats) ;;
  match r with
  | Some (i, category) =>
      category' <~ lift (change category) ;;
      _save_json_data (put_category data i category')
  | None => ret tt
  end.

(** [x.get('work_items', [])] of a category, as a sequence to loop over. *)
Definition work_items_of (category : pyval) : result (list pyval) :=
  v <- py_get category "work_items" (VList []) ;; py_iter v.

Definition set_work_items (category : pyval) (l : list pyval) : result pyval :=
  match category with
  | VDict d => Ok (VDict (dict_set "work_items" (VList l) d))
  | _ => Raise TypeError
  end.

Definition add_work_item_to_category (category_id : pyval) (work_item : pyval)
    : M unit :=
  with_category category_id
    (fun category =>
       (* category.setdefault('work_items', []).append(work_item) *)
       v <- py_get category "work_items" (VList []) ;;
       match v with
       | VList l => set_work_items category (l ++ [work_item])
       | _ => Raise AttributeError
       end).

Definition find_work_item_by_id (work_item_id : pyval) : M pyval :=
  cats <~ get_all_categories ;;
  cats <~ lift (py_iter cats) ;;
  lift (rfor_each cats
          (fun found category =>
             match found with
             | VNone =>
                 items <- work_items_of category ;;
                 r <- find_by_id work_item_id items ;;
                 Ok (match r with Some (_, item) => item | None => VNone end)
             | _ => Ok found
             end)
          VNone).

Definition update_work_item (category_id : pyval) (updated_item : pyval) : M unit :=
  with_category category_id
    (fun category =>
       items <- work_items_of category ;;
       items' <- rmap (fun item =>
                         a <- py_get item "id" VNone ;;
                         b <- py_get updated_item "id" VNone ;;
                         Ok (if py_eqb a b then updated_item else item)) items ;;
       set_work_items category items').

Definition delete_work_item (category_id : pyval) (work_item_id : pyval) : M unit :=
  with_category category_id
    (fun category =>
       items <- work_items_of category ;;
       items' <- keep_others work_item_id items ;;
       set_work_items category items').

(** *** Projects *)

Definition get_projects : M pyval :=
  data <~ _load_json_data ;;
  lift (py_get data "projects" (VList [])).

Definition get_project_by_id (project_id : pyval) : M pyval :=
  ps <~ get_projects ;;
  ps <~ lift (py_iter ps) ;;
  r <~ lift (find_by_id project_id ps) ;;
  ret (match r with Some (_, p) => p | None => VNone end).

Definition update_project (project_data : pyval) : M unit :=
  data <~ _load_json_data ;;
  ps <~ lift (py_get data "projects" (VList [])) ;;
  ps <~ lift (py_iter ps) ;;
  ps' <~ lift (rmap (fun p =>
                       a <- py_get p "id" VNone ;;
                       b <- py_get project_data "id" VNone ;;
                       Ok (if py_eqb a b then project_data else p)) ps) ;;
  match data with
  | VDict d => _save_json_data (VDict (dict_set "projects" (VList ps') d))
  | _ => raise TypeError
  end.
End DataManager.

(** ** The request handlers of [routes.py] *)

(** A submitted form ([request.form], [request.args]): the fields in the
    order they were sent; a name may repeat. *)
Abbreviation form := (list (string * string)).

(** [form.get(k)]: the first value sent under [k]. *)
Fixpoint form_get (k : string) (f : form) : option string :=
  match f with
  | [] => None
  | (k', v) :: f' => if String.eqb k' k then Some v else form_get k f'
  end.

(** [form.items()]: each name once, with its first value. *)
Fixpoint form_items_from (seen : list string) (f : form) : form :=
  match f with
  | [] => []
  | (k, v) :: f' =>
      if existsb (String.eqb k) seen then form_items_from seen f'
      else (k, v) :: form_items_from (k :: seen) f'
  end.

Definition form_items (f : form) : form := form_items_from [] f.

Definition opt_str (o : option string) : pyval :=
  match o with Some s => VStr s | None => VNone end.

(** [items[key][field] = value] on a [defaultdict(dict)]. *)
Fixpoint items_set (key field value : string) (items : list (string * dict))
    : list (string * dict) :=
  match items with
  | [] => [(key, [(field, VStr value)])]
  | (k, d) :: items' =>
      if String.eqb k key then (k, dict_set field (VStr value) d) :: items'
      else (k, d) :: items_set key field value items'
  end.

(** [data[item_type].append(value_dict)] on a [defaultdict(list)]. *)
Fixpoint data_append (item_type : string) (value_dict : pyval)
    (data : list (string * list pyval)) : list (string * list pyval) :=
  match data with
  | [] => [(item_type, [value_dict])]
  | (k, l) :: data' =>
      if String.eqb k item_type then (k, l ++ [value_dict])%list :: data'
      else (k, l) :: data_append item_type value_dict data'
  end.

(** [data.get(item_type, [])] *)
Fixpoint data_get (item_type : string) (data : list (string * list pyval)) : list pyval :=
  match data with
  | [] => []
  | (k, l) :: data' => if String.eqb k item_type then l else data_get item_type data'
  end.

Definition parse_form_data (f : form) : result (list (string * list pyval)) :=
  let items :=
    fold_left
      (fun items kv =>
         let '(key, value) := kv in
         if str_has "-" key then
           match str_split "-" key with
           | [item_type; index; field] =>
               if negb (String.eqb value "")
               then items_set (item_type ++ "-" ++ index) field value items
               else items
           | _ => items
           end
         else items)
      (form_items f) [] in
  rfor_each items
    (fun data kd =>
       let '(key, value_dict) := kd in
       if dict_mem "id" value_dict then
         match str_split "-" key with
         | [item_type; _] => Ok (data_append item_type (VDict value_dict) data)
         | _ => Raise ValueError
         end
       else Ok data)
    [].

(** What a handler answers: a redirect with the message it flashed, or a
    page with the values handed to its template. *)
Inductive response : Type :=
| Redirect (endpoint : string) (flash_category flash_message : string)
| Render (template : string) (context : dict).

Record request : Type := Request {
  method : string;
  args : form;
  rform : form
}.

Section Routes.
Context {B : Builtins}.

(** [standardize_item_key] *)
Definition standardize_item_key (items : list pyval) (key_name : string)
    : result (list pyval) :=
  rmap (fun item =>
          match item with
          | VDict d =>
              match dict_get key_name d with
              | Some v => Ok (VDict (dict_set "Type" v (dict_del key_name d)))
              | None => Ok item
              end
          | _ => Raise TypeError
          end) items.

(** *** The cost rollup *)

(** The body of the inner loop of [process_work_item_form]: one selected
    line against the master map, inside [try] ... [except (ValueError,
    TypeError, KeyError): continue].  The running total is updated before
    the line is built and appended. *)
Definition line_step (master_map : pymap) (acc : pyval * list pyval)
    (item_data : pyval) : result (pyval * list pyval) :=
  let '(group_subtotal, lines) := acc in
  match (idv <- py_get item_data "id" VNone ;;
         n <- py_int idv ;;
         master_item <- pymap_getitem master_map (VInt n) ;;
         qv <- py_get item_data "quantity" (VInt 0) ;;
         quantity <- py_float qv ;;
         pv <- py_getitem master_item "Price" ;;
         unit_price <- py_float pv ;;
         let subtotal := (quantity * unit_price)%float in
         g <- py_add group_subtotal (VFloat subtotal) ;;
         Ok (master_item, quantity, unit_price, subtotal, g)) with
  | Raise e => if caught_vtk e then Ok acc else Raise e
  | Ok (master_item, quantity, unit_price, subtotal, g) =>
      match (idv <- py_get item_data "id" VNone ;;
             name <- py_getitem master_item "Type" ;;
             unit <- py_getitem master_item "Unit" ;;
             Ok (VDict [("id", idv); ("name", name);
                        ("quantity", VFloat quantity);
                        ("unit_price", VFloat unit_price);
                        ("subtotal", VFloat subtotal); ("unit", unit)])) with
      | Raise e => if caught_vtk e then Ok (g, lines) else Raise e
      | Ok line => Ok (g, (lines ++ [line])%list)
      end
  end.

(** The body of the outer loop: one of labor, material, equipment. *)
Definition process_group (parsed_data : list (string * list pyval))
    (st : dict * pyval) (item_type : string) : M (dict * pyval) :=
  let '(processed_item, total_cost) := st in
  master_map <~ get_master_item_map item_type ;;
  r <~ lift (rfor_each (data_get item_type parsed_data)
               (line_step master_map) (VInt 0, [])) ;;
  let '(group_subtotal, lines) := r in
  let processed_item := dict_set item_type (VList lines) processed_item in
  let processed_item := dict_set (item_type ++ "_total") group_subtotal processed_item in
  total_cost <~ lift (py_add total_cost group_subtotal) ;;
  ret (processed_item, total_cost).

(** [float(form.get('basis_quantity', 1.0))] with its guard and its
    [except (ValueError, TypeError)]. *)
Definition basis_of_form (f : form) : result float :=
  match py_float (match form_get "basis_quantity" f with
                  | Some s => VStr s
                  | None => VFloat 1%float
                  end) with
  | Ok b => Ok (if PrimFloat.leb b 0%float then 1%float else b)
  | Raise e => if caught_vt e then Ok 1%float else Raise e
  end.

Definition process_work_item_form (f : form) (work_item_id : option string)
    : M (option pyval) :=
  let work_item_name := opt_str (form_get "name" f) in
  if negb (py_truthy work_item_name) then ret None
  else
    basis_quantity <~ lift (basis_of_form f) ;;
    let total_cost := VInt 0 in
    parsed_data <~ lift (parse_form_data f) ;;
    id <~ (match work_item_id with
           | Some s => if String.eqb s "" then fresh_uuid else ret s
           | None => fresh_uuid
           end) ;;
    let processed_item : dict :=
      [("id", VStr id); ("name", work_item_name);
       ("unit_of_measure",
        match form_get "unit_of_measure" f with
        | Some s => VStr s
        | None => VStr "Per Item"
        end);
       ("basis_quantity", VFloat basis_quantity);
       ("labor", VList []); ("material", VList []); ("equipment", VList []);
       ("labor_total", VInt 0); ("material_total", VInt 0);
       ("equipment_total", VInt 0)] in
    st <~ for_each ["labor"; "material"; "equipment"]
            (process_group parsed_data) (processed_item, total_cost) ;;
    let '(processed_item, total_cost) := st in
    let processed_item := dict_set "total_cost_per_unit" total_cost processed_item in
    overhead <~ lift (py_mul total_cost (VFloat 0.15%float)) ;;
    let processed_item :=
      dict_set "contractor_overhead_15_percent" overhead processed_item in
    sum_total <~ lift (py_mul total_cost (VFloat 1.15%float)) ;;
    let processed_item := dict_set "sum_total" sum_total processed_item in
    price <~ lift (py_truediv sum_total (VFloat basis_quantity)) ;;
    let processed_item := dict_set "price_per_unit" price processed_item in
    ret (Some (VDict processed_item)).

Definition save_work_item (category_id : string) (req : request) : M response :=
  final_item <~ process_work_item_form (rform req) None ;;
  match final_item with
  | None => ret (Redirect "main_bp.category_detail" "error" "Work Item Name is required.")
  | Some final_item =>
      _ <~ add_work_item_to_category (VStr category_id) final_item ;;
      name <~ lift (py_getitem final_item "name") ;;
      ret (Redirect "main_bp.category_detail" "success"
             ("Work Item '" ++ py_str name ++ "' saved successfully."))
  end.

(** The handler [update_work_item] of [routes.py]; the name without a
    prefix is the function of [data_manager.py] it calls. *)
Definition route_update_work_item (category_id work_item_id : string) (req : request)
    : M response :=
  updated_item <~ process_work_item_form (rform req) (Some work_item_id) ;;
  match updated_item with
  | None => ret (Redirect "main_bp.category_detail" "error" "Work Item Name is required.")
  | Some updated_item =>
      _ <~ update_work_item (VStr category_id) updated_item ;;
      name <~ lift (py_getitem updated_item "name") ;;
      ret (Redirect "main_bp.category_detail" "success"
             ("Work Item '" ++ py_str name ++ "' updated successfully."))
  end.

(** The handler [delete_work_item] of [routes.py]. *)
Definition route_delete_work_item (category_id work_item_id : string) : M response :=
  _ <~ delete_work_item (VStr category_id) (VStr work_item_id) ;;
  ret (Redirect "main_bp.category_detail" "success" "Work Item deleted successfully.").
(** *** The category page *)

(** [k in x] for a string [k]: a key of a dict, an element of a list, a
    substring of a string. *)
Definition py_contains (k : string) (x : pyval) : result bool :=
  match x with
  | VDict d => Ok (dict_mem k d)
  | VList l => Ok (existsb (py_eqb (VStr k)) l)
  | VStr s => Ok (str_contains k s)
  | _ => Raise TypeError
  end.

(** [x[k] = v] for a string [k]: only a dict takes it. *)
Definition py_setitem (x : pyval) (k : string) (v : pyval) : result pyval :=
  match x with
  | VDict d => Ok (VDict (dict_set k v d))
  | _ => Raise TypeError
  end.

(** The body of the loop over the work items in [category_detail]. *)
Definition migrate_item (item : pyval) : result pyval :=
  has_basis <- py_contains "basis_quantity" item ;;
  item <- (if has_basis then Ok item
           else py_setitem item "basis_quantity" (VFloat 1%float)) ;;
  has_price <- py_contains "price_per_unit" item ;;
  if has_price then Ok item
  else
    total <- py_get item "sum_total" (VInt 0) ;;
    basis <- py_get item "basis_quantity" (VFloat 1%float) ;;
    positive <- py_gt_zero basis ;;
    price <- (if positive then py_truediv total basis else Ok total) ;;
    py_setitem item "price_per_unit" price.

(** The loop itself.  The items are changed in place; they belong to the
    category when its [work_items] is a list. *)
Definition migrate_category (category : pyval) : result pyval :=
  v <- py_get category "work_items" (VList []) ;;
  items <- py_iter v ;;
  items' <- rmap migrate_item items ;;
  match category, v with
  | VDict d, VList _ =>
      if dict_mem "work_items" d
      then Ok (VDict (dict_set "work_items" (VList items') d))
      else Ok category
  | _, _ => Ok category
  end.

(** [d.update(other)] *)
Definition dict_update (d other : dict) : dict :=
  fold_left (fun d kv => dict_set (fst kv) (snd kv) d) other d.

(** [x[k].append({})] on the form state. *)
Definition append_empty_line (k : string) (d : dict) : result dict :=
  match dict_get k d with
  | Some (VList l) => Ok (dict_set k (VList (l ++ [VDict []])) d)
  | Some _ => Raise AttributeError
  | None => Raise KeyError
  end.

Definition action_key (action : option string) : option string :=
  match action with
  | Some "add_labor" => Some "labor"
  | Some "add_material" => Some "material"
  | Some "add_equipment" => Some "equipment"
  | _ => None
  end.

Definition category_detail (category_id : string) (req : request) : M response :=
  category <~ get_category_by_id (VStr category_id) ;;
  if negb (py_truthy category)
  then ret (Redirect "main_bp.categories_list" "error" "Category not found.")
  else
    category <~ lift (migrate_category category) ;;
    editing_item <~
      (match form_get "edit_item_id" (args req) with
       | Some s => if String.eqb s "" then ret VNone
                   else find_work_item_by_id (VStr s)
       | None => ret VNone
       end) ;;
    let form_state : dict :=
      [("name", VStr ""); ("unit_of_measure", VStr "Cubic Meter");
       ("basis_quantity", VFloat 1%float);
       ("labor", VList []); ("material", VList []); ("equipment", VList [])] in
    let form_state :=
      match editing_item with
      | VDict d => dict_update form_state d
      | _ => form_state
      end in
    st <~
      (if String.eqb (method req) "POST" then
         let f := rform req in
         let form_state :=
           dict_set "name"
             (match form_get "name" f with Some s => VStr s | None => VStr "" end)
             form_state in
         let form_state :=
           dict_set "unit_of_measure"
             (match form_get "unit_of_measure" f with
              | Some s => VStr s | None => VStr "Cubic Meter" end)
             form_state in
         let form_state :=
           dict_set "basis_quantity"
             (match form_get "basis_quantity" f with
              | Some s => VStr s | None => VFloat 1%float end)
             form_state in
         parsed_data <~ lift (parse_form_data f) ;;
         let form_state :=
           dict_update form_state
             (map (fun kl => (fst kl, VList (snd kl))) parsed_data) in
         match action_key (form_get "action" f) with
         | Some k =>
             form_state <~ lift (append_empty_line k form_state) ;;
             (* the list is the editing item's own when the form state
                took it from there and the form sent no line of the kind *)
             let shared :=
               match editing_item with
               | VDict d =>
                   dict_mem k d &&
                   negb (existsb (fun kl => String.eqb (fst kl) k) parsed_data)
               | _ => false
               end in
             if shared
             then e <~ lift (py_setitem editing_item k
                               (dict_get_default k VNone form_state)) ;;
                  ret (form_state, e)
             else ret (form_state, editing_item)
         | None => ret (form_state, editing_item)
         end
       else ret (form_state, editing_item)) ;;
    let '(form_state, editing_item) := st in
    labor <~ get_master_data "labor" ;;
    master_labor <~ lift (standardize_item_key labor "LaborType") ;;
    material <~ get_master_data "material" ;;
    master_material <~ lift (standardize_item_key material "MaterialType") ;;
    equipment <~ get_master_data "equipment" ;;
    master_equipment <~ lift (standardize_item_key equipment "EquipmentType") ;;
    ret (Render "category_detail.html"
           [("category", category); ("form_state", VDict form_state);
            ("editing_item", editing_item);
            ("master_labor", VList master_labor);
            ("master_material", VList master_material);
            ("master_equipment", VList master_equipment)]).

(** *** Projects *)

(** The body of the loop of the POST branch of [project_detail]. *)
Definition set_quantity (f : form) (item : pyval) : result pyval :=
  instance_id <- py_getitem item "instance_id" ;;
  match form_get ("quantity-" ++ py_str instance_id) f with
  | None => Ok item
  | Some new_quantity =>
      match py_float (VStr new_quantity) with
      | Ok q => py_setitem item "quantity" (VFloat q)
      | Raise e =>
          if caught_vt e then py_setitem item "quantity" (VInt 0) else Raise e
      end
  end.

(** The body of the loop of the GET branch: the line's total, and the
    running grand total. *)
Definition line_total (acc : list pyval * pyval) (item : pyval)
    : result (list pyval * pyval) :=
  let '(items, grand_total) := acc in
  quantity <- py_get item "quantity" (VInt 0) ;;
  unit_price <- py_get item "unit_price" (VInt 0) ;;
  item_total <- py_mul quantity unit_price ;;
  item <- py_setitem item "total" item_total ;;
  grand_total <- py_add grand_total item_total ;;
  Ok ((items ++ [item])%list, grand_total).

(** [project] with its items replaced, when they are a list of its own. *)
Definition put_items (project : pyval) (items : list pyval) : pyval :=
  match project with
  | VDict d =>
      match dict_get "items" d with
      | Some (VList _) => VDict (dict_set "items" (VList items) d)
      | _ => project
      end
  | _ => project
  end.

Definition project_detail (project_id : string) (req : request) : M response :=
  project <~ get_project_by_id (VStr project_id) ;;
  if negb (py_truthy project)
  then ret (Redirect "main_bp.projects_list" "error" "Project not found.")
  else if String.eqb (method req) "POST" then
    v <~ lift (py_get project "items" (VList [])) ;;
    items <~ lift (py_iter v) ;;
    items' <~ lift (rmap (set_quantity (rform req)) items) ;;
    _ <~ update_project (put_items project items') ;;
    ret (Redirect "main_bp.project_detail" "success" "Project updated successfully.")
  else
    v <~ lift (py_get project "items" (VList [])) ;;
    items <~ lift (py_iter v) ;;
    r <~ lift (rfor_each items line_total ([], VInt 0)) ;;
    let '(items', grand_total) := r in
    project <~ lift (py_setitem (put_items project items') "grand_total" grand_total) ;;
    all_work_items <~ get_all_categories ;;
    ret (Render "project_detail.html"
           [("project", project); ("all_work_items", all_work_items)]).

Definition add_item_to_project (project_id : string) (req : request) : M response :=
  project <~ get_project_by_id (VStr project_id) ;;
  if negb (py_truthy project)
  then ret (Redirect "main_bp.projects_list" "error" "Project not found.")
  else
    let work_item_id := opt_str (form_get "work_item_id" (rform req)) in
    let quantity :=
      match form_get "quantity" (rform req) with Some s => s | None => "1.0" end in
    work_item <~ find_work_item_by_id work_item_id ;;
    if negb (py_truthy work_item)
    then ret (Redirect "main_bp.project_detail" "error" "Work item not found.")
    else
      instance_id <~ fresh_uuid ;;
      name <~ lift (py_get work_item "name" VNone) ;;
      unit_of_measure <~ lift (py_get work_item "unit_of_measure" VNone) ;;
      unit_price <~ lift (py_get work_item "sum_total" (VInt 0)) ;;
      q <~ lift (py_float (VStr quantity)) ;;
      let new_item :=
        VDict [("instance_id", VStr instance_id); ("work_item_id", work_item_id);
               ("name", name); ("unit_of_measure", unit_of_measure);
               ("unit_price", unit_price); ("quantity", VFloat q)] in
      (* project.setdefault('items', []).append(new_item) *)
      v <~ lift (py_get project "items" (VList [])) ;;
      project <~ (match v with
                  | VList l => lift (py_setitem project "items" (VList (l ++ [new_item])))
                  | _ => raise AttributeError
                  end) ;;
      _ <~ update_project project ;;
      ret (Redirect "main_bp.project_detail" "success"
             ("Added '" ++ py_str name ++ "' to the project.")).
End Routes.

(** ** The unit label formatter ([template_filters.py]; [data_manager.py]
    carries the same function) *)


(** ** The list pages and the inventory page of [routes.py], with
    [save_new_project] of [data_manager.py] *)

(** [s.strip(c)] for a one-character [c]: the copies of [c] at both ends
    are taken off. *)
Fixpoint str_lstrip (c : ascii) (s : string) : string :=
  match s with
  | EmptyString => EmptyString
  | String a s' => if Ascii.eqb a c then str_lstrip c s' else s
  end.

Fixpoint str_rstrip (c : ascii) (s : string) : string :=
  match s with
  | EmptyString => EmptyString
  | String a s' =>
      match str_rstrip c s' with
      | EmptyString => if Ascii.eqb a c then EmptyString else String a EmptyString
      | r => String a r
      end
  end.

Definition str_strip (c : ascii) (s : string) : string :=
  str_rstrip c (str_lstrip c s).

(** [if item_id not in items_data: items_data[item_id] = {'id': item_id}],
    then [items_data[item_id][field] = value]. *)
Fixpoint inventory_set (item_id field value : string) (items : list (string * dict))
    : list (string * dict) :=
  match items with
  | [] => [(item_id, dict_set field (VStr value) [("id", VStr item_id)])]
  | (k, d) :: items' =>
      if String.eqb k item_id then (k, dict_set field (VStr value) d) :: items'
      else (k, d) :: inventory_set item_id field value items'
  end.

(** The first loop of the POST branch of [inventory_manager]: the fields
    [items[<id>][<field>]] grouped by id.  A key that does not split in
    three fails the unpacking with [ValueError]. *)
Definition inventory_rows (f : form) : result (list (string * dict)) :=
  rfor_each (form_items f)
    (fun items kv =>
       let '(key, value) := kv in
       if str_startswith "items[" key then
         match str_split "[" (str_strip "]" key) with
         | [_; item_id; field] => Ok (inventory_set item_id field value items)
         | _ => Raise ValueError
         end
       else Ok items)
    [].

(** [all(d.values())] *)
Definition all_truthy (d : dict) : bool :=
  forallb (fun kv => py_truthy (snd kv)) d.

(** What the POST branch of [inventory_manager] flashes before it sends
    the browser back to the inventory page.  The message of a failure ends
    in the text of the exception, which is not modelled. *)
Inductive inventory_flash : Type :=
| InvalidCategory
| InventoryUpdated (flash_message : string)
| InventoryError (e : exn).

Section Lists.
Context {B : Builtins}.

Definition save_new_project (project_name : pyval) : M string :=
  data <~ _load_json_data ;;
  new_project_id <~ fresh_uuid ;;
  let new_project :=
    VDict [("id", VStr new_project_id); ("name", project_name); ("items", VList [])] in
  match data with
  | VDict d =>
      match dict_get_default "projects" (VList []) d with
      | VList l =>
          _ <~ _save_json_data
                 (VDict (dict_set "projects" (VList (l ++ [new_project])) d)) ;;
          ret new_project_id
      | _ => raise AttributeError
      end
  | _ => raise AttributeError
  end.

(** [{"name": data.get('name'), "unit": data.get('unit'),
      "price": float(data.get('price', 0))}] *)
Definition row_data (data : dict) : result dict :=
  price <- py_float (dict_get_default "price" (VInt 0) data) ;;
  Ok [("name", dict_get_default "name" VNone data);
      ("unit", dict_get_default "unit" VNone data);
      ("price", VFloat price)].

(** The body of the second loop of the POST branch of [inventory_manager]. *)
Definition inventory_row (item_type : string) (kd : string * dict) : M unit :=
  let '(item_id, data) := kd in
  let action := dict_get_default "action" VNone data in
  if py_eqb action (VStr "delete") then
    delete_master_item item_type (VStr item_id)
  else if py_eqb action (VStr "update") then
    update_data <~ lift (row_data data) ;;
    if all_truthy update_data
    then update_master_item item_type (VStr item_id) (VDict update_data)
    else ret tt
  else if py_eqb action (VStr "create") then
    create_data <~ lift (row_data data) ;;
    if all_truthy create_data
    then add_master_item item_type (VDict create_data)
    else ret tt
  else ret tt.

(** The POST branch of [inventory_manager]: the rows are handled in the
    order of the form; [except (ValueError, TypeError, KeyError)] stops at
    the first row that raises one of them, with the earlier rows done. *)
Definition inventory_post (f : form) : M inventory_flash :=
  match form_get "item_type" f with
  | Some item_type =>
      if existsb (String.eqb item_type) ["labor"; "material"; "equipment"] then
        fun w =>
          match (items_data <~ lift (inventory_rows f) ;;
                 for_each items_data (fun _ kd => inventory_row item_type kd) tt) w with
          | (Ok _, w') =>
              (Ok (InventoryUpdated
                     (str_capitalize item_type ++ " inventory updated successfully.")),
               w')
          | (Raise e, w') =>
              if caught_vtk e then (Ok (InventoryError e), w') else (Raise e, w')
          end
      else ret InvalidCategory
  | None => ret InvalidCategory
  end.

(** The entry of the inventory page for a master item. *)
Definition standardized (item : pyval) : result pyval :=
  id <- py_get item "id" VNone ;;
  name <- py_get item "name" (VStr "N/A") ;;
  unit <- py_get item "Unit" VNone ;;
  price <- py_get item "Price" VNone ;;
  Ok (VDict [("id", id); ("name", name); ("unit", unit); ("price", price)]).

(** The GET branch of [inventory_manager]. *)
Definition inventory_page : M response :=
  raw_items <~ get_master_data "labor" ;;
  labor <~ lift (rmap standardized raw_items) ;;
  raw_items <~ get_master_data "material" ;;
  material <~ lift (rmap standardized raw_items) ;;
  raw_items <~ get_master_data "equipment" ;;
  equipment <~ lift (rmap standardized raw_items) ;;
  ret (Render "inventory_manager.html"
         [("labor", VList labor); ("material", VList material);
          ("equipment", VList equipment)]).

Definition inventory_manager (req : request) : M (inventory_flash + response) :=
  if String.eqb (method req) "POST"
  then r <~ inventory_post (rform req) ;; ret (inl r)
  else r <~ inventory_page ;; ret (inr r).

Definition categories_list (req : request) : M response :=
  if String.eqb (method req) "POST" then
    let category_name := opt_str (form_get "category_name" (rform req)) in
    if py_truthy category_name then
      _ <~ add_new_category category_name ;;
      ret (Redirect "main_bp.categories_list" "success"
             ("Category '" ++ py_str category_name ++ "' created successfully."))
    else
      ret (Redirect "main_bp.categories_list" "error" "Category name cannot be empty.")
  else
    categories <~ get_all_categories ;;
    ret (Render "categories_list.html" [("categories", categories)]).

(** The body of the inner loop of [projects_list]:
    [grand_total += quantity * unit_price]. *)
Definition add_line (grand_total : pyval) (item : pyval) : result pyval :=
  quantity <- py_get item "quantity" (VInt 0) ;;
  unit_price <- py_get item "unit_price" (VInt 0) ;;
  t <- py_mul quantity unit_price ;;
  py_add grand_total t.

(** The body of the outer loop: the project with its [grand_total]. *)
Definition with_grand_total (project : pyval) : result pyval :=
  v <- py_get project "items" (VList []) ;;
  items <- py_iter v ;;
  grand_total <- rfor_each items add_line (VInt 0) ;;
  py_setitem project "grand_total" grand_total.

(** [projects_list].  A POST with a name answers with a redirect to the
    new project; a POST without one flashes an error and goes on to the
    list, as a GET does: the answer is the message flashed on the way, if
    any, and the response. *)
Definition projects_list (req : request) : M (option (string * string) * response) :=
  let listing (flashed : option (string * string)) :=
    all_projects <~ get_projects ;;
    ps <~ lift (py_iter all_projects) ;;
    ps' <~ lift (rmap with_grand_total ps) ;;
    let shown := match all_projects with VList _ => VList ps' | _ => all_projects end in
    ret (flashed, Render "projects_list.html" [("projects", shown)]) in
  if String.eqb (method req) "POST" then
    let project_name := opt_str (form_get "project_name" (rform req)) in
    if py_truthy project_name then
      _ <~ save_new_project project_name ;;
      ret (None, Redirect "main_bp.project_detail" "success"
                   ("Project '" ++ py_str project_name ++ "' created."))
    else listing (Some ("error", "Project name cannot be empty."))
  else listing None.
End Lists.

(** ** A sample of the built-in conversions

    [sample_builtins] implements the interface on a fragment of what CPython
    accepts, enough to run the program on concrete inputs: [int()] on signed
    decimal digits; [float()] on [nan], [inf], [infinity] and signed decimals
    of at most 15 digits, where one correctly rounded division gives the
    nearest binary64; [repr()] on the floats whose exact decimal expansion
    has at most 15 digits and needs no exponent.  Outside the fragment
    [sample_int] and [sample_float] refuse the string and [sample_repr]
    prints nothing; no theorem depends on that. *)

Definition is_digit (c : ascii) : bool :=
  let n := nat_of_ascii c in (48 <=? n)%nat && (n <=? 57)%nat.

Fixpoint digits_val (s : string) (acc : Z) : option Z :=
  match s with
  | EmptyString => Some acc
  | String c s' =>
      if is_digit c
      then digits_val s' (10 * acc + Z.of_nat (nat_of_ascii c - 48))
      else None
  end.

(** The sign in front of a number and the rest of it. *)
Definition split_sign (s : string) : bool * string :=
  match s with
  | String "-" s' => (true, s')
  | String "+" s' => (false, s')
  | _ => (false, s)
  end.

Definition sample_int (s : string) : option Z :=
  let (neg, body) := split_sign s in
  match body with
  | EmptyString => None
  | _ => z ← digits_val body 0; Some (if neg then - z else z)
  end.

Definition float_of_ratio (neg : bool) (n d : Z) : float :=
  let q := (SF2Prim (binary_normalize prec emax n 0 false)
            / SF2Prim (binary_normalize prec emax d 0 false))%float in
  if neg then (- q)%float else q.

Definition sample_float (s : string) : option float :=
  let (neg, body) := split_sign (str_lower s) in
  if String.eqb body "nan" then Some nan
  else if String.eqb body "inf" || String.eqb body "infinity"
  then Some (if neg then neg_infinity else infinity)
  else
    match str_split "." body with
    | [ip] =>
        if (0 <? String.length ip)%nat && (String.length ip <=? 15)%nat
        then n ← digits_val ip 0; Some (float_of_ratio neg n 1)
        else None
    | [ip; fp] =>
        let len := (String.length ip + String.length fp)%nat in
        if (0 <? len)%nat && (len <=? 15)%nat
        then n ← digits_val (ip ++ fp) 0;
             Some (float_of_ratio neg n (10 ^ Z.of_nat (String.length fp)))
        else None
    | _ => None
    end.

(** [n] in decimal on exactly [width] digits. *)
Fixpoint digits_of (width : nat) (n : Z) : string :=
  match width with
  | O => EmptyString
  | S w => digits_of w (n / 10) ++ String (ascii_of_nat (48 + Z.to_nat (n mod 10))) EmptyString
  end.

(** The digits of a fraction without the zeros at its end, one digit at least. *)
Fixpoint strip_zeros (width : nat) (n : Z) : nat * Z :=
  match width with
  | O => (1%nat, 0)
  | S O => (1%nat, n)
  | S w => if n mod 10 =? 0 then strip_zeros w (n / 10) else (width, n)
  end.

Definition sample_repr (f : float) : string :=
  match Prim2SF f with
  | S754_nan => "nan"
  | S754_infinity s => if s then "-inf" else "inf"
  | S754_zero s => if s then "-0.0" else "0.0"
  | S754_finite s m e =>
      let sign := if s then "-" else "" in
      if 0 <=? e then
        let n := Z.pos m * 2 ^ e in
        if n <? 10 ^ 15 then sign ++ pretty n ++ ".0" else ""
      else
        let d := Z.to_nat (- e) in
        let ip := Z.pos m / 2 ^ (- e) in
        let '(w, fr) := strip_zeros d ((Z.pos m mod 2 ^ (- e)) * 5 ^ (- e)) in
        let digits := (String.length (pretty ip) + w)%nat in
        if (digits <=? 15)%nat && ((1 <=? ip) || (w <=? 4)%nat || (10 ^ (Z.of_nat w - 4) <=? fr))
        then sign ++ pretty ip ++ "." ++ digits_of w fr
        else ""
  end.

#[export] Instance sample_builtins : Builtins := {|
  str_to_float := sample_float;
  str_to_int := sample_int;
  float_repr := sample_repr;
  container_repr := fun _ => "";
  uuid4 := fun n => "uuid-" ++ pretty n
|}.

(** ** Definitions the statements are written with *)



Definition is_dict (v : pyval) : bool :=
  match v with VDict _ => true | _ => false end.

(** [x.get('id') == id] on a dict. *)
Definition has_id (id : pyval) (x : pyval) : bool :=
  match x with
  | VDict d => py_eqb (dict_get_default "id" VNone d) id
  | _ => false
  end.

(** The categories of the stored document, when it has the shape of the
    data model: a dict whose [categories], if any, is a list.  A missing or
    undecodable file counts as the empty document. *)
Definition stored_categories (w : world) : option (list pyval) :=
  match json_file w with
  | None => Some []
  | Some (VDict d) =>
      match dict_get "categories" d with
      | None => Some []
      | Some (VList l) => Some l
      | Some _ => None
      end
  | Some _ => None
  end.

(** The stored document has the shape of the data model and none of its
    categories has the id. *)
Definition no_category (category_id : pyval) (w : world) : Prop :=
  exists cats,
    stored_categories w = Some cats /\
    Forall (fun c => is_dict c = true /\ has_id category_id c = false) cats.

(** A computation that leaves [data.json] as it is. *)
Definition keeps_json {A} (m : M A) : Prop :=
  forall w, json_file (snd (m w)) = json_file w.

(** A computation that writes at most the catalog of [item_type]. *)
Definition writes_only_csv {A} (item_type : string) (m : M A) : Prop :=
  forall w,
    (forall t, t <> item_type -> csv_files (snd (m w)) !! t = csv_files w !! t) /\
    exists n, writes (snd (m w)) = (replicate n (csv_name item_type) ++ writes w)%list.

(** [w] after [n] more identifiers were drawn. *)
Definition bump (n : nat) (w : world) : world :=
  World (csv_files w) (json_file w) (writes w) (uuid_next w + n).

Definition str_or_none (v : pyval) : bool :=
  match v with VStr _ | VNone => true | _ => false end.

(** What [_load_master_csv] returns: dicts whose [id] is a string, or
    [None] where a short row left the serial number out. *)
Definition loaded_item (v : pyval) : bool :=
  match v with
  | VDict d =>
      match dict_get "id" d with
      | Some k => str_or_none k
      | None => false
      end
  | _ => false
  end.

(** The id, name, unit and price of a master item of the data model: a dict
    with three strings and a float under [id], [name], [Unit], [Price]. *)
Definition master_item_fields (v : pyval) : option (string * string * string * float) :=
  match v with
  | VDict d =>
      match dict_get "id" d, dict_get "name" d, dict_get "Unit" d, dict_get "Price" d with
      | Some (VStr i), Some (VStr n), Some (VStr u), Some (VFloat p) => Some (i, n, u, p)
      | _, _, _, _ => None
      end
  | _ => None
  end.

(** A master item whose price [float()] reads back from its [repr()]. *)
Definition storable_item `{Builtins} (v : pyval) : Prop :=
  exists i n u p,
    master_item_fields v = Some (i, n, u, p) /\
    str_to_float (float_repr p) = Some p.

(** The row of the table a master item is saved as. *)
Definition csv_row_of `{Builtins} (v : pyval) : list string :=
  match master_item_fields v with
  | Some (i, n, u, p) => [i; n; u; float_repr p]
  | None => []
  end.

Definition lacks_key (k : string) (v : pyval) : bool :=
  match v with
  | VDict d => negb (dict_mem k d)
  | _ => false
  end.

(** Every value of the dict is a string or [None]. *)
Definition str_values (d : dict) : Prop :=
  forall k v, dict_get k d = Some v -> str_or_none v = true.

(** The dict a saved master item is loaded as. *)
Definition reloaded (i n u : string) (p : float) : pyval :=
  VDict [("SerialNo", VStr i); ("Unit", VStr u); ("Price", VFloat p);
         ("id", VStr i); ("name", VStr n)].

(** The ids of a catalog that [int()] reads, in the order of the items. *)
Definition parsed_ids `{Builtins} (items : list pyval) : list Z :=
  flat_map
    (fun item =>
       match (v <- py_get item "id" (VInt 0) ;; py_int v) with
       | Ok n => [n]
       | Raise _ => []
       end)
    items.

(** The maximum of the parsed ids, 0 when none parses. *)
Definition max_of_parsed (ids : list Z) : Z :=
  match ids with
  | [] => 0
  | n :: ns => fold_left Z.max ns n
  end.

(** The maximum of 0 and the parsed ids. *)
Definition max_with_zero (ids : list Z) : Z := fold_left Z.max ids 0.

(** The row an item is saved as, when saving it does not raise. *)
Definition saved_row `{Builtins} (item_type : string) (v : pyval) : list string :=
  match save_row item_type v with
  | Ok r => r
  | Raise _ => []
  end.

(** A selected line as [parse_form_data] returns it: a dict of form fields. *)
Definition form_line (v : pyval) : Prop :=
  exists d, v = VDict d /\ str_values d.

(** A key [item_type-index] of the items [parse_form_data] collects. *)
Definition item_key (k : string) : Prop :=
  exists a b, k = a ++ String "-" b /\ str_has "-" a = false /\ str_has "-" b = false.

(** [float()] reads the Price cell of a catalog row. *)
Definition price_reads `{Builtins} (fieldnames row : list string) : bool :=
  match py_float (dict_get_default "Price" (VFloat 0%float)
                    (DictReader_row fieldnames row)) with
  | Ok _ => true
  | Raise _ => false
  end.

(** The catalog of [item_type] is missing, or [float()] reads the Price
    cell of each of its rows: [_load_master_csv] does not raise on it. *)
Definition catalog_reads `{Builtins} (item_type : string) (w : world) : bool :=
  match csv_files w !! item_type with
  | None => true
  | Some f => forallb (price_reads (header f)) (DictReader_rows f)
  end.

Definition catalogs_read `{Builtins} (w : world) : bool :=
  catalog_reads "labor" w && catalog_reads "material" w && catalog_reads "equipment" w.

(** The name field is missing from the form or is the empty string. *)
Definition name_empty (f : form) : bool :=
  match form_get "name" f with
  | None => true
  | Some s => String.eqb s ""
  end.

(** The field [k] of a record. *)
Definition field (k : string) (v : pyval) : option pyval :=
  match v with
  | VDict d => dict_get k d
  | _ => None
  end.

Definition items_ok (items : list (string * dict)) : Prop :=
  Forall (fun kd => item_key (fst kd) /\ str_values (snd kd)) items.

Definition lines_ok (data : list (string * list pyval)) : Prop :=
  Forall (fun kl => Forall form_line (snd kl)) data.

(** Every key of the map is a string or [None]. *)
Definition str_keys (m : list (pyval * pyval)) : Prop :=
  Forall (fun kv => str_or_none (fst kv) = true) m.

(** The record [process_work_item_form] returns when no line is kept. *)
Definition empty_record (id name unit_of_measure : string) (basis_quantity : float)
    : pyval :=
  VDict [("id", VStr id); ("name", VStr name);
         ("unit_of_measure", VStr unit_of_measure);
         ("basis_quantity", VFloat basis_quantity);
         ("labor", VList []); ("material", VList []); ("equipment", VList []);
         ("labor_total", VInt 0); ("material_total", VInt 0);
         ("equipment_total", VInt 0);
         ("total_cost_per_unit", VInt 0);
         ("contractor_overhead_15_percent", VFloat 0%float);
         ("sum_total", VFloat 0%float);
         ("price_per_unit", VFloat (0 / basis_quantity)%float)].

(** The basis quantity the form asks for: 1.0 when the field is missing,
    is not a number for [float()], or is at most 0. *)
Definition basis_of `{Builtins} (f : form) : float :=
  match form_get "basis_quantity" f with
  | None => 1%float
  | Some s =>
      match str_to_float s with
      | None => 1%float
      | Some b => if PrimFloat.leb b 0%float then 1%float else b
      end
  end.

(** The unit of measure the form asks for. *)
Definition unit_of (f : form) : string :=
  match form_get "unit_of_measure" f with
  | Some s => s
  | None => "Per Item"
  end.

(** The id of the record, [work_item_id or str(uuid.uuid4())], and the
    state after it was chosen. *)
Definition record_id `{Builtins} (work_item_id : option string) (w : world)
    : string * world :=
  match work_item_id with
  | Some (String c s) => (String c s, w)
  | _ => (uuid4 (uuid_next w), bump 1 w)
  end.

(** What [process_work_item_form] comes to for a form with a name: the
    three catalogs are loaded in turn, and the record has no line. *)
Definition rollup_outcome `{Builtins} (f : form) (name : string)
    (work_item_id : option string) (w : world) : result (option pyval) * world :=
  let (id, w0) := record_id work_item_id w in
  match get_master_item_map "labor" w0 with
  | (Raise e, w1) => (Raise e, w1)
  | (Ok _, w1) =>
      match get_master_item_map "material" w1 with
      | (Raise e, w2) => (Raise e, w2)
      | (Ok _, w2) =>
          match get_master_item_map "equipment" w2 with
          | (Raise e, w3) => (Raise e, w3)
          | (Ok _, w3) =>
              (Ok (Some (empty_record id name (unit_of f) (basis_of f))), w3)
          end
      end
  end.

(** The work items of a category, when its [work_items] is a list. *)
Definition work_items (category : pyval) : list pyval :=
  match field "work_items" category with
  | Some (VList l) => l
  | _ => []
  end.

(** What the category page shows for a stored work item: the basis
    quantity as stored, 1.0 when the key is absent; the price per unit as
    stored, and when the key is absent [sum_total / basis_quantity] if the
    basis quantity is above 0 and [sum_total] otherwise ([sum_total] read
    as 0 when absent); every other field as stored. *)
Definition migrated (stored shown : pyval) : Prop :=
  exists ds dp,
    stored = VDict ds /\ shown = VDict dp /\
    let basis := dict_get_default "basis_quantity" (VFloat 1%float) ds in
    let total := dict_get_default "sum_total" (VInt 0) ds in
    dict_get "basis_quantity" dp = Some basis /\
    match dict_get "price_per_unit" ds with
    | Some price => dict_get "price_per_unit" dp = Some price
    | None =>
        exists price,
          dict_get "price_per_unit" dp = Some price /\
          ((py_gt_zero basis = Ok true /\ py_truediv total basis = Ok price) \/
           (py_gt_zero basis = Ok false /\ price = total))
    end /\
    (forall k, k <> "basis_quantity" -> k <> "price_per_unit" ->
               dict_get k dp = dict_get k ds).

(** A computation that writes no file: it leaves the state as it was, but
    for the identifiers it drew. *)
Definition reads_only {A} (m : M A) : Prop :=
  forall w, exists n, snd (m w) = bump n w.

(** The state after the catalog of [item_type] was written with [rows]
    under its four headers. *)
Definition catalog_written (item_type : string) (rows : list (list string))
    (w : world) : world :=
  World (<[item_type := CsvFile ["SerialNo"; type_key_of item_type; "Unit"; "Price"]
                                rows]> (csv_files w))
        (json_file w) (csv_name item_type :: writes w) (uuid_next w).

(** The stored document is the dict [d]; its categories are [pre], then
    the category [c], then [post]; [c] is the first with the id. *)
Definition first_category (category_id : pyval) (w : world) (d : dict)
    (pre : list pyval) (c : dict) (post : list pyval) : Prop :=
  json_file w = Some (VDict d) /\
  dict_get "categories" d = Some (VList (pre ++ VDict c :: post)) /\
  Forall (fun x => is_dict x = true /\ has_id category_id x = false) pre /\
  has_id category_id (VDict c) = true.

(** The state after the document [d] was saved with [cats] for its
    categories. *)
Definition categories_saved (d : dict) (cats : list pyval) (w : world) : world :=
  World (csv_files w) (Some (VDict (dict_set "categories" (VList cats) d)))
        (json_name :: writes w) (uuid_next w).

(** [c] with [l] for its work items. *)
Definition with_work_items (c : dict) (l : list pyval) : pyval :=
  VDict (dict_set "work_items" (VList l) c).

(** The document the program works on: what [data.json] holds, the empty
    document when the file is missing or is not JSON. *)
Definition document (w : world) : pyval :=
  match json_file w with
  | Some v => v
  | None => default_data
  end.

(** The state after the document [d] was saved with [ps] for its projects. *)
Definition projects_saved (d : dict) (ps : list pyval) (w : world) : world :=
  World (csv_files w) (Some (VDict (dict_set "projects" (VList ps) d)))
        (json_name :: writes w) (uuid_next w).

(** The category and the project as they are created. *)
Definition new_category (id name : string) : pyval :=
  VDict [("id", VStr id); ("name", VStr name); ("work_items", VList [])].

Definition new_project (id name : string) : pyval :=
  VDict [("id", VStr id); ("name", VStr name); ("items", VList [])].

(** The form field is missing or is the empty string. *)
Definition field_empty (k : string) (f : form) : bool :=
  match form_get k f with
  | None => true
  | Some s => String.eqb s ""
  end.

(** The inventory form names one of the three catalogs. *)
Definition names_catalog (f : form) : bool :=
  match form_get "item_type" f with
  | Some item_type => existsb (String.eqb item_type) ["labor"; "material"; "equipment"]
  | None => false
  end.

(** A row of the inventory form that asks for nothing to be done: its
    action is none of delete, update and create, or it is an update or a
    create whose price [float()] reads and whose name, unit or price is
    empty or zero. *)
Definition idle_row `{Builtins} (kd : string * dict) : bool :=
  let data := snd kd in
  let action := dict_get_default "action" VNone data in
  if py_eqb action (VStr "delete") then false
  else if py_eqb action (VStr "update") || py_eqb action (VStr "create") then
    match py_float (dict_get_default "price" (VInt 0) data) with
    | Ok price =>
        negb (py_truthy (dict_get_default "name" VNone data) &&
              py_truthy (dict_get_default "unit" VNone data) &&
              py_truthy (VFloat price))
    | Raise _ => false
    end
  else true.

(** Every value of the dict is a string that is not empty. *)
Definition filled_values (d : dict) : Prop :=
  forall k v, dict_get k d = Some v -> exists s, v = VStr s /\ s <> "".

(** A line the form selects: a dict with an id whose values are strings
    that are not empty. *)
Definition selected_line (v : pyval) : Prop :=
  exists d, v = VDict d /\ dict_mem "id" d = true /\ filled_values d.

(** The lines of one kind: the kind has no dash in it, and there is a
    line at least. *)
Definition selected_lines (kl : string * list pyval) : Prop :=
  str_has "-" (fst kl) = false /\ snd kl <> [] /\ Forall selected_line (snd kl).

(** A master item as every reader of a catalog can rely on it: a dict
    with an id and a float for its price. *)
Definition priced_item (v : pyval) : Prop :=
  exists d p, v = VDict d /\ dict_mem "id" d = true /\
              dict_get "Price" d = Some (VFloat p).

(** The projects of the stored document, when it has the shape of the
    data model; a missing or undecodable file counts as the empty
    document. *)
Definition stored_projects (w : world) : option (list pyval) :=
  match json_file w with
  | None => Some []
  | Some (VDict d) =>
      match dict_get "projects" d with
      | None => Some []
      | Some (VList l) => Some l
      | Some _ => None
      end
  | Some _ => None
  end.

(** The stored document has the shape of the data model and none of its
    projects has the id. *)
Definition no_project (project_id : pyval) (w : world) : Prop :=
  exists ps,
    stored_projects w = Some ps /\
    Forall (fun p => is_dict p = true /\ has_id project_id p = false) ps.

(** The text has no square bracket. *)
Definition bracket_free (s : string) : bool :=
  negb (str_has "[" s) && negb (str_has "]" s).

(** The name of the field [field] of the row [id] of the inventory form. *)
Definition inventory_key (id field : string) : string :=
  "items[" ++ id ++ "][" ++ field ++ "]".

(** The document is the dict [d]; its projects are [pre], then the project
    [p], then [post], all of them records; [p] is the first with the id. *)
Definition first_project (project_id : pyval) (w : world) (d : dict)
    (pre : list pyval) (p : dict) (post : list pyval) : Prop :=
  document w = VDict d /\
  dict_get "projects" d = Some (VList (pre ++ VDict p :: post)) /\
  Forall (fun x => is_dict x = true /\ has_id project_id x = false) pre /\
  has_id project_id (VDict p) = true /\
  Forall (fun x => is_dict x = true) post.

(** The projects [update_project] saves when [p'] takes the place of the
    first project with its id: the later projects with the same id are
    replaced by it as well. *)
Definition projects_with (pre : list pyval) (p' : dict) (post : list pyval)
    : list pyval :=
  (pre ++ VDict p' ::
   map (fun q => if has_id (dict_get_default "id" VNone p') q then VDict p' else q)
       post)%list.

(** No key of the dict comes twice. *)
Fixpoint unique_keys (d : dict) : Prop :=
  match d with
  | [] => True
  | (k, _) :: d' => dict_get k d' = None /\ unique_keys d'
  end.

(** ** Example data *)

(** Two catalogs with one rate each, a document with one category holding
    one legacy work item (basis quantity 0, no price per unit), and a
    project with one line of it. *)
Definition example_document : pyval :=
  VDict
    [("categories",
      VList
        [VDict [("id", VStr "c1"); ("name", VStr "Walls");
                ("work_items",
                 VList [VDict [("id", VStr "w1"); ("name", VStr "Old wall");
                               ("basis_quantity", VInt 0);
                               ("sum_total", VFloat 10%float)]])]]);
     ("projects",
      VList
        [VDict [("id", VStr "p1"); ("name", VStr "House");
                ("items",
                 VList [VDict [("instance_id", VStr "i1");
                               ("work_item_id", VStr "w1");
                               ("name", VStr "Old wall");
                               ("unit_of_measure", VStr "Cubic Meter");
                               ("unit_price", VFloat 10%float);
                               ("quantity", VFloat 2%float)]])]])].

Definition example_world : world :=
  World
    (<["labor" := CsvFile ["SerialNo"; "LaborType"; "Unit"; "Price"]
                          [["1"; "Mason"; "PerDay"; "100"]]]>
       (<["material" := CsvFile ["SerialNo"; "MaterialType"; "Unit"; "Price"]
                                [["1"; "Cement"; "PerKg"; "10"]]]> ∅))
    (Some example_document) [] 0.

(** The scenario of the specification: two days of the mason at 100 and
    five kilos of cement at 10, for a basis quantity of 2. *)
Definition example_form : form :=
  [("name", "Brick wall"); ("unit_of_measure", "Cubic Meter");
   ("basis_quantity", "2");
   ("labor-0-id", "1"); ("labor-0-quantity", "2");
   ("material-0-id", "1"); ("material-0-quantity", "5")].

(** A form whose basis quantity reads as NaN. *)
Definition nan_basis_form : form :=
  [("name", "Brick wall"); ("basis_quantity", "nan")].

(** A labor catalog whose only serial number is negative. *)
Definition negative_id_world : world :=
  World
    (<["labor" := CsvFile ["SerialNo"; "LaborType"; "Unit"; "Price"]
                          [["-3"; "Mason"; "PerDay"; "100"]]]> ∅)
    None [] 0.

Definition new_master_item : pyval :=
  VDict [("name", VStr "Helper"); ("unit", VStr "PerDay"); ("price", VFloat 50%float)].

Definition example_master_items : list pyval :=
  [VDict [("id", VStr "1"); ("name", VStr "Mason"); ("Unit", VStr "PerDay");
          ("Price", VFloat 100%float)];
   VDict [("id", VStr "2"); ("name", VStr "Cement, grey"); ("Unit", VStr "PerKg");
          ("Price", VFloat 2.5%float)]].

(** A labor catalog in which two rows share the serial number 1. *)
Definition duplicate_serial_world : world :=
  World
    (<["labor" := CsvFile ["SerialNo"; "LaborType"; "Unit"; "Price"]
                          [["1"; "Mason"; "PerDay"; "100"];
                           ["1"; "Foreman"; "PerDay"; "150"];
                           ["2"; "Helper"; "PerDay"; "50"]]]> ∅)
    None [] 0.

(** The first row of [duplicate_serial_world] as it is loaded. *)
Definition loaded_mason : dict :=
  [("SerialNo", VStr "1"); ("Unit", VStr "PerDay"); ("Price", VFloat 100%float);
   ("id", VStr "1"); ("name", VStr "Mason")].

Definition loaded_foreman : dict :=
  [("SerialNo", VStr "1"); ("Unit", VStr "PerDay"); ("Price", VFloat 150%float);
   ("id", VStr "1"); ("name", VStr "Foreman")].

Definition loaded_helper : dict :=
  [("SerialNo", VStr "2"); ("Unit", VStr "PerDay"); ("Price", VFloat 50%float);
   ("id", VStr "2"); ("name", VStr "Helper")].

(** A labor catalog whose only row stops before the unit and the price. *)
Definition short_row_world : world :=
  World
    (<["labor" := CsvFile ["SerialNo"; "LaborType"; "Unit"; "Price"]
                          [["1"; "Mason"]]]> ∅)
    None [] 0.

(** An inventory form that asks for a new labor rate with the price 0. *)
Definition zero_price_form : form :=
  [("item_type", "labor"); ("items[new][action]", "create");
   ("items[new][name]", "Helper"); ("items[new][unit]", "PerDay");
   ("items[new][price]", "0")].

(** The parts of [example_document]. *)
Definition example_work_item : pyval :=
  VDict [("id", VStr "w1"); ("name", VStr "Old wall");
         ("basis_quantity", VInt 0); ("sum_total", VFloat 10%float)].

Definition example_category : dict :=
  [("id", VStr "c1"); ("name", VStr "Walls");
   ("work_items", VList [example_work_item])].

Definition example_project : dict :=
  [("id", VStr "p1"); ("name", VStr "House");
   ("items",
    VList [VDict [("instance_id", VStr "i1");
                  ("work_item_id", VStr "w1");
                  ("name", VStr "Old wall");
                  ("unit_of_measure", VStr "Cubic Meter");
                  ("unit_price", VFloat 10%float);
                  ("quantity", VFloat 2%float)]])].

Definition example_fields : dict :=
  [("categories", VList [VDict example_category]);
   ("projects", VList [VDict example_project])].

(** The line of [example_project], and the line with the quantity 5. *)
Definition example_line (quantity : float) : pyval :=
  VDict [("instance_id", VStr "i1"); ("work_item_id", VStr "w1");
         ("name", VStr "Old wall"); ("unit_of_measure", VStr "Cubic Meter");
         ("unit_price", VFloat 10%float); ("quantity", VFloat quantity)].

(** * Theorems *)

(** ** The unit label formatter *)







(** ** The monad *)

Lemma bind_ok {A C} (m : M A) (k : A -> M C) w a w' :
  m w = (Ok a, w') -> bind m k w = k a w'.
Proof. unfold bind. now intros ->. Qed.

Lemma bind_raise {A C} (m : M A) (k : A -> M C) w e w' :
  m w = (Raise e, w') -> bind m k w = (Raise e, w').
Proof. unfold bind. now intros ->. Qed.

Lemma bind_lift_ok {A C} (r : result A) (k : A -> M C) w a :
  r = Ok a -> bind (lift r) k w = k a w.
Proof. now intros ->. Qed.

Lemma bind_lift_raise {A C} (r : result A) (k : A -> M C) w e :
  r = Raise e -> bind (lift r) k w = (Raise e, w).
Proof. now intros ->. Qed.

(** ** What a catalog operation leaves alone *)

Section Frame.
Context {B : Builtins}.

Create HintDb frame.

Lemma keeps_json_ret {A} (a : A) : keeps_json (ret a).
Proof. now intros w. Qed.

Lemma keeps_json_raise {A} e : keeps_json (@raise A e).
Proof. now intros w. Qed.

Lemma keeps_json_lift {A} (r : result A) : keeps_json (lift r).
Proof. now intros w. Qed.

Lemma keeps_json_bind {A C} (m : M A) (k : A -> M C) :
  keeps_json m -> (forall a, keeps_json (k a)) -> keeps_json (bind m k).
Proof.
  intros Hm Hk w. unfold bind. specialize (Hm w).
  destruct (m w) as [[a | e] w1]; cbn in *; [| exact Hm].
  now rewrite Hk.
Qed.

Lemma keeps_json_for_each {A S} (l : list A) (body : S -> A -> M S) :
  (forall s x, keeps_json (body s x)) -> forall s, keeps_json (for_each l body s).
Proof.
  intros Hb. induction l as [| x l IH]; intros s; cbn [for_each].
  - apply keeps_json_ret.
  - apply keeps_json_bind; [apply Hb | exact IH].
Qed.

Lemma keeps_json_fresh_uuid : keeps_json fresh_uuid.
Proof. now intros w. Qed.

Lemma keeps_json_write_csv t f : keeps_json (write_csv t f).
Proof. now intros w. Qed.

Hint Resolve keeps_json_ret keeps_json_raise keeps_json_lift keeps_json_fresh_uuid
  keeps_json_write_csv : frame.

Lemma keeps_json_load_row t row : keeps_json (load_row t row).
Proof.
  unfold load_row. apply keeps_json_bind.
  - destruct (dict_get "SerialNo" row); [auto with frame |].
    apply keeps_json_bind; auto with frame.
  - intros r. apply keeps_json_bind; auto with frame.
Qed.

Lemma keeps_json_load t : keeps_json (_load_master_csv t).
Proof.
  intros w. unfold _load_master_csv.
  destruct (csv_files w !! t) as [f |]; [| reflexivity].
  apply keeps_json_for_each. intros s x.
  apply keeps_json_bind; [apply keeps_json_load_row | auto with frame].
Qed.

Lemma keeps_json_save t data : keeps_json (_save_master_csv t data).
Proof.
  unfold _save_master_csv. destruct data as [| x data]; auto with frame.
  destruct (written_rows _ _) as [rs [e |]];
    apply keeps_json_bind; auto with frame.
Qed.

Lemma keeps_json_delete_master_item t id : keeps_json (delete_master_item t id).
Proof.
  unfold delete_master_item.
  apply keeps_json_bind; [apply keeps_json_load |]. intros items.
  apply keeps_json_bind; [apply keeps_json_lift |]. intros keep.
  apply keeps_json_save.
Qed.

(** What the document readers return depends on [data.json] only. *)
Lemma find_work_item_by_id_json id w1 w2 :
  json_file w1 = json_file w2 ->
  fst (find_work_item_by_id id w1) = fst (find_work_item_by_id id w2).
Proof.
  intros H. unfold find_work_item_by_id, get_all_categories, _load_json_data, bind, lift.
  rewrite H.
  destruct (py_get _ _ _) as [cats | e]; [| reflexivity].
  destruct (py_iter cats) as [l | e]; reflexivity.
Qed.

Lemma writes_only_ret {A} t (a : A) : writes_only_csv t (ret a).
Proof. intros w. split; [reflexivity | now exists 0%nat]. Qed.

Lemma writes_only_raise {A} t e : writes_only_csv t (@raise A e).
Proof. intros w. split; [reflexivity | now exists 0%nat]. Qed.

Lemma writes_only_lift {A} t (r : result A) : writes_only_csv t (lift r).
Proof. intros w. split; [reflexivity | now exists 0%nat]. Qed.

Lemma writes_only_fresh_uuid t : writes_only_csv t fresh_uuid.
Proof. intros w. split; [reflexivity | now exists 0%nat]. Qed.

Lemma writes_only_write_csv t f : writes_only_csv t (write_csv t f).
Proof.
  intros w. split.
  - intros t' Hne. cbn. now rewrite lookup_insert_ne.
  - now exists 1%nat.
Qed.

Lemma writes_only_bind {A C} t (m : M A) (k : A -> M C) :
  writes_only_csv t m -> (forall a, writes_only_csv t (k a)) ->
  writes_only_csv t (bind m k).
Proof.
  intros Hm Hk w. unfold bind. destruct (Hm w) as [H1 [n Hn]].
  destruct (m w) as [[a | e] w1]; cbn in *.
  - destruct (Hk a w1) as [H2 [n' Hn']]. split.
    + intros t' Hne. now rewrite H2, H1.
    + exists (n' + n)%nat. rewrite Hn', Hn, replicate_add.
      now rewrite <- app_assoc.
  - split; [exact H1 | now exists n].
Qed.

Lemma writes_only_for_each {A S} t (l : list A) (body : S -> A -> M S) :
  (forall s x, writes_only_csv t (body s x)) ->
  forall s, writes_only_csv t (for_each l body s).
Proof.
  intros Hb. induction l as [| x l IH]; intros s; cbn [for_each].
  - apply writes_only_ret.
  - apply writes_only_bind; [apply Hb | exact IH].
Qed.

Hint Resolve writes_only_ret writes_only_raise writes_only_lift
  writes_only_fresh_uuid writes_only_write_csv : frame.

Lemma writes_only_load t : writes_only_csv t (_load_master_csv t).
Proof.
  intros w. unfold _load_master_csv.
  destruct (csv_files w !! t) as [f |].
  - apply writes_only_for_each. intros s x.
    apply writes_only_bind; [| auto with frame].
    unfold load_row. apply writes_only_bind.
    + destruct (dict_get "SerialNo" _); [auto with frame |].
      apply writes_only_bind; auto with frame.
    + intros r. apply writes_only_bind; auto with frame.
  - split; [reflexivity | now exists 0%nat].
Qed.

Lemma writes_only_save t data : writes_only_csv t (_save_master_csv t data).
Proof.
  unfold _save_master_csv. destruct data as [| x data]; auto with frame.
  destruct (written_rows _ _) as [rs [e |]];
    apply writes_only_bind; auto with frame.
Qed.

Lemma writes_only_delete_master_item t id :
  writes_only_csv t (delete_master_item t id).
Proof.
  unfold delete_master_item.
  apply writes_only_bind; [apply writes_only_load |]. intros items.
  apply writes_only_bind; [apply writes_only_lift |]. intros keep.
  apply writes_only_save.
Qed.

(** C9. Deleting a master item never touches [data.json]: whatever the
    catalogs and the document hold, and whether the deletion ends or
    raises, the document afterwards is the document before, so every work
    item found in it (with the names, prices, subtotals and totals it
    snapshotted) is the same; only the catalog of the item's type is
    written. *)
Theorem delete_master_item_keeps_work_items :
  forall (item_type : string) (item_id : pyval) (w : world),
    let w' := snd (delete_master_item item_type item_id w) in
    json_file w' = json_file w /\
    (forall work_item_id,
        fst (find_work_item_by_id work_item_id w') =
        fst (find_work_item_by_id work_item_id w)) /\
    (forall t, t <> item_type -> csv_files w' !! t = csv_files w !! t) /\
    (exists n, writes w' = (replicate n (csv_name item_type) ++ writes w)%list).
Proof.
  intros t id w w'.
  pose proof (keeps_json_delete_master_item t id w) as Hj.
  destruct (writes_only_delete_master_item t id w) as [Hc Hw].
  repeat split; try assumption.
  intros wid. now apply find_work_item_by_id_json.
Qed.

(** ** Updates of a category that is not there *)

Lemma find_by_id_none id (l : list pyval) :
  Forall (fun c => is_dict c = true /\ has_id id c = false) l ->
  find_by_id id l = Ok None.
Proof.
  induction 1 as [| c l [Hd Hi] _ IH]; [reflexivity |].
  destruct c; try discriminate Hd.
  cbn [find_by_id py_get rbind]. cbn [has_id] in Hi. now rewrite Hi, IH.
Qed.

Lemma with_category_none id change w :
  no_category id w -> with_category id change w = (Ok tt, w).
Proof.
  intros (cats & Hs & Hall). unfold with_category, _load_json_data, bind.
  unfold stored_categories in Hs.
  destruct (json_file w) as [[] |] eqn:Hj; try discriminate Hs.
  - cbn [lift py_get]. unfold dict_get_default.
    destruct (dict_get "categories" d) as [[] |]; try discriminate Hs;
      injection Hs as <-; cbn [py_iter]; now rewrite find_by_id_none.
  - injection Hs as <-. reflexivity.
Qed.

(** C10. When the stored document has the shape of the data model and no
    category of it has the id, [add_work_item_to_category],
    [update_work_item] and [delete_work_item] return without an exception
    and leave every file as it was; no write is logged. *)
Theorem no_category_no_write :
  forall (category_id work_item updated_item work_item_id : pyval) (w : world),
    no_category category_id w ->
    add_work_item_to_category category_id work_item w = (Ok tt, w) /\
    update_work_item category_id updated_item w = (Ok tt, w) /\
    delete_work_item category_id work_item_id w = (Ok tt, w).
Proof.
  intros cid wi ui wid w H.
  repeat split; now apply with_category_none.
Qed.
End Frame.


(** ** Dictionaries *)

Lemma dict_get_set_eq k v (d : dict) : dict_get k (dict_set k v d) = Some v.
Proof.
  induction d as [| [k' v'] d IH]; cbn.
  - now rewrite String.eqb_refl.
  - destruct (String.eqb k' k) eqn:E; cbn; now rewrite E.
Qed.

Lemma dict_get_set_ne k k' v (d : dict) :
  k <> k' -> dict_get k' (dict_set k v d) = dict_get k' d.
Proof.
  intros Hne. induction d as [| [k0 v0] d IH]; cbn.
  - apply String.eqb_neq in Hne. now rewrite Hne.
  - destruct (String.eqb k0 k) eqn:E; cbn.
    + apply String.eqb_eq in E. subst k0.
      apply String.eqb_neq in Hne. now rewrite Hne.
    + now rewrite IH.
Qed.

Lemma dict_get_del_ne k k' (d : dict) :
  k <> k' -> dict_get k' (dict_del k d) = dict_get k' d.
Proof.
  intros Hne. induction d as [| [k0 v0] d IH]; cbn; [reflexivity |].
  destruct (String.eqb k0 k) eqn:E; cbn.
  - apply String.eqb_eq in E. subst k0.
    apply String.eqb_neq in Hne. now rewrite Hne.
  - now rewrite IH.
Qed.

(** ** The key of the type column *)

Lemma str_length_app (x y : string) :
  String.length (x ++ y) = (String.length x + String.length y)%nat.
Proof. induction x as [| c x IH]; simpl; [reflexivity | now f_equal]. Qed.

Ltac type_key_neq x :=
  let H := fresh in
  let L := fresh in
  unfold type_key_of; generalize (str_capitalize x); clear x; intros x;
  intros H; pose proof (f_equal String.length H) as L;
  rewrite str_length_app in L; simpl in L;
  do 9 (try (destruct x; simpl in L; try lia));
  cbv [String.append] in H; congruence.

Lemma type_key_neq_SerialNo t : type_key_of t <> "SerialNo".
Proof. type_key_neq t. Qed.

Lemma type_key_neq_Unit t : type_key_of t <> "Unit".
Proof. type_key_neq t. Qed.

Lemma type_key_neq_Price t : type_key_of t <> "Price".
Proof. type_key_neq t. Qed.

Lemma type_key_neq_id t : type_key_of t <> "id".
Proof. type_key_neq t. Qed.

Lemma type_key_neq_name t : type_key_of t <> "name".
Proof. type_key_neq t. Qed.

(** Evaluation of dictionary operations whose keys are literals or the key
    of the type column: literal comparisons are computed, the others are
    rewritten with the facts at hand. *)
Ltac eqb_step :=
  match goal with
  | |- context [String.eqb ?a ?a] => rewrite (String.eqb_refl a)
  | |- context [String.eqb ?a ?b] =>
      let r := eval cbv in (String.eqb a b) in
      lazymatch r with
      | true => change (String.eqb a b) with true
      | false => change (String.eqb a b) with false
      end
  | H : String.eqb ?a ?b = _ |- context [String.eqb ?a ?b] => rewrite H
  end.

Ltac dict_eval :=
  repeat (cbn -[String.eqb type_key_of float_repr str_to_float]; try eqb_step).

(** ** The master catalogs *)

Section Catalog.
Context {B : Builtins}.

Lemma bump_0 w : bump 0 w = w.
Proof. destruct w. unfold bump. cbn. now rewrite Nat.add_0_r. Qed.

Lemma bump_bump n m w : bump m (bump n w) = bump (n + m) w.
Proof. unfold bump. cbn. now rewrite Nat.add_assoc. Qed.

Lemma bump_fresh w :
  World (csv_files w) (json_file w) (writes w) (S (uuid_next w)) = bump 1 w.
Proof. unfold bump. now rewrite Nat.add_1_r. Qed.

Lemma str_values_set k v d :
  str_or_none v = true -> str_values d -> str_values (dict_set k v d).
Proof.
  intros Hv Hd k' v'. destruct (String.eqb_spec k k') as [<- | Hne].
  - rewrite dict_get_set_eq. now intros [= <-].
  - rewrite dict_get_set_ne by assumption. apply Hd.
Qed.

Lemma str_values_fold {A} (f : A -> string) (g : A -> pyval) (l : list A) d :
  (forall a, str_or_none (g a) = true) -> str_values d ->
  str_values (fold_left (fun d a => dict_set (f a) (g a) d) l d).
Proof.
  intros Hg. revert d. induction l as [| a l IH]; intros d Hd; cbn; [exact Hd |].
  apply IH. now apply str_values_set.
Qed.

Lemma DictReader_row_values fieldnames row : str_values (DictReader_row fieldnames row).
Proof.
  unfold DictReader_row.
  apply (str_values_fold (fun k => k) (fun _ => VNone)); [reflexivity |].
  apply (str_values_fold fst (fun kv => VStr (snd kv))); [reflexivity |].
  intros k v. discriminate.
Qed.

Lemma load_row_ok t row w r w' :
  str_values row ->
  load_row t row w = (Ok r, w') ->
  loaded_item r = true /\ exists n, w' = bump n w.
Proof.
  intros Hrow. unfold load_row.
  assert (Hstep : forall v row1 w1,
             str_or_none v = true -> row1 = dict_set "id" v row ->
             (p <~ lift (py_float (dict_get_default "Price" (VFloat 0) row1)) ;;
              let row2 := dict_set "Price" (VFloat p) row1 in
              let type_key := type_key_of t in
              let row3 :=
                match dict_get type_key row2 with
                | Some v => dict_set "name" v (dict_del type_key row2)
                | None =>
                    match dict_get "Type" row2 with
                    | Some v => dict_set "name" v (dict_del "Type" row2)
                    | None => row2
                    end
                end in
              ret (VDict row3)) w1 = (Ok r, w') ->
             loaded_item r = true /\ w' = w1).
  { intros v row1 w1 Hv -> H. unfold bind, lift in H.
    destruct (py_float _) as [p | e]; [| discriminate H].
    cbn zeta in H. unfold ret in H.
    assert (Hid : dict_get "id" (dict_set "Price" (VFloat p) (dict_set "id" v row)) = Some v).
    { rewrite dict_get_set_ne by discriminate. apply dict_get_set_eq. }
    destruct (dict_get (type_key_of t) _) as [x |].
    - injection H as <- <-. split; [| reflexivity]. cbn.
      rewrite dict_get_set_ne by discriminate.
      rewrite dict_get_del_ne by apply type_key_neq_id.
      now rewrite Hid.
    - destruct (dict_get "Type" _) as [x |]; injection H as <- <-;
        (split; [| reflexivity]); cbn.
      + rewrite dict_get_set_ne by discriminate.
        rewrite dict_get_del_ne by discriminate. now rewrite Hid.
      + now rewrite Hid. }
  destruct (dict_get "SerialNo" row) as [v |] eqn:Hs; intros H.
  - destruct (Hstep v _ w (Hrow _ _ Hs) eq_refl H) as [Hr ->].
    split; [exact Hr |]. exists 0%nat. now rewrite bump_0.
  - unfold bind at 1 in H. cbn [fresh_uuid bind ret] in H.
    destruct (Hstep (VStr (uuid4 (uuid_next w))) _ _ eq_refl eq_refl H) as [Hr ->].
    split; [exact Hr |]. exists 1%nat. apply bump_fresh.
Qed.

Lemma load_loop_ok t hdr (rs : list (list string)) :
  forall acc w items w',
    Forall (fun i => loaded_item i = true) acc ->
    for_each rs
      (fun data row =>
         r <~ load_row t (DictReader_row hdr row) ;; ret (data ++ [r])%list)
      acc w = (Ok items, w') ->
    Forall (fun i => loaded_item i = true) items /\ exists n, w' = bump n w.
Proof.
  induction rs as [| row rs IH]; intros acc w items w' Hacc H; cbn [for_each] in H.
  - injection H as <- <-. split; [exact Hacc |]. exists 0%nat. now rewrite bump_0.
  - unfold bind at 1 2 in H.
    destruct (load_row t _ w) as [[r | e] w1] eqn:Hr; [| discriminate H].
    apply load_row_ok in Hr; [| apply DictReader_row_values].
    destruct Hr as [Hl [n ->]]. cbn [ret] in H.
    apply IH in H.
    + destruct H as [Hi [m ->]]. split; [exact Hi |].
      exists (n + m)%nat. apply bump_bump.
    + apply Forall_app. split; [exact Hacc | now constructor].
Qed.

(** Whatever the catalog file holds, a load that ends returns dicts whose
    id is a string (or [None]), and has at most drawn identifiers. *)
Lemma load_master_csv_ok t w items w' :
  _load_master_csv t w = (Ok items, w') ->
  Forall (fun i => loaded_item i = true) items /\ exists n, w' = bump n w.
Proof.
  unfold _load_master_csv. destruct (csv_files w !! t) as [f |].
  - apply load_loop_ok. constructor.
  - intros [= <- <-]. split; [constructor |]. exists 0%nat. now rewrite bump_0.
Qed.

(** *** Saving and loading back *)

Lemma type_key_facts t :
  String.eqb "SerialNo" (type_key_of t) = false /\
  String.eqb (type_key_of t) "Unit" = false /\
  String.eqb (type_key_of t) "Price" = false /\
  String.eqb (type_key_of t) "id" = false /\
  String.eqb (type_key_of t) "name" = false /\
  String.eqb (type_key_of t) "SerialNo" = false /\
  String.eqb "Unit" (type_key_of t) = false /\
  String.eqb "Price" (type_key_of t) = false /\
  String.eqb "id" (type_key_of t) = false /\
  String.eqb "name" (type_key_of t) = false.
Proof.
  pose proof (type_key_neq_SerialNo t). pose proof (type_key_neq_Unit t).
  pose proof (type_key_neq_Price t). pose proof (type_key_neq_id t).
  pose proof (type_key_neq_name t).
  repeat split; apply String.eqb_neq; congruence.
Qed.

Lemma load_saved_row t i n u p w :
  str_to_float (float_repr p) = Some p ->
  load_row t
    (DictReader_row ["SerialNo"; type_key_of t; "Unit"; "Price"] [i; n; u; float_repr p]) w
  = (Ok (reloaded i n u p), w).
Proof.
  intros Hp.
  destruct (type_key_facts t) as (E1 & E2 & E3 & E4 & E5 & E6 & E7 & E8 & E9 & E10).
  unfold load_row, DictReader_row, bind, lift, ret, dict_get_default, py_float.
  dict_eval. rewrite Hp. dict_eval. reflexivity.
Qed.

Lemma save_row_of t v i n u p :
  master_item_fields v = Some (i, n, u, p) ->
  save_row t v = Ok [i; n; u; float_repr p].
Proof.
  intros Hf.
  destruct (type_key_facts t) as (E1 & E2 & E3 & E4 & E5 & E6 & E7 & E8 & E9 & E10).
  destruct v as [| | | | | | d]; try discriminate Hf.
  cbn [master_item_fields] in Hf. unfold save_row, py_get, dict_get_default.
  destruct (dict_get "id" d) as [[] |]; try discriminate Hf.
  destruct (dict_get "name" d) as [[] |]; try discriminate Hf.
  destruct (dict_get "Unit" d) as [[] |]; try discriminate Hf.
  destruct (dict_get "Price" d) as [[] |]; try discriminate Hf.
  injection Hf as -> -> -> ->.
  unfold DictWriter_row, dict_get_default. dict_eval. reflexivity.
Qed.
End Catalog.

Section RoundTrip.
Context {B : Builtins}.

Lemma storable_fields v :
  storable_item v ->
  exists i n u p, master_item_fields v = Some (i, n, u, p) /\
                  csv_row_of v = [i; n; u; float_repr p] /\
                  str_to_float (float_repr p) = Some p.
Proof.
  intros (i & n & u & p & Hf & Hp). exists i, n, u, p.
  unfold csv_row_of. now rewrite Hf.
Qed.

Lemma written_rows_storable t (items : list pyval) :
  Forall storable_item items ->
  written_rows (save_row t) items = (map csv_row_of items, None).
Proof.
  induction 1 as [| v items Hv _ IH]; [reflexivity |].
  destruct (storable_fields v Hv) as (i & n & u & p & Hf & Hr & _).
  cbn [written_rows map]. rewrite (save_row_of t v i n u p Hf), IH. now rewrite Hr.
Qed.

Lemma load_saved_rows t (items : list pyval) :
  Forall storable_item items ->
  forall acc w,
    exists items',
      for_each (map csv_row_of items)
        (fun data row =>
           r <~ load_row t
                  (DictReader_row ["SerialNo"; type_key_of t; "Unit"; "Price"] row) ;;
           ret (data ++ [r])%list)
        acc w = (Ok (acc ++ items')%list, w) /\
      map master_item_fields items' = map master_item_fields items /\
      Forall (fun v => lacks_key (type_key_of t) v = true) items'.
Proof.
  induction 1 as [| v items Hv _ IH]; intros acc w.
  - exists []. cbn. now rewrite app_nil_r.
  - destruct (storable_fields v Hv) as (i & n & u & p & Hf & Hr & Hp).
    destruct (IH (acc ++ [reloaded i n u p])%list w) as (items' & Hl & Hm & Hk).
    exists (reloaded i n u p :: items'). split; [| split].
    + cbn [map for_each]. rewrite Hr.
      unfold bind at 1 2. rewrite (load_saved_row t i n u p w Hp).
      cbn [ret]. rewrite Hl. now rewrite <- app_assoc.
    + cbn [map]. now rewrite Hm, Hf.
    + constructor; [| exact Hk].
      destruct (type_key_facts t) as (E1 & E2 & E3 & E4 & E5 & E6 & E7 & E8 & E9 & E10).
      unfold lacks_key, reloaded, dict_mem. dict_eval. reflexivity.
Qed.

Lemma saved_rows_not_blank (items : list pyval) :
  Forall storable_item items ->
  List.filter (fun row : list string => match row with [] => false | _ => true end)
    (map csv_row_of items) = map csv_row_of items.
Proof.
  induction 1 as [| v items Hv _ IH]; [reflexivity |].
  destruct (storable_fields v Hv) as (i & n & u & p & _ & Hr & _).
  cbn [map List.filter]. rewrite Hr, IH. reflexivity.
Qed.

(** C6. Saving a list of master items with [_save_master_csv] and loading
    the catalog back with [_load_master_csv] returns, in the same order,
    items with the same id, name, unit and price.  The items are those of
    the data model (strings under [id], [name], [Unit], a float under
    [Price]) whose price [float()] reads back from its [repr()].  The saved
    table has the columns SerialNo, <Type>Type, Unit, Price with the name
    in the type column; the loaded dicts carry it under [name] and have no
    type column left. *)
Theorem master_csv_round_trip :
  forall (item_type : string) (items : list pyval) (w : world),
    Forall storable_item items ->
    let saved :=
      CsvFile ["SerialNo"; type_key_of item_type; "Unit"; "Price"]
              (map csv_row_of items) in
    let w1 :=
      World (<[item_type := saved]> (csv_files w)) (json_file w)
            (csv_name item_type :: writes w) (uuid_next w) in
    _save_master_csv item_type items w = (Ok tt, w1) /\
    exists items',
      _load_master_csv item_type w1 = (Ok items', w1) /\
      map master_item_fields items' = map master_item_fields items /\
      Forall (fun v => lacks_key (type_key_of item_type) v = true) items'.
Proof.
  intros t items w Hall saved w1. split.
  - unfold _save_master_csv. destruct items as [| v items]; [reflexivity |].
    rewrite (written_rows_storable t _ Hall). reflexivity.
  - destruct (load_saved_rows t items Hall [] w1) as (items' & Hl & Hm & Hk).
    exists items'. repeat split; try assumption.
    unfold _load_master_csv. cbn [csv_files w1].
    rewrite lookup_insert_eq. unfold DictReader_rows. cbn [rows header saved].
    rewrite (saved_rows_not_blank items Hall). exact Hl.
Qed.
End RoundTrip.


(** ** New ids *)

Section NewId.
Context {B : Builtins}.

Lemma loaded_item_dict v : loaded_item v = true -> is_dict v = true.
Proof. destruct v; intros H; try discriminate H. reflexivity. Qed.

Lemma max_id_scan (items : list pyval) :
  Forall (fun i => loaded_item i = true) items ->
  forall m, rfor_each items max_id_step m = Ok (fold_left Z.max (parsed_ids items) m).
Proof.
  induction 1 as [| v items Hv _ IH]; intros m; [reflexivity |].
  cbn [rfor_each parsed_ids flat_map]. fold (parsed_ids items).
  destruct v as [| | | | | | d]; try discriminate Hv. cbn [loaded_item] in Hv.
  unfold max_id_step. cbn [py_get rbind]. unfold dict_get_default.
  destruct (dict_get "id" d) as [k |]; [| discriminate Hv].
  destruct k; try discriminate Hv; cbn [py_int].
  - cbn [caught_vt rbind]. rewrite IH. reflexivity.
  - destruct (str_to_int s) as [n |]; cbn [caught_vt rbind app]; now rewrite IH.
Qed.

Lemma written_rows_dicts t (items : list pyval) :
  Forall (fun i => is_dict i = true) items ->
  written_rows (save_row t) items = (map (saved_row t) items, None).
Proof.
  induction 1 as [| v items Hv _ IH]; [reflexivity |].
  destruct v; try discriminate Hv.
  cbn [written_rows map]. rewrite IH. unfold saved_row.
  unfold save_row, py_get. reflexivity.
Qed.

Lemma written_rows_app t (l1 l2 : list pyval) rs1 rs2 :
  written_rows (save_row t) l1 = (rs1, None) ->
  written_rows (save_row t) l2 = (rs2, None) ->
  written_rows (save_row t) (l1 ++ l2) = ((rs1 ++ rs2)%list, None).
Proof.
  revert rs1. induction l1 as [| v l1 IH]; intros rs1 H1 H2; cbn in *.
  - injection H1 as <-. exact H2.
  - destruct (save_row t v) as [r | e]; [| discriminate H1].
    destruct (written_rows (save_row t) l1) as [rs e] eqn:E.
    injection H1 as <- ->. now rewrite (IH rs eq_refl H2).
Qed.

Lemma save_new_item t new_id name unit price :
  save_row t (VDict [("id", VStr new_id); ("name", name); ("Unit", unit); ("Price", price)])
  = Ok [new_id; csv_cell name; csv_cell unit; csv_cell price].
Proof.
  destruct (type_key_facts t) as (E1 & E2 & E3 & E4 & E5 & E6 & E7 & E8 & E9 & E10).
  unfold save_row, py_get, DictWriter_row.
  repeat first [ progress cbn -[String.eqb type_key_of csv_cell]
               | progress unfold dict_get_default
               | eqb_step ].
  reflexivity.
Qed.

(** C7 (amended). Once the catalog is loaded, [add_master_item] saves it
    again with one more row, whose serial number is the decimal text of
    one more than the maximum of 0 and the ids [int()] reads; an id that
    does not parse takes no part in the maximum. *)
Theorem add_master_item_new_id :
  forall (item_type : string) (data name unit price : pyval) (w w1 : world)
         (all_items : list pyval),
    _load_master_csv item_type w = (Ok all_items, w1) ->
    py_getitem data "name" = Ok name ->
    py_getitem data "unit" = Ok unit ->
    py_getitem data "price" = Ok price ->
    let new_id := pretty (max_with_zero (parsed_ids all_items) + 1) in
    let saved :=
      CsvFile ["SerialNo"; type_key_of item_type; "Unit"; "Price"]
              (map (saved_row item_type) all_items ++
               [[new_id; csv_cell name; csv_cell unit; csv_cell price]]) in
    add_master_item item_type data w =
    (Ok tt,
     World (<[item_type := saved]> (csv_files w1)) (json_file w1)
           (csv_name item_type :: writes w1) (uuid_next w1)).
Proof.
  intros t data name unit price w w1 items Hload Hn Hu Hp new_id saved.
  destruct (load_master_csv_ok t w items w1 Hload) as [Hall _].
  unfold add_master_item.
  rewrite (bind_ok _ _ _ _ _ Hload).
  rewrite (bind_lift_ok _ _ _ _ (max_id_scan items Hall 0)).
  rewrite (bind_lift_ok _ _ _ _ Hn), (bind_lift_ok _ _ _ _ Hu), (bind_lift_ok _ _ _ _ Hp).
  unfold _save_master_csv.
  destruct (items ++ [_])%list as [| x l] eqn:E.
  { now destruct items. }
  rewrite <- E.
  rewrite (written_rows_app t items _ (map (saved_row t) items)
             [[new_id; csv_cell name; csv_cell unit; csv_cell price]]).
  - reflexivity.
  - apply written_rows_dicts. eapply Forall_impl; [exact Hall |].
    intros v. apply loaded_item_dict.
  - cbn [written_rows]. fold new_id. now rewrite save_new_item.
Qed.
End NewId.


(** ** Form parsing *)

Lemma str_split_no_sep c s : Forall (fun p => str_has c p = false) (str_split c s).
Proof.
  induction s as [| a s IH]; cbn [str_split].
  - now repeat constructor.
  - destruct (Ascii.eqb a c) eqn:E.
    + constructor; [reflexivity | exact IH].
    + destruct (str_split c s) as [| w ws]; inversion IH; subst.
      * repeat constructor. cbn. rewrite Ascii.eqb_sym, E. reflexivity.
      * constructor; [| assumption].
        cbn. rewrite Ascii.eqb_sym, E. cbn. assumption.
Qed.

Lemma str_split_none c s : str_has c s = false -> str_split c s = [s].
Proof.
  induction s as [| a s IH]; [reflexivity |].
  cbn. intros H. apply orb_false_iff in H. destruct H as [H1 H2].
  rewrite Ascii.eqb_sym, H1, (IH H2). reflexivity.
Qed.

Lemma str_split_join c a b :
  str_has c a = false -> str_has c b = false ->
  str_split c (a ++ String c b) = [a; b].
Proof.
  intros Ha Hb. induction a as [| x a IH].
  - cbv [String.append]. cbn [str_split]. rewrite Ascii.eqb_refl.
    now rewrite (str_split_none c b Hb).
  - cbn in Ha. apply orb_false_iff in Ha. destruct Ha as [H1 H2].
    change (String x a ++ String c b) with (String x (a ++ String c b)).
    cbn [str_split]. rewrite Ascii.eqb_sym, H1, (IH H2). reflexivity.
Qed.

Lemma items_set_ok key field value items :
  item_key key -> items_ok items -> items_ok (items_set key field value items).
Proof.
  intros Hk. induction 1 as [| [k d] items [H1 H2] Hi IH]; cbn [items_set].
  - repeat constructor; cbn; [exact Hk |].
    intros k v. cbn. destruct (String.eqb field k); [| discriminate].
    now intros [= <-].
  - destruct (String.eqb k key).
    + constructor; [| exact Hi]. split; [exact H1 |].
      now apply str_values_set.
    + constructor; [now split | exact IH].
Qed.

Lemma data_append_ok t v data :
  form_line v -> lines_ok data -> lines_ok (data_append t v data).
Proof.
  intros Hv. induction 1 as [| [k l] data H Hd IH]; cbn [data_append].
  - repeat constructor. exact Hv.
  - destruct (String.eqb k t).
    + constructor; [| exact Hd]. cbn in *. apply Forall_app. split; [exact H |].
      now repeat constructor.
    + constructor; [exact H | exact IH].
Qed.

Lemma data_get_ok t data : lines_ok data -> Forall form_line (data_get t data).
Proof.
  induction 1 as [| [k l] data H Hd IH]; cbn [data_get]; [constructor |].
  destruct (String.eqb k t); [exact H | exact IH].
Qed.

Lemma collect_items_ok (f : form) :
  forall items,
    items_ok items ->
    items_ok
      (fold_left
         (fun items kv =>
            let '(key, value) := kv in
            if str_has "-" key then
              match str_split "-" key with
              | [item_type; index; field] =>
                  if negb (String.eqb value "")
                  then items_set (item_type ++ "-" ++ index) field value items
                  else items
              | _ => items
              end
            else items)
         f items).
Proof.
  induction f as [| [key value] f IH]; intros items Hi; cbn [fold_left]; [exact Hi |].
  apply IH.
  destruct (str_has "-" key); [| exact Hi].
  pose proof (str_split_no_sep "-" key) as Hs.
  destruct (str_split "-" key) as [| a [| b [| c [| ? ?]]]]; try exact Hi.
  destruct (negb (String.eqb value "")); [| exact Hi].
  apply items_set_ok; [| exact Hi].
  inversion Hs as [| ? ? Ha Hs']; subst. inversion Hs' as [| ? ? Hb _]; subst.
  exists a, b. repeat split; assumption.
Qed.

Lemma data_of_items_ok (items : list (string * dict)) :
  items_ok items ->
  forall data,
    lines_ok data ->
    exists data',
      rfor_each items
        (fun data kd =>
           let '(key, value_dict) := kd in
           if dict_mem "id" value_dict then
             match str_split "-" key with
             | [item_type; _] => Ok (data_append item_type (VDict value_dict) data)
             | _ => Raise ValueError
             end
           else Ok data)
        data = Ok data' /\ lines_ok data'.
Proof.
  induction 1 as [| [key d] items [Hk Hd] _ IH]; intros data Hdata; cbn [rfor_each].
  - now exists data.
  - cbn [fst snd] in Hk, Hd. destruct (dict_mem "id" d).
    + destruct Hk as (a & b & -> & Ha & Hb).
      rewrite (str_split_join "-" a b Ha Hb). cbn [rbind].
      apply IH. apply data_append_ok; [| exact Hdata]. now exists d.
    + cbn [rbind]. now apply IH.
Qed.

(** [parse_form_data] never raises, and every line it returns is a dict of
    form fields. *)
Lemma parse_form_data_ok (f : form) :
  exists data, parse_form_data f = Ok data /\ lines_ok data.
Proof.
  unfold parse_form_data.
  apply data_of_items_ok; [| constructor].
  apply collect_items_ok. constructor.
Qed.


(** ** The cost rollup *)

Section Rollup.
Context {B : Builtins}.

Lemma pymap_getitem_int (m : pymap) n :
  str_keys m -> pymap_getitem m (VInt n) = Raise KeyError.
Proof.
  induction 1 as [| [k v] m Hk _ IH]; [reflexivity |].
  cbn [pymap_getitem]. cbn [fst] in Hk.
  destruct k; try discriminate Hk; cbn [py_eqb as_num]; exact IH.
Qed.

Lemma pymap_set_keys k v (m : pymap) :
  str_or_none k = true -> str_keys m -> str_keys (pymap_set k v m).
Proof.
  intros Hk. induction 1 as [| [k' v'] m H Hm IH]; cbn [pymap_set].
  - now repeat constructor.
  - destruct (py_eqb k' k); constructor; assumption.
Qed.

Lemma map_by_id_loaded (items : list pyval) :
  Forall (fun i => loaded_item i = true) items ->
  forall m, str_keys m ->
    exists m', rfor_each items
                 (fun m item =>
                    k <- py_getitem item "id" ;;
                    if hashable k then Ok (pymap_set k item m) else Raise TypeError)
                 m = Ok m' /\ str_keys m'.
Proof.
  induction 1 as [| v items Hv _ IH]; intros m Hm; cbn [rfor_each].
  - now exists m.
  - destruct v; try discriminate Hv. cbn [loaded_item] in Hv.
    cbn [py_getitem]. destruct (dict_get "id" d) as [k |]; [| discriminate Hv].
    cbn [rbind]. destruct k; try discriminate Hv; cbn [hashable rbind];
      apply IH; now apply pymap_set_keys.
Qed.

(** A selected line never passes the lookup: its id is looked up as an
    int, and the keys are strings. *)
Lemma line_step_skips (m : pymap) acc item_data :
  str_keys m -> form_line item_data -> line_step m acc item_data = Ok acc.
Proof.
  intros Hm (d & -> & Hd). unfold line_step. destruct acc as [g lines].
  cbn [py_get rbind]. unfold dict_get_default at 1.
  destruct (dict_get "id" d) as [k |] eqn:Hk.
  - pose proof (Hd _ _ Hk) as Hs. destruct k; try discriminate Hs; cbn [py_int rbind].
    + reflexivity.
    + destruct (str_to_int s) as [n |]; cbn [rbind]; [| reflexivity].
      now rewrite (pymap_getitem_int m n Hm).
  - reflexivity.
Qed.

Lemma lines_skipped (m : pymap) (lines : list pyval) acc :
  str_keys m -> Forall form_line lines ->
  rfor_each lines (line_step m) acc = Ok acc.
Proof.
  intros Hm. induction 1 as [| v lines Hv _ IH]; [reflexivity |].
  cbn [rfor_each]. rewrite (line_step_skips m acc v Hm Hv). exact IH.
Qed.

(** *** Floats *)

Lemma leb_zero_false_eqb b : PrimFloat.leb b 0 = false -> PrimFloat.eqb b 0 = false.
Proof.
  rewrite leb_spec, FloatAxioms.eqb_spec. unfold SFleb, SFeqb.
  destruct (SFcompare _ _) as [[] |]; congruence.
Qed.

Lemma leb_zero_false_pos b :
  PrimFloat.leb b 0 = false -> PrimFloat.ltb 0 b = true \/ PrimFloat.is_nan b = true.
Proof.
  unfold PrimFloat.is_nan.
  rewrite leb_spec, ltb_spec, FloatAxioms.eqb_spec. unfold SFleb, SFltb, SFeqb.
  change (Prim2SF 0) with (S754_zero false).
  destruct (Prim2SF b) as [s | s | | s m e]; cbn; try destruct s; intros H;
    try discriminate H; auto.
Qed.

Lemma basis_of_form_ok (f : form) : basis_of_form f = Ok (basis_of f).
Proof.
  unfold basis_of_form, basis_of.
  destruct (form_get "basis_quantity" f) as [s |]; cbn [py_float].
  - destruct (str_to_float s) as [b |]; reflexivity.
  - reflexivity.
Qed.

Lemma basis_of_guard (f : form) : PrimFloat.leb (basis_of f) 0 = false.
Proof.
  unfold basis_of.
  destruct (form_get "basis_quantity" f) as [s |]; [| reflexivity].
  destruct (str_to_float s) as [b |]; [| reflexivity].
  destruct (PrimFloat.leb b 0) eqn:E; [reflexivity | exact E].
Qed.

(** *** Loading the catalogs *)

Lemma load_row_reads t fieldnames row w :
  price_reads fieldnames row = true ->
  exists r n, load_row t (DictReader_row fieldnames row) w = (Ok r, bump n w).
Proof.
  unfold price_reads. intros H.
  destruct (py_float _) as [p |] eqn:Hp; [clear H | discriminate H].
  unfold load_row.
  destruct (dict_get "SerialNo" (DictReader_row fieldnames row)) as [v |].
  - unfold bind at 1. cbn [ret].
    unfold bind, lift. unfold dict_get_default in *.
    rewrite dict_get_set_ne by discriminate. rewrite Hp.
    eexists _, 0%nat. rewrite bump_0. reflexivity.
  - unfold bind at 1. cbn [fresh_uuid bind ret].
    unfold bind, lift. unfold dict_get_default in *.
    rewrite dict_get_set_ne by discriminate. rewrite Hp.
    eexists _, 1%nat. rewrite <- bump_fresh. reflexivity.
Qed.

Lemma load_loop_reads t hdr (rs : list (list string)) :
  forallb (price_reads hdr) rs = true ->
  forall acc w,
    exists items n,
      for_each rs
        (fun data row =>
           r <~ load_row t (DictReader_row hdr row) ;; ret (data ++ [r])%list)
        acc w = (Ok items, bump n w).
Proof.
  induction rs as [| row rs IH]; intros H acc w; cbn [for_each].
  - exists acc, 0%nat. now rewrite bump_0.
  - cbn [forallb] in H. apply andb_true_iff in H. destruct H as [H1 H2].
    destruct (load_row_reads t hdr row w H1) as (r & n & Hr).
    unfold bind at 1 2. rewrite Hr. cbn [ret].
    destruct (IH H2 (acc ++ [r])%list (bump n w)) as (items & m & Hi).
    exists items, (n + m)%nat. now rewrite Hi, bump_bump.
Qed.

Lemma load_master_csv_reads t w :
  catalog_reads t w = true ->
  exists items n, _load_master_csv t w = (Ok items, bump n w).
Proof.
  unfold catalog_reads, _load_master_csv.
  destruct (csv_files w !! t) as [f |]; intros H.
  - now apply load_loop_reads.
  - exists [], 0%nat. now rewrite bump_0.
Qed.

Lemma get_master_item_map_ok t w m w' :
  get_master_item_map t w = (Ok m, w') ->
  str_keys m /\ exists n, w' = bump n w.
Proof.
  unfold get_master_item_map, bind. intros H.
  destruct (_load_master_csv t w) as [[items | e] w1] eqn:Hl; [| discriminate H].
  destruct (load_master_csv_ok t w items w1 Hl) as [Hall Hw].
  destruct (map_by_id_loaded items Hall [] (List.Forall_nil _)) as (m' & Hm & Hk).
  unfold lift, map_by_id in H. rewrite Hm in H. injection H as <- <-. now split.
Qed.

Lemma get_master_item_map_reads t w :
  catalog_reads t w = true ->
  exists m n, get_master_item_map t w = (Ok m, bump n w).
Proof.
  intros H. destruct (load_master_csv_reads t w H) as (items & n & Hl).
  destruct (load_master_csv_ok t w items _ Hl) as [Hall _].
  destruct (map_by_id_loaded items Hall [] (List.Forall_nil _)) as (m' & Hm & Hk).
  exists m', n. unfold get_master_item_map. rewrite (bind_ok _ _ _ _ _ Hl).
  unfold lift, map_by_id. now rewrite Hm.
Qed.

(** *** One group *)

Lemma process_group_ok pd (pi : dict) z t w m w1 :
  lines_ok pd ->
  get_master_item_map t w = (Ok m, w1) ->
  process_group pd (pi, VInt z) t w =
  (Ok (dict_set (t ++ "_total") (VInt 0) (dict_set t (VList []) pi), VInt (z + 0)), w1).
Proof.
  intros Hpd Hm. unfold process_group.
  rewrite (bind_ok _ _ _ _ _ Hm).
  destruct (get_master_item_map_ok t w m w1 Hm) as [Hk _].
  rewrite (bind_lift_ok _ _ _ _
             (lines_skipped m (data_get t pd) (VInt 0, []) Hk (data_get_ok t pd Hpd))).
  reflexivity.
Qed.

Lemma process_group_raise pd st t w e w1 :
  get_master_item_map t w = (Raise e, w1) ->
  process_group pd st t w = (Raise e, w1).
Proof.
  intros Hm. unfold process_group. destruct st as [pi tc].
  now rewrite (bind_raise _ _ _ _ _ Hm).
Qed.

(** *** The whole rollup *)

Lemma process_work_item_form_no_name f wid w :
  name_empty f = true -> process_work_item_form f wid w = (Ok None, w).
Proof.
  unfold name_empty, process_work_item_form. intros H.
  destruct (form_get "name" f) as [s |]; [| reflexivity].
  cbn [opt_str py_truthy]. now rewrite H.
Qed.

Lemma final_fields (id name unit : string) (b : float) (w : world) :
  PrimFloat.eqb b 0 = false ->
  (let processed_item : dict :=
     dict_set "equipment_total" (VInt 0)
       (dict_set "equipment" (VList [])
          (dict_set "material_total" (VInt 0)
             (dict_set "material" (VList [])
                (dict_set "labor_total" (VInt 0)
                   (dict_set "labor" (VList [])
                      [("id", VStr id); ("name", VStr name);
                       ("unit_of_measure", VStr unit);
                       ("basis_quantity", VFloat b);
                       ("labor", VList []); ("material", VList []);
                       ("equipment", VList []);
                       ("labor_total", VInt 0); ("material_total", VInt 0);
                       ("equipment_total", VInt 0)]))))) in
   let total_cost := VInt (0 + 0 + 0 + 0) in
   let processed_item := dict_set "total_cost_per_unit" total_cost processed_item in
   overhead <~ lift (py_mul total_cost (VFloat 0.15%float)) ;;
   let processed_item :=
     dict_set "contractor_overhead_15_percent" overhead processed_item in
   sum_total <~ lift (py_mul total_cost (VFloat 1.15%float)) ;;
   let processed_item := dict_set "sum_total" sum_total processed_item in
   price <~ lift (py_truediv sum_total (VFloat b)) ;;
   let processed_item := dict_set "price_per_unit" price processed_item in
   ret (Some (VDict processed_item))) w
  = (Ok (Some (empty_record id name unit b)), w).
Proof.
  intros Hb. vm_compute. rewrite Hb. reflexivity.
Qed.

Lemma process_work_item_form_named f wid w name :
  form_get "name" f = Some name -> name <> "" ->
  process_work_item_form f wid w = rollup_outcome f name wid w.
Proof.
  intros Hn Hne. unfold process_work_item_form, rollup_outcome.
  rewrite Hn. cbn [opt_str py_truthy].
  apply String.eqb_neq in Hne. rewrite Hne. cbn [negb].
  rewrite (bind_lift_ok _ _ _ _ (basis_of_form_ok f)).
  destruct (parse_form_data_ok f) as (pd & Hpd & Hlines).
  rewrite (bind_lift_ok _ _ _ _ Hpd).
  assert (Hid : forall k : string -> M (option pyval),
             bind (match wid with
                   | Some s => if String.eqb s "" then fresh_uuid else ret s
                   | None => fresh_uuid
                   end) k w
             = k (fst (record_id wid w)) (snd (record_id wid w))).
  { intros k. unfold record_id. destruct wid as [[| c s] |]; cbn; unfold bump;
      rewrite ?Nat.add_1_r; reflexivity. }
  rewrite Hid. destruct (record_id wid w) as [id w0]. cbn [fst snd].
  cbn [for_each]. unfold bind at 1 2.
  destruct (get_master_item_map "labor" w0) as [[m1 | e] w1] eqn:H1.
  2:{ now rewrite (process_group_raise _ _ _ _ _ _ H1). }
  rewrite (process_group_ok pd _ 0 "labor" w0 m1 w1 Hlines H1).
  unfold bind at 1.
  destruct (get_master_item_map "material" w1) as [[m2 | e] w2] eqn:H2.
  2:{ now rewrite (process_group_raise _ _ _ _ _ _ H2). }
  rewrite (process_group_ok pd _ _ "material" w1 m2 w2 Hlines H2).
  unfold bind at 1.
  destruct (get_master_item_map "equipment" w2) as [[m3 | e] w3] eqn:H3.
  2:{ now rewrite (process_group_raise _ _ _ _ _ _ H3). }
  rewrite (process_group_ok pd _ _ "equipment" w2 m3 w3 Hlines H3).
  cbn [ret]. unfold unit_of.
  change ("labor" ++ "_total") with "labor_total".
  change ("material" ++ "_total") with "material_total".
  change ("equipment" ++ "_total") with "equipment_total".
  pose proof (leb_zero_false_eqb _ (basis_of_guard f)) as Hb.
  destruct (form_get "unit_of_measure" f) as [u |];
    exact (final_fields id name _ (basis_of f) w3 Hb).
Qed.


Lemma rollup_outcome_some f name wid w rec w' :
  rollup_outcome f name wid w = (Ok (Some rec), w') ->
  exists id, rec = empty_record id name (unit_of f) (basis_of f).
Proof.
  unfold rollup_outcome. destruct (record_id wid w) as [id w0].
  destruct (get_master_item_map "labor" w0) as [[m1 | e] w1]; [| discriminate].
  destruct (get_master_item_map "material" w1) as [[m2 | e] w2]; [| discriminate].
  destruct (get_master_item_map "equipment" w2) as [[m3 | e] w3]; [| discriminate].
  intros [= <- <-]. now exists id.
Qed.

Lemma record_id_bump wid w : exists n, snd (record_id wid w) = bump n w.
Proof.
  unfold record_id. destruct wid as [[| c s] |]; cbn [snd];
    try (now exists 1%nat). exists 0%nat. now rewrite bump_0.
Qed.

Lemma rollup_outcome_reads f name wid w :
  catalogs_read w = true ->
  exists id n,
    rollup_outcome f name wid w =
    (Ok (Some (empty_record id name (unit_of f) (basis_of f))), bump n w).
Proof.
  unfold catalogs_read. intros H.
  apply andb_true_iff in H. destruct H as [H H3].
  apply andb_true_iff in H. destruct H as [H1 H2].
  unfold rollup_outcome.
  destruct (record_id_bump wid w) as [n0 Hw0].
  destruct (record_id wid w) as [id w0]. cbn [snd] in Hw0. subst w0.
  destruct (get_master_item_map_reads "labor" (bump n0 w) H1) as (m1 & n1 & ->).
  rewrite bump_bump.
  destruct (get_master_item_map_reads "material" (bump (n0 + n1) w) H2) as (m2 & n2 & ->).
  rewrite bump_bump.
  destruct (get_master_item_map_reads "equipment" (bump (n0 + n1 + n2) w) H3)
    as (m3 & n3 & ->).
  rewrite bump_bump. now eexists _, _.
Qed.

Lemma name_of_form f :
  name_empty f = false -> exists name, form_get "name" f = Some name /\ name <> "".
Proof.
  unfold name_empty. destruct (form_get "name" f) as [s |]; [| discriminate].
  intros H. exists s. split; [reflexivity |]. now apply String.eqb_neq.
Qed.


(** C2 (amended). Every record [process_work_item_form] returns has
    [total_cost_per_unit] equal to [labor_total + material_total +
    equipment_total], [contractor_overhead_15_percent] equal to
    [total_cost_per_unit * 0.15], [sum_total] equal to
    [total_cost_per_unit * 1.15] and [price_per_unit] equal to
    [sum_total / basis_quantity], each as Python computes it, zero totals
    included.  Its basis quantity is never at most 0, so the division is
    defined; it is above 0 unless the submitted text reads as NaN. *)
Theorem process_work_item_form_totals :
  forall (f : form) (work_item_id : option string) (w w' : world) (rec : pyval),
    process_work_item_form f work_item_id w = (Ok (Some rec), w') ->
    exists labor_total material_total equipment_total total_cost_per_unit
           overhead sum_total price_per_unit basis_quantity,
      field "labor_total" rec = Some labor_total /\
      field "material_total" rec = Some material_total /\
      field "equipment_total" rec = Some equipment_total /\
      field "total_cost_per_unit" rec = Some total_cost_per_unit /\
      field "contractor_overhead_15_percent" rec = Some overhead /\
      field "sum_total" rec = Some sum_total /\
      field "price_per_unit" rec = Some price_per_unit /\
      field "basis_quantity" rec = Some (VFloat basis_quantity) /\
      (x <- py_add labor_total material_total ;; py_add x equipment_total)
        = Ok total_cost_per_unit /\
      py_mul total_cost_per_unit (VFloat 0.15%float) = Ok overhead /\
      py_mul total_cost_per_unit (VFloat 1.15%float) = Ok sum_total /\
      py_truediv sum_total (VFloat basis_quantity) = Ok price_per_unit /\
      PrimFloat.leb basis_quantity 0 = false /\
      (PrimFloat.ltb 0 basis_quantity = true \/ PrimFloat.is_nan basis_quantity = true).
Proof.
  intros f wid w w' rec H.
  destruct (name_empty f) eqn:E.
  { rewrite (process_work_item_form_no_name f wid w E) in H. discriminate H. }
  destruct (name_of_form f E) as (name & Hn & Hne).
  rewrite (process_work_item_form_named f wid w name Hn Hne) in H.
  destruct (rollup_outcome_some f name wid w rec w' H) as [id ->].
  pose proof (basis_of_guard f) as Hg.
  pose proof (leb_zero_false_eqb _ Hg) as Hz.
  exists (VInt 0), (VInt 0), (VInt 0), (VInt 0), (VFloat 0), (VFloat 0),
    (VFloat (0 / basis_of f)), (basis_of f).
  repeat split; try reflexivity; try assumption.
  - cbn. now rewrite Hz.
  - now apply leb_zero_false_pos.
Qed.

(** X1. No line is ever kept: every record [process_work_item_form] returns has
    empty lists of lines and zero totals, whatever lines the form selects
    and whatever the catalogs hold. *)
Theorem process_work_item_form_keeps_no_line :
  forall (f : form) (work_item_id : option string) (w w' : world) (rec : pyval),
    process_work_item_form f work_item_id w = (Ok (Some rec), w') ->
    exists id name, rec = empty_record id name (unit_of f) (basis_of f).
Proof.
  intros f wid w w' rec H.
  destruct (name_empty f) eqn:E.
  { rewrite (process_work_item_form_no_name f wid w E) in H. discriminate H. }
  destruct (name_of_form f E) as (name & Hn & Hne).
  rewrite (process_work_item_form_named f wid w name Hn Hne) in H.
  destruct (rollup_outcome_some f name wid w rec w' H) as [id ->].
  now exists id, name.
Qed.
End Rollup.


(** ** The category page *)

Lemma bind_ok_inv {A C} (m : M A) (k : A -> M C) w r w' :
  bind m k w = (Ok r, w') ->
  exists a w1, m w = (Ok a, w1) /\ k a w1 = (Ok r, w').
Proof.
  unfold bind. destruct (m w) as [[a | e] w1]; [| discriminate].
  intros H. now exists a, w1.
Qed.

Ltac bind_inv H :=
  let a := fresh "a" in
  let w1 := fresh "w" in
  let Hm := fresh "Hm" in
  apply bind_ok_inv in H; destruct H as (a & w1 & Hm & H).

Lemma rmap_lookup {A C} (f : A -> result C) (l : list A) (l' : list C) :
  rmap f l = Ok l' ->
  forall i x, l !! i = Some x -> exists y, l' !! i = Some y /\ f x = Ok y.
Proof.
  revert l'. induction l as [| a l IH]; intros l' H i x Hx; [discriminate Hx |].
  cbn [rmap] in H. destruct (f a) as [y |] eqn:Hy; [| discriminate H].
  cbn [rbind] in H. destruct (rmap f l) as [ys |]; [| discriminate H].
  injection H as <-. destruct i as [| i]; cbn in *.
  - injection Hx as <-. now exists y.
  - now apply IH.
Qed.

Lemma dict_mem_get k (d : dict) : dict_mem k d = false -> dict_get k d = None.
Proof. unfold dict_mem. now destruct (dict_get k d). Qed.

Lemma migrate_item_dict ds shown :
  migrate_item (VDict ds) = Ok shown -> migrated (VDict ds) shown.
Proof.
  assert (Hfin : forall dp,
             (let basis := dict_get_default "basis_quantity" (VFloat 1) ds in
              let total := dict_get_default "sum_total" (VInt 0) ds in
              dict_get "basis_quantity" dp = Some basis /\
              match dict_get "price_per_unit" ds with
              | Some price => dict_get "price_per_unit" dp = Some price
              | None =>
                  exists price,
                    dict_get "price_per_unit" dp = Some price /\
                    ((py_gt_zero basis = Ok true /\ py_truediv total basis = Ok price) \/
                     (py_gt_zero basis = Ok false /\ price = total))
              end /\
              (forall k, k <> "basis_quantity" -> k <> "price_per_unit" ->
                         dict_get k dp = dict_get k ds)) ->
             migrated (VDict ds) (VDict dp)).
  { intros dp H. now exists ds, dp. }
  assert (Hne : forall k v k', k <> k' ->
                 dict_get k' (dict_set k v ds) = dict_get k' ds).
  { intros. now apply dict_get_set_ne. }
  unfold migrate_item. cbn [py_contains rbind]. unfold dict_mem.
  destruct (dict_get "basis_quantity" ds) as [b |] eqn:Hb;
    cbn [py_setitem rbind py_contains py_get]; unfold dict_mem, dict_get_default;
    rewrite ?dict_get_set_eq, ?Hne, ?Hb by discriminate;
    destruct (dict_get "price_per_unit" ds) as [pr |] eqn:Hp; cbn [rbind];
    try (destruct (py_gt_zero _) as [[] |] eqn:Hg; cbn [rbind]; try discriminate);
    try (destruct (py_truediv _ _) as [price |] eqn:Hd; cbn [rbind]; try discriminate);
    intros [= <-]; apply Hfin; cbn zeta; unfold dict_get_default;
    rewrite ?Hb, ?Hp; (split; [| split]);
    try (intros k Hk1 Hk2; rewrite ?dict_get_set_ne by congruence; reflexivity);
    rewrite ?dict_get_set_eq, ?dict_get_set_ne, ?dict_get_set_eq by discriminate;
    try assumption; try reflexivity;
    eexists; (split; [reflexivity |]); auto.
Qed.

Lemma migrate_category_items category shown :
  migrate_category category = Ok shown ->
  forall i stored,
    work_items category !! i = Some stored -> is_dict stored = true ->
    exists item, work_items shown !! i = Some item /\ migrated stored item.
Proof.
  unfold migrate_category, work_items, field. intros H i s Hs Hd.
  destruct category as [| | | | | | d]; try discriminate Hs.
  cbn [py_get rbind] in H. unfold dict_get_default, dict_mem in H.
  destruct (dict_get "work_items" d) as [v |]; [| discriminate Hs].
  destruct v as [| | | | | l |]; try discriminate Hs.
  cbn [py_iter rbind] in H.
  destruct (rmap migrate_item l) as [l' |] eqn:Hl; [| discriminate H].
  cbn [rbind] in H. injection H as <-.
  rewrite dict_get_set_eq.
  destruct (rmap_lookup _ _ _ Hl i s Hs) as (p & Hp & Hm).
  exists p. split; [exact Hp |].
  destruct s; try discriminate Hd. now apply migrate_item_dict.
Qed.

Section CategoryPage.
Context {B : Builtins}.

Lemma get_category_by_id_reads id w r w' :
  get_category_by_id id w = (r, w') -> w' = w.
Proof.
  unfold get_category_by_id, get_all_categories, _load_json_data, bind, lift, ret.
  destruct (py_get _ _ _) as [cats |]; [| now intros [= _ <-]].
  destruct (py_iter cats) as [l |]; [| now intros [= _ <-]].
  destruct (find_by_id id l) as [o |]; now intros [= _ <-].
Qed.

(** C4 (amended). When the category page is rendered, the category handed
    to its template shows every stored work item, position by position,
    with the basis quantity it is stored with and 1.0 when it has none (a
    stored basis quantity at or below 0 is shown as it is), and with a
    price per unit, when it has none, of [sum_total / basis_quantity] if
    the basis quantity is above 0 and of [sum_total] otherwise. *)
Theorem category_detail_migrates :
  forall (category_id : string) (req : request) (w w' : world)
         (template : string) (context : dict),
    category_detail category_id req w = (Ok (Render template context), w') ->
    exists category shown,
      get_category_by_id (VStr category_id) w = (Ok category, w) /\
      dict_get "category" context = Some shown /\
      forall i stored,
        work_items category !! i = Some stored -> is_dict stored = true ->
        exists item, work_items shown !! i = Some item /\ migrated stored item.
Proof.
  intros cid req w w' tpl ctx H. unfold category_detail in H.
  bind_inv H. pose proof (get_category_by_id_reads _ _ _ _ Hm) as ->.
  destruct (py_truthy a); cbn [negb] in H; [| discriminate H].
  bind_inv H. unfold lift in Hm0. injection Hm0 as Hmig <-.
  exists a, a0. split; [exact Hm |]. split.
  - bind_inv H. bind_inv H. destruct a2 as [form_state editing_item].
    do 6 bind_inv H. injection H as <- <- <-. reflexivity.
  - now apply migrate_category_items.
Qed.
End CategoryPage.

(** ** Quantities of project lines *)

Section ProjectLines.
Context {B : Builtins}.

(** X2. The quantity update of [project_detail] raises no exception on a
    line that is a dict with an [instance_id]: when the form has no field
    for the line it is left as it is, a quantity [float()] reads is stored,
    and any other text is stored as 0. *)
Theorem set_quantity_never_raises :
  forall (f : form) (d : dict) (instance_id : pyval),
    dict_get "instance_id" d = Some instance_id ->
    set_quantity f (VDict d) =
    Ok (match form_get ("quantity-" ++ py_str instance_id) f with
        | None => VDict d
        | Some s =>
            match str_to_float s with
            | Some q => VDict (dict_set "quantity" (VFloat q) d)
            | None => VDict (dict_set "quantity" (VInt 0) d)
            end
        end).
Proof.
  intros f d iid H. unfold set_quantity. cbn [py_getitem]. rewrite H. cbn [rbind].
  destruct (form_get _ f) as [s |]; [| reflexivity].
  cbn [py_float]. now destruct (str_to_float s).
Qed.
(** X3. When the project and the work item are found and the submitted
    quantity is no number for [float()], [add_item_to_project] ends in
    [ValueError]: it has drawn the identifier of the new line and written
    nothing. *)
Theorem add_item_to_project_malformed_quantity :
  forall (project_id : string) (req : request) (w : world)
         (project work_item : pyval) (quantity : string),
    get_project_by_id (VStr project_id) w = (Ok project, w) ->
    py_truthy project = true ->
    find_work_item_by_id (opt_str (form_get "work_item_id" (rform req))) w =
      (Ok work_item, w) ->
    py_truthy work_item = true ->
    is_dict work_item = true ->
    form_get "quantity" (rform req) = Some quantity ->
    str_to_float quantity = None ->
    add_item_to_project project_id req w = (Raise ValueError, bump 1 w).
Proof.
  intros pid req w project work_item q Hp Htp Hw Htw Hd Hq Hf.
  unfold add_item_to_project.
  rewrite (bind_ok _ _ _ _ _ Hp), Htp. cbn [negb].
  rewrite (bind_ok _ _ _ _ _ Hw), Htw. cbn [negb].
  destruct work_item; try discriminate Hd.
  unfold bind at 1. cbn [fresh_uuid]. rewrite bump_fresh.
  unfold bind, lift. cbn [py_get]. rewrite Hq. cbn [py_float]. now rewrite Hf.
Qed.
End ProjectLines.

(** ** Pages that only show *)

Section ReadOnly.
Context {B : Builtins}.

Lemma reads_only_ret {A} (a : A) : reads_only (ret a).
Proof. intros w. exists 0%nat. cbn. now rewrite bump_0. Qed.

Lemma reads_only_raise {A} e : reads_only (@raise A e).
Proof. intros w. exists 0%nat. cbn. now rewrite bump_0. Qed.

Lemma reads_only_lift {A} (r : result A) : reads_only (lift r).
Proof. intros w. exists 0%nat. cbn. now rewrite bump_0. Qed.

Lemma reads_only_fresh_uuid : reads_only fresh_uuid.
Proof. intros w. exists 1%nat. apply bump_fresh. Qed.

Lemma reads_only_bind {A C} (m : M A) (k : A -> M C) :
  reads_only m -> (forall a, reads_only (k a)) -> reads_only (bind m k).
Proof.
  intros Hm Hk w. unfold bind. destruct (Hm w) as [n Hn].
  destruct (m w) as [[a | e] w1]; cbn [snd] in Hn; subst w1.
  - destruct (Hk a (bump n w)) as [p Hp]. exists (n + p)%nat.
    rewrite Hp. apply bump_bump.
  - now exists n.
Qed.

Lemma reads_only_for_each {A S} (l : list A) (body : S -> A -> M S) :
  (forall s x, reads_only (body s x)) -> forall s, reads_only (for_each l body s).
Proof.
  intros Hb. induction l as [| x l IH]; intros s; cbn [for_each].
  - apply reads_only_ret.
  - apply reads_only_bind; [apply Hb | exact IH].
Qed.

Lemma reads_only_load_json : reads_only _load_json_data.
Proof. intros w. exists 0%nat. cbn. now rewrite bump_0. Qed.

Ltac reads_step :=
  first
    [ apply reads_only_ret | apply reads_only_raise | apply reads_only_lift
    | apply reads_only_fresh_uuid | apply reads_only_load_json
    | apply reads_only_bind; [| intros ?]
    | apply reads_only_for_each; intros ? ?
    | match goal with
      | |- reads_only (match ?x with _ => _ end) => destruct x
      end ].

Lemma reads_only_load t : reads_only (_load_master_csv t).
Proof.
  intros w. unfold _load_master_csv.
  destruct (csv_files w !! t) as [f |].
  - revert w. apply reads_only_for_each. intros data row.
    unfold load_row. repeat reads_step.
  - exists 0%nat. cbn. now rewrite bump_0.
Qed.

Lemma reads_only_get_all_categories : reads_only get_all_categories.
Proof. unfold get_all_categories. repeat reads_step. Qed.

Lemma reads_only_get_category_by_id id : reads_only (get_category_by_id id).
Proof. unfold get_category_by_id, get_all_categories. repeat reads_step. Qed.

Lemma reads_only_find_work_item_by_id id : reads_only (find_work_item_by_id id).
Proof. unfold find_work_item_by_id, get_all_categories. repeat reads_step. Qed.

Lemma reads_only_get_project_by_id id : reads_only (get_project_by_id id).
Proof. unfold get_project_by_id, get_projects. repeat reads_step. Qed.

(** X4. The pages that show the stored data write nothing: whatever the
    files hold and whatever the request, the category page (also on the
    POST that adds a line to the form), the project page and the list of
    projects on a request that is not a POST, the list of categories on a
    request that is not a POST and the inventory page leave the catalogs
    and the document as they were and log no write.  The defaults of the
    category page and the totals of the project pages are computed for
    the display and are not stored. *)
Theorem pages_write_nothing :
  forall (id : string) (req : request),
    reads_only (category_detail id req) /\
    reads_only inventory_page /\
    (String.eqb (method req) "POST" = false ->
     reads_only (project_detail id req) /\
     reads_only (projects_list req) /\
     reads_only (categories_list req)).
Proof.
  intros id req. split; [| split].
  - unfold category_detail.
    apply reads_only_bind; [apply reads_only_get_category_by_id | intros category].
    destruct (negb (py_truthy category)); [apply reads_only_ret |].
    apply reads_only_bind; [apply reads_only_lift | intros c].
    apply reads_only_bind.
    { destruct (form_get "edit_item_id" (args req)) as [s |]; [| apply reads_only_ret].
      destruct (String.eqb s ""); [apply reads_only_ret |].
      apply reads_only_find_work_item_by_id. }
    intros editing. apply reads_only_bind.
    { destruct (String.eqb (method req) "POST"); [| apply reads_only_ret].
      apply reads_only_bind; [apply reads_only_lift | intros pd].
      destruct (action_key _); [| apply reads_only_ret].
      apply reads_only_bind; [apply reads_only_lift | intros fs].
      match goal with |- reads_only (if ?x then _ else _) => destruct x end;
        repeat reads_step. }
    intros [fs e]. unfold get_master_data.
    repeat first [ apply reads_only_load | reads_step ].
  - unfold inventory_page, get_master_data.
    repeat first [ apply reads_only_load | reads_step ].
  - intros Hm. split; [| split].
    + unfold project_detail. rewrite Hm.
      apply reads_only_bind; [apply reads_only_get_project_by_id | intros project].
      destruct (negb (py_truthy project)); [apply reads_only_ret |].
      repeat first [ apply reads_only_get_all_categories | reads_step ].
    + unfold projects_list. rewrite Hm. unfold get_projects. repeat reads_step.
    + unfold categories_list. rewrite Hm.
      repeat first [ apply reads_only_get_all_categories | reads_step ].
Qed.
End ReadOnly.

(** ** The id of a new master item is taken by no other *)

Section FreshId.
Context {B : Builtins}.

Lemma fold_max_ge (l : list Z) : forall m, m <= fold_left Z.max l m.
Proof.
  induction l as [| x l IH]; intros m; cbn [fold_left]; [lia |].
  specialize (IH (Z.max m x)). lia.
Qed.

Lemma fold_max_in (l : list Z) : forall m n, In n l -> n <= fold_left Z.max l m.
Proof.
  induction l as [| x l IH]; intros m n; cbn [fold_left In]; [tauto |].
  intros [<- | Hn].
  - pose proof (fold_max_ge l (Z.max m x)). lia.
  - now apply IH.
Qed.

Lemma py_eqb_str_r v s : py_eqb v (VStr s) = true -> v = VStr s.
Proof.
  destruct v; cbn; try discriminate.
  intros H. apply String.eqb_eq in H. now subst.
Qed.

(** X5. The id [add_master_item] gives the new item is the id of no item
    already in the catalog, provided [int()] reads the decimal text of
    that number back (as Python's does): an item with that id would have
    raised the maximum the id is computed from. *)
Theorem add_master_item_id_is_new :
  forall (item_type : string) (data name unit price : pyval) (w w1 : world)
         (all_items : list pyval),
    _load_master_csv item_type w = (Ok all_items, w1) ->
    py_getitem data "name" = Ok name ->
    py_getitem data "unit" = Ok unit ->
    py_getitem data "price" = Ok price ->
    let n := max_with_zero (parsed_ids all_items) + 1 in
    str_to_int (pretty n) = Some n ->
    add_master_item item_type data w =
      _save_master_csv item_type
        (all_items ++ [VDict [("id", VStr (pretty n)); ("name", name);
                              ("Unit", unit); ("Price", price)]])%list w1 /\
    Forall (fun item => has_id (VStr (pretty n)) item = false) all_items.
Proof.
  intros t data name unit price w w1 items Hload Hn Hu Hp n Hint. split.
  - destruct (load_master_csv_ok t w items w1 Hload) as [Hall _].
    unfold add_master_item.
    rewrite (bind_ok _ _ _ _ _ Hload).
    rewrite (bind_lift_ok _ _ _ _ (max_id_scan items Hall 0)).
    now rewrite (bind_lift_ok _ _ _ _ Hn), (bind_lift_ok _ _ _ _ Hu),
      (bind_lift_ok _ _ _ _ Hp).
  - apply List.Forall_forall. intros item Hin.
    destruct (has_id (VStr (pretty n)) item) eqn:E; [exfalso | reflexivity].
    destruct item as [| | | | | | d]; try discriminate E. cbn [has_id] in E.
    apply py_eqb_str_r in E. unfold dict_get_default in E.
    destruct (dict_get "id" d) as [v |] eqn:Ed; [| discriminate E]. subst v.
    assert (Hp' : In n (parsed_ids items)).
    { unfold parsed_ids. apply in_flat_map. exists (VDict d).
      split; [exact Hin |].
      cbn [py_get rbind]. unfold dict_get_default. rewrite Ed. cbn [py_int].
      rewrite Hint. now left. }
    pose proof (fold_max_in (parsed_ids items) 0 n Hp') as Hle.
    unfold n, max_with_zero in Hle. lia.
Qed.
End FreshId.

(** ** Editing a catalog *)

Section MasterEdits.
Context {B : Builtins}.

Lemma save_row_cells t (d : dict) :
  save_row t (VDict d) =
  Ok [csv_cell (dict_get_default "id" VNone d);
      csv_cell (dict_get_default "name" VNone d);
      csv_cell (dict_get_default "Unit" VNone d);
      csv_cell (dict_get_default "Price" VNone d)].
Proof.
  destruct (type_key_facts t) as (E1 & E2 & E3 & E4 & E5 & E6 & E7 & E8 & E9 & E10).
  unfold save_row, py_get. cbn [rbind].
  generalize (dict_get_default "id" VNone d) (dict_get_default "name" VNone d)
    (dict_get_default "Unit" VNone d) (dict_get_default "Price" VNone d).
  intros i n u p. unfold DictWriter_row.
  repeat first [ progress cbn -[String.eqb type_key_of csv_cell]
               | progress unfold dict_get_default
               | eqb_step ].
  reflexivity.
Qed.

Lemma save_dicts t (items : list pyval) w :
  Forall (fun i => is_dict i = true) items ->
  _save_master_csv t items w = (Ok tt, catalog_written t (map (saved_row t) items) w).
Proof.
  intros H. unfold _save_master_csv. destruct items as [| x l]; [reflexivity |].
  rewrite (written_rows_dicts t _ H). reflexivity.
Qed.

Lemma keep_others_filter id (items : list pyval) :
  Forall (fun i => is_dict i = true) items ->
  keep_others id items = Ok (List.filter (fun x => negb (has_id id x)) items).
Proof.
  induction 1 as [| v items Hv _ IH]; [reflexivity |].
  destruct v; try discriminate Hv.
  cbn [keep_others py_get rbind List.filter has_id]. rewrite IH. cbn [rbind].
  now destruct (py_eqb _ id).
Qed.

Lemma filter_dicts (p : pyval -> bool) (items : list pyval) :
  Forall (fun i => is_dict i = true) items ->
  Forall (fun i => is_dict i = true) (List.filter p items).
Proof.
  induction 1 as [| v items Hv _ IH]; cbn [List.filter]; [constructor |].
  destruct (p v); [constructor |]; assumption.
Qed.

Lemma loaded_dicts (items : list pyval) :
  Forall (fun i => loaded_item i = true) items ->
  Forall (fun i => is_dict i = true) items.
Proof. intros H. eapply Forall_impl; [exact H |]. intros v. apply loaded_item_dict. Qed.

(** X6. Once the catalog is loaded, [delete_master_item] raises nothing
    and writes the catalog once, with the rows of the items whose id is
    not the one given, in their order: every item with the id goes, not
    only the first, and when no item has it the catalog is written again
    with all its rows. *)
Theorem delete_master_item_removes :
  forall (item_type : string) (item_id : pyval) (w w1 : world)
         (all_items : list pyval),
    _load_master_csv item_type w = (Ok all_items, w1) ->
    let kept := List.filter (fun item => negb (has_id item_id item)) all_items in
    delete_master_item item_type item_id w =
      (Ok tt, catalog_written item_type (map (saved_row item_type) kept) w1) /\
    Forall (fun item => has_id item_id item = false) kept.
Proof.
  intros t id w w1 items Hload kept.
  destruct (load_master_csv_ok t w items w1 Hload) as [Hall _].
  apply loaded_dicts in Hall. split.
  - unfold delete_master_item.
    rewrite (bind_ok _ _ _ _ _ Hload).
    rewrite (bind_lift_ok _ _ _ _ (keep_others_filter id items Hall)).
    apply save_dicts. now apply filter_dicts.
  - apply List.Forall_forall. intros x Hx. apply List.filter_In in Hx.
    destruct Hx as [_ Hx]. now apply negb_true_iff in Hx.
Qed.

Lemma update_first_none id data (items : list pyval) :
  Forall (fun i => is_dict i = true) items ->
  Forall (fun i => has_id id i = false) items ->
  update_first id data items = Ok items.
Proof.
  induction 1 as [| v items Hv _ IH]; intros Hn; [reflexivity |].
  inversion Hn as [| ? ? H1 H2]; subst.
  destruct v; try discriminate Hv. cbn [has_id] in H1.
  cbn [update_first py_get rbind]. rewrite H1, (IH H2). reflexivity.
Qed.

Lemma update_first_found id data (pre post : list pyval) (d : dict) name unit price :
  Forall (fun i => is_dict i = true) pre ->
  Forall (fun i => has_id id i = false) pre ->
  has_id id (VDict d) = true ->
  py_getitem data "name" = Ok name ->
  py_getitem data "unit" = Ok unit ->
  py_getitem data "price" = Ok price ->
  update_first id data (pre ++ VDict d :: post) =
  Ok (pre ++ VDict (dict_set "Price" price
                      (dict_set "Unit" unit (dict_set "name" name d))) :: post)%list.
Proof.
  intros Hd Hn Hi En Eu Ep. induction Hd as [| v pre Hv _ IH].
  - cbn [app update_first py_get rbind]. cbn [has_id] in Hi.
    rewrite Hi, En, Eu, Ep. reflexivity.
  - inversion Hn as [| ? ? H1 H2]; subst.
    destruct v; try discriminate Hv. cbn [has_id] in H1.
    change ((VDict d0 :: pre) ++ VDict d :: post)%list
      with (VDict d0 :: (pre ++ VDict d :: post))%list.
    cbn [update_first py_get rbind]. rewrite H1, (IH H2). reflexivity.
Qed.

Lemma saved_row_updated t (d : dict) name unit price :
  saved_row t (VDict (dict_set "Price" price
                        (dict_set "Unit" unit (dict_set "name" name d)))) =
  [csv_cell (dict_get_default "id" VNone d); csv_cell name; csv_cell unit;
   csv_cell price].
Proof.
  unfold saved_row. rewrite save_row_cells. unfold dict_get_default.
  repeat first [ rewrite dict_get_set_eq
               | rewrite dict_get_set_ne by discriminate ].
  reflexivity.
Qed.

(** X7. Once the catalog is loaded, [update_master_item] writes it once.
    When no item has the id it writes the rows as they were loaded and
    raises nothing, whatever the new data are; otherwise the first item
    with the id gets the new name, unit and price and keeps its serial
    number, and every other row, a later one with the same id too, is
    written as loaded. *)
Theorem update_master_item_first_match :
  forall (item_type : string) (item_id data : pyval) (w w1 : world)
         (all_items : list pyval),
    _load_master_csv item_type w = (Ok all_items, w1) ->
    (Forall (fun item => has_id item_id item = false) all_items ->
     update_master_item item_type item_id data w =
       (Ok tt, catalog_written item_type (map (saved_row item_type) all_items) w1)) /\
    (forall pre d post name unit price,
        all_items = (pre ++ VDict d :: post)%list ->
        Forall (fun item => has_id item_id item = false) pre ->
        has_id item_id (VDict d) = true ->
        py_getitem data "name" = Ok name ->
        py_getitem data "unit" = Ok unit ->
        py_getitem data "price" = Ok price ->
        update_master_item item_type item_id data w =
          (Ok tt,
           catalog_written item_type
             (map (saved_row item_type) pre ++
              [csv_cell (dict_get_default "id" VNone d); csv_cell name;
               csv_cell unit; csv_cell price] ::
              map (saved_row item_type) post) w1)).
Proof.
  intros t id data w w1 items Hload.
  destruct (load_master_csv_ok t w items w1 Hload) as [Hall _].
  apply loaded_dicts in Hall. split.
  - intros Hn. unfold update_master_item.
    rewrite (bind_ok _ _ _ _ _ Hload).
    rewrite (bind_lift_ok _ _ _ _ (update_first_none id data items Hall Hn)).
    now apply save_dicts.
  - intros pre d post name unit price -> Hn Hi En Eu Ep.
    apply Forall_app in Hall. destruct Hall as [Hpre Hpost].
    inversion Hpost as [| ? ? _ Hpost']; subst.
    unfold update_master_item.
    rewrite (bind_ok _ _ _ _ _ Hload).
    rewrite (bind_lift_ok _ _ _ _
               (update_first_found id data pre post d name unit price
                  Hpre Hn Hi En Eu Ep)).
    rewrite save_dicts.
    + now rewrite map_app, map_cons, saved_row_updated.
    + apply Forall_app. split; [exact Hpre |]. now constructor.
Qed.
End MasterEdits.

(** ** Looking a master item up by its id *)

Section MasterMap.
Context {B : Builtins}.

Lemma py_eqb_str_or_none a b :
  str_or_none a = true -> str_or_none b = true -> py_eqb a b = true -> a = b.
Proof.
  destruct a, b; try discriminate; cbn; try reflexivity.
  intros _ _ H. apply String.eqb_eq in H. now subst.
Qed.

Lemma pymap_get_set (m : pymap) k v s :
  str_keys m -> str_or_none k = true ->
  pymap_getitem (pymap_set k v m) (VStr s) =
  if py_eqb k (VStr s) then Ok v else pymap_getitem m (VStr s).
Proof.
  intros Hm Hk. induction Hm as [| [k' v'] m Hk' _ IH]; cbn [pymap_set pymap_getitem].
  - reflexivity.
  - cbn [fst] in Hk'. destruct (py_eqb k' k) eqn:E; cbn [pymap_getitem].
    + apply py_eqb_str_or_none in E; [| assumption ..]. subst k'.
      now destruct (py_eqb k (VStr s)).
    + rewrite IH. destruct (py_eqb k' (VStr s)) eqn:E1; [| reflexivity].
      destruct (py_eqb k (VStr s)) eqn:E2; [| reflexivity].
      apply py_eqb_str_or_none in E1; [| assumption | reflexivity].
      apply py_eqb_str_or_none in E2; [| assumption | reflexivity].
      subst. cbn in E. now rewrite String.eqb_refl in E.
Qed.

Lemma map_by_id_last (s : string) (items : list pyval) :
  Forall (fun i => loaded_item i = true) items ->
  forall m, str_keys m ->
    exists m',
      rfor_each items
        (fun m item =>
           k <- py_getitem item "id" ;;
           if hashable k then Ok (pymap_set k item m) else Raise TypeError)
        m = Ok m' /\
      pymap_getitem m' (VStr s) =
      match last (List.filter (has_id (VStr s)) items) with
      | Some item => Ok item
      | None => pymap_getitem m (VStr s)
      end.
Proof.
  induction 1 as [| v items Hv _ IH]; intros m Hm; cbn [rfor_each List.filter].
  - now exists m.
  - destruct v as [| | | | | | d]; try discriminate Hv. cbn [loaded_item] in Hv.
    cbn [py_getitem has_id]. unfold dict_get_default.
    destruct (dict_get "id" d) as [k |]; [| discriminate Hv].
    assert (Hh : hashable k = true) by (destruct k; try discriminate Hv; reflexivity).
    cbn [rbind]. rewrite Hh.
    destruct (IH (pymap_set k (VDict d) m)) as (m' & Hr & Hg).
    { now apply pymap_set_keys. }
    exists m'. split; [exact Hr |]. rewrite Hg, pymap_get_set by assumption.
    destruct (py_eqb k (VStr s)).
    + rewrite last_cons. now destruct (last _).
    + reflexivity.
Qed.

(** X8. Once the catalog is loaded, [get_master_item_map] raises nothing,
    and looking a serial number up in the map gives the last item of the
    catalog with that id, [KeyError] when there is none: of two rows with
    the same serial number the map holds the later one. *)
Theorem get_master_item_map_last_wins :
  forall (item_type id : string) (w w1 : world) (all_items : list pyval),
    _load_master_csv item_type w = (Ok all_items, w1) ->
    exists m,
      get_master_item_map item_type w = (Ok m, w1) /\
      pymap_getitem m (VStr id) =
      match last (List.filter (has_id (VStr id)) all_items) with
      | Some item => Ok item
      | None => Raise KeyError
      end.
Proof.
  intros t id w w1 items Hload.
  destruct (load_master_csv_ok t w items w1 Hload) as [Hall _].
  destruct (map_by_id_last id items Hall [] (List.Forall_nil _)) as (m & Hr & Hg).
  exists m. split; [| exact Hg].
  unfold get_master_item_map. rewrite (bind_ok _ _ _ _ _ Hload).
  unfold map_by_id, lift. now rewrite Hr.
Qed.
End MasterMap.

(** ** Editing the work items of a category *)

Section CategoryEdits.
Context {B : Builtins}.

Lemma find_by_id_first id (pre post : list pyval) (c : dict) :
  Forall (fun x => is_dict x = true /\ has_id id x = false) pre ->
  has_id id (VDict c) = true ->
  find_by_id id (pre ++ VDict c :: post) = Ok (Some (Datatypes.length pre, VDict c)).
Proof.
  intros Hpre Hc. induction Hpre as [| x pre [Hd Hi] _ IH].
  - cbn [app find_by_id py_get rbind Datatypes.length]. cbn [has_id] in Hc. now rewrite Hc.
  - destruct x; try discriminate Hd. cbn [has_id] in Hi.
    change ((VDict d :: pre) ++ VDict c :: post)%list
      with (VDict d :: (pre ++ VDict c :: post))%list.
    cbn [find_by_id py_get rbind]. rewrite Hi, IH. reflexivity.
Qed.

Lemma insert_middle (pre post : list pyval) (x y : pyval) :
  <[Datatypes.length pre := y]> (pre ++ x :: post)%list = (pre ++ y :: post)%list.
Proof. induction pre as [| a pre IH]; [reflexivity |]. cbn. f_equal. exact IH. Qed.

Lemma with_category_found id change w d pre c post c' :
  first_category id w d pre c post ->
  change (VDict c) = Ok c' ->
  with_category id change w = (Ok tt, categories_saved d (pre ++ c' :: post) w).
Proof.
  intros (Hj & Hc & Hpre & Hid) Hch.
  unfold with_category, _load_json_data, bind. rewrite Hj.
  cbn [lift py_get]. unfold dict_get_default. rewrite Hc. cbn [py_iter].
  rewrite (find_by_id_first id pre post c Hpre Hid), Hch.
  unfold _save_json_data, put_category, categories_saved.
  now rewrite Hc, insert_middle.
Qed.

Lemma has_id_with_work_items id (c : dict) l :
  has_id id (with_work_items c l) = has_id id (VDict c).
Proof.
  unfold with_work_items, has_id, dict_get_default.
  now rewrite dict_get_set_ne by discriminate.
Qed.

Lemma get_category_by_id_saved id (d : dict) (pre post : list pyval) (c' : dict) w :
  Forall (fun x => is_dict x = true /\ has_id id x = false) pre ->
  has_id id (VDict c') = true ->
  get_category_by_id id (categories_saved d (pre ++ VDict c' :: post) w) =
  (Ok (VDict c'), categories_saved d (pre ++ VDict c' :: post) w).
Proof.
  intros Hpre Hid.
  unfold get_category_by_id, get_all_categories, _load_json_data, bind, categories_saved.
  cbn [json_file lift py_get]. unfold dict_get_default.
  rewrite dict_get_set_eq. cbn [py_iter].
  now rewrite (find_by_id_first id pre post c' Hpre Hid).
Qed.

Lemma work_items_with (c : dict) l : work_items (with_work_items c l) = l.
Proof.
  unfold work_items, with_work_items, field. now rewrite dict_get_set_eq.
Qed.

(** The three edits under one statement: what [change] makes of the work
    items is what the category is saved and found again with. *)
Lemma category_edit id change w d pre c post l :
  first_category id w d pre c post ->
  change (VDict c) = Ok (with_work_items c l) ->
  let w' := categories_saved d (pre ++ with_work_items c l :: post) w in
  with_category id change w = (Ok tt, w') /\
  get_category_by_id id w' = (Ok (with_work_items c l), w') /\
  work_items (with_work_items c l) = l.
Proof.
  intros Hf Hch w'. split; [| split].
  - exact (with_category_found id change w d pre c post _ Hf Hch).
  - destruct Hf as (_ & _ & Hpre & Hid).
    apply (get_category_by_id_saved id d pre post
             (dict_set "work_items" (VList l) c) w Hpre).
    now rewrite <- (has_id_with_work_items id c l) in Hid.
  - apply work_items_with.
Qed.

(** X9. When the stored document has a category with the id, whose work
    items are a list (or are missing), [add_work_item_to_category] puts
    the work item at the end of the work items of the first such
    category and saves the document once; the other categories, a later
    one with the same id too, are saved as they were, and
    [get_category_by_id] then returns the category with the work item as
    its last. *)
Theorem add_work_item_to_category_appends :
  forall (category_id work_item : pyval) (w : world) (d c : dict)
         (pre post l : list pyval),
    first_category category_id w d pre c post ->
    dict_get_default "work_items" (VList []) c = VList l ->
    let c' := with_work_items c (l ++ [work_item]) in
    let w' := categories_saved d (pre ++ c' :: post) w in
    add_work_item_to_category category_id work_item w = (Ok tt, w') /\
    get_category_by_id category_id w' = (Ok c', w') /\
    work_items c' = (l ++ [work_item])%list.
Proof.
  intros id item w d c pre post l Hf Hl.
  apply (category_edit id _ w d pre c post (l ++ [item])%list Hf).
  cbn [py_get rbind]. now rewrite Hl.
Qed.

Lemma update_items_map (updated : dict) (l : list pyval) :
  Forall (fun i => is_dict i = true) l ->
  rmap (fun item =>
          a <- py_get item "id" VNone ;;
          b <- py_get (VDict updated) "id" VNone ;;
          Ok (if py_eqb a b then VDict updated else item)) l =
  Ok (map (fun item =>
             if has_id (dict_get_default "id" VNone updated) item
             then VDict updated else item) l).
Proof.
  induction 1 as [| v l Hv _ IH]; [reflexivity |].
  destruct v; try discriminate Hv.
  cbn [rmap map]. rewrite IH. cbn [py_get rbind has_id]. reflexivity.
Qed.

(** X10. When the stored document has a category with the id, whose work
    items are a list of records, [update_work_item] replaces, in the
    first such category, every work item whose id is the id of the
    updated record by that record, keeps the others and the order (so the
    number of work items is the same), and saves the document once;
    [get_category_by_id] then returns the category with these work
    items. *)
Theorem update_work_item_replaces :
  forall (category_id : pyval) (updated : dict) (w : world) (d c : dict)
         (pre post l : list pyval),
    first_category category_id w d pre c post ->
    dict_get_default "work_items" (VList []) c = VList l ->
    Forall (fun item => is_dict item = true) l ->
    let l' := map (fun item =>
                     if has_id (dict_get_default "id" VNone updated) item
                     then VDict updated else item) l in
    let c' := with_work_items c l' in
    let w' := categories_saved d (pre ++ c' :: post) w in
    update_work_item category_id (VDict updated) w = (Ok tt, w') /\
    get_category_by_id category_id w' = (Ok c', w') /\
    work_items c' = l' /\ Datatypes.length l' = Datatypes.length l.
Proof.
  intros id u w d c pre post l Hf Hl Hd l' c' w'.
  destruct (category_edit id
              (fun category =>
                 items <- work_items_of category ;;
                 items' <- rmap (fun item =>
                                   a <- py_get item "id" VNone ;;
                                   b <- py_get (VDict u) "id" VNone ;;
                                   Ok (if py_eqb a b then VDict u else item)) items ;;
                 set_work_items category items')
              w d pre c post l' Hf) as (H1 & H2 & H3).
  { unfold work_items_of. cbn [py_get rbind]. rewrite Hl. cbn [py_iter rbind].
    pose proof (update_items_map u l Hd) as Hm. cbn [py_get rbind] in Hm.
    rewrite Hm. reflexivity. }
  repeat split; [exact H1 | exact H2 | exact H3 | apply List.length_map].
Qed.

(** X11. When the stored document has a category with the id, whose work
    items are a list of records, [delete_work_item] takes out of the
    first such category every work item with the given id, keeps the
    others in their order, and saves the document once;
    [get_category_by_id] then returns the category without them. *)
Theorem delete_work_item_removes :
  forall (category_id work_item_id : pyval) (w : world) (d c : dict)
         (pre post l : list pyval),
    first_category category_id w d pre c post ->
    dict_get_default "work_items" (VList []) c = VList l ->
    Forall (fun item => is_dict item = true) l ->
    let l' := List.filter (fun item => negb (has_id work_item_id item)) l in
    let c' := with_work_items c l' in
    let w' := categories_saved d (pre ++ c' :: post) w in
    delete_work_item category_id work_item_id w = (Ok tt, w') /\
    get_category_by_id category_id w' = (Ok c', w') /\
    work_items c' = l' /\
    Forall (fun item => has_id work_item_id item = false) l'.
Proof.
  intros id wid w d c pre post l Hf Hl Hd l' c' w'.
  destruct (category_edit id
              (fun category =>
                 items <- work_items_of category ;;
                 items' <- keep_others wid items ;;
                 set_work_items category items')
              w d pre c post l' Hf) as (H1 & H2 & H3).
  { unfold work_items_of. cbn [py_get rbind]. rewrite Hl. cbn [py_iter rbind].
    rewrite (keep_others_filter wid l Hd). reflexivity. }
  repeat split; [exact H1 | exact H2 | exact H3 |].
  apply List.Forall_forall. intros x Hx. apply List.filter_In in Hx.
  destruct Hx as [_ Hx]. now apply negb_true_iff in Hx.
Qed.
End CategoryEdits.

(** ** Projects and new categories *)

Section Creation.
Context {B : Builtins}.

Lemma replace_items_map (p : dict) (ps : list pyval) :
  Forall (fun q => is_dict q = true) ps ->
  rmap (fun q =>
          a <- py_get q "id" VNone ;;
          b <- py_get (VDict p) "id" VNone ;;
          Ok (if py_eqb a b then VDict p else q)) ps =
  Ok (map (fun q => if has_id (dict_get_default "id" VNone p) q then VDict p else q) ps).
Proof.
  induction 1 as [| v l Hv _ IH]; [reflexivity |].
  destruct v; try discriminate Hv.
  cbn [rmap map]. rewrite IH. cbn [py_get rbind has_id]. reflexivity.
Qed.

Lemma map_unchanged (p : pyval) (test : pyval -> bool) (ps : list pyval) :
  Forall (fun q => test q = false) ps ->
  map (fun q => if test q then p else q) ps = ps.
Proof.
  induction 1 as [| q ps Hq _ IH]; [reflexivity |].
  cbn [map]. now rewrite Hq, IH.
Qed.

(** X12. On a document whose projects are a list of records,
    [update_project] raises nothing and saves the document once, with
    every project whose id is the id of the given record replaced by that
    record and the others as they were, in their order: the number of
    projects is the same, and when no project has the id the projects are
    saved unchanged, so a project is never created this way. *)
Theorem update_project_replaces :
  forall (p d : dict) (ps : list pyval) (w : world),
    document w = VDict d ->
    dict_get_default "projects" (VList []) d = VList ps ->
    Forall (fun q => is_dict q = true) ps ->
    let id := dict_get_default "id" VNone p in
    let ps' := map (fun q => if has_id id q then VDict p else q) ps in
    update_project (VDict p) w = (Ok tt, projects_saved d ps' w) /\
    Datatypes.length ps' = Datatypes.length ps /\
    (Forall (fun q => has_id id q = false) ps -> ps' = ps).
Proof.
  intros p d ps w Hdoc Hps Hd id ps'. repeat split.
  - unfold update_project, _load_json_data, bind. fold (document w). rewrite Hdoc.
    cbn [lift py_get]. rewrite Hps. cbn [py_iter].
    pose proof (replace_items_map p ps Hd) as Hm. cbn [py_get rbind] in Hm |- *.
    rewrite Hm. reflexivity.
  - apply List.length_map.
  - apply map_unchanged.
Qed.

Lemma find_by_id_last id (l : list pyval) (c : dict) :
  Forall (fun x => is_dict x = true /\ has_id id x = false) l ->
  has_id id (VDict c) = true ->
  find_by_id id (l ++ [VDict c]) = Ok (Some (Datatypes.length l, VDict c)).
Proof.
  intros Hl Hc. induction Hl as [| x l [Hd Hi] _ IH].
  - cbn [app find_by_id py_get rbind Datatypes.length]. cbn [has_id] in Hc.
    now rewrite Hc.
  - destruct x; try discriminate Hd. cbn [has_id] in Hi.
    change ((VDict d :: l) ++ [VDict c])%list with (VDict d :: (l ++ [VDict c]))%list.
    cbn [find_by_id py_get rbind]. rewrite Hi, IH. reflexivity.
Qed.

(** X13. A POST to the list of categories without a name, or with an
    empty one, changes nothing and flashes an error.  With a name, on a
    document whose categories are a list (or are missing), it draws an
    identifier, appends a category with that id, the name and no work
    item, and saves the document once; when no category had that id
    before, [get_category_by_id] then finds the new category. *)
Theorem categories_list_creates :
  forall (req : request) (w : world),
    String.eqb (method req) "POST" = true ->
    (field_empty "category_name" (rform req) = true ->
     categories_list req w =
       (Ok (Redirect "main_bp.categories_list" "error" "Category name cannot be empty."),
        w)) /\
    (forall (name : string) (d : dict) (l : list pyval),
        form_get "category_name" (rform req) = Some name ->
        name <> "" ->
        document w = VDict d ->
        dict_get_default "categories" (VList []) d = VList l ->
        let id := uuid4 (uuid_next w) in
        let w' := categories_saved d (l ++ [new_category id name]) (bump 1 w) in
        categories_list req w =
          (Ok (Redirect "main_bp.categories_list" "success"
                 ("Category '" ++ name ++ "' created successfully.")), w') /\
        (Forall (fun c => is_dict c = true /\ has_id (VStr id) c = false) l ->
         get_category_by_id (VStr id) w' = (Ok (new_category id name), w'))).
Proof.
  intros req w Hm. unfold categories_list. rewrite Hm. split.
  - unfold field_empty. destruct (form_get "category_name" (rform req)) as [s |].
    + intros E. cbn [opt_str py_truthy]. now rewrite E.
    + reflexivity.
  - intros name d l Hn Hne Hdoc Hl. set (id := uuid4 (uuid_next w)). rewrite Hn. cbn [opt_str py_truthy].
    apply String.eqb_neq in Hne. rewrite Hne. cbn [negb]. split.
    + unfold add_new_category, _load_json_data, fresh_uuid, bind.
      fold (document w). rewrite Hdoc, Hl.
      unfold categories_saved, bump, _save_json_data, ret. cbn.
      now rewrite Nat.add_1_r.
    + intros Hall.
      unfold get_category_by_id, get_all_categories, _load_json_data, bind,
        categories_saved.
      cbn [json_file lift py_get]. unfold dict_get_default.
      rewrite dict_get_set_eq. cbn [py_iter]. unfold new_category.
      rewrite (find_by_id_last (VStr id) l _ Hall); [reflexivity |].
      cbn. apply String.eqb_refl.
Qed.

End Creation.

(** ** Finding a work item *)

Section FindWorkItem.
Context {B : Builtins}.

Lemma find_by_id_some id (l : list pyval) :
  forall i x, find_by_id id l = Ok (Some (i, x)) -> has_id id x = true /\ In x l.
Proof.
  induction l as [| y l IH]; intros i x H; cbn [find_by_id] in H; [discriminate H |].
  destruct y as [| | | | | | d]; try discriminate H. cbn [py_get rbind] in H.
  destruct (py_eqb (dict_get_default "id" VNone d) id) eqn:E.
  - injection H as <- <-. split; [exact E | now left].
  - destruct (find_by_id id l) as [[[j z] |] | e]; try discriminate H.
    cbn [rbind] in H. injection H as <- <-.
    destruct (IH j z eq_refl) as [H1 H2]. split; [exact H1 | now right].
Qed.

Lemma find_by_id_absent id (l : list pyval) :
  find_by_id id l = Ok None -> Forall (fun x => has_id id x = false) l.
Proof.
  induction l as [| y l IH]; intros H; cbn [find_by_id] in H; [constructor |].
  destruct y as [| | | | | | d]; try discriminate H. cbn [py_get rbind] in H.
  destruct (py_eqb (dict_get_default "id" VNone d) id) eqn:E; [discriminate H |].
  destruct (find_by_id id l) as [[[j z] |] | e]; try discriminate H.
  constructor; [exact E | now apply IH].
Qed.

Lemma has_id_not_none id x : has_id id x = true -> x <> VNone.
Proof. now destruct x. Qed.

Lemma scan_found wid (cats : list pyval) found :
  found <> VNone ->
  rfor_each cats
    (fun found category =>
       match found with
       | VNone =>
           items <- work_items_of category ;;
           r <- find_by_id wid items ;;
           Ok (match r with Some (_, item) => item | None => VNone end)
       | _ => Ok found
       end) found = Ok found.
Proof.
  intros Hf. induction cats as [| c cats IH]; [reflexivity |].
  cbn [rfor_each]. destruct found; try (cbn [rbind]; exact IH).
  now contradiction Hf.
Qed.

Lemma scan_sound wid (cats : list pyval) :
  forall r,
    rfor_each cats
      (fun found category =>
         match found with
         | VNone =>
             items <- work_items_of category ;;
             r <- find_by_id wid items ;;
             Ok (match r with Some (_, item) => item | None => VNone end)
         | _ => Ok found
         end) VNone = Ok r ->
    (r = VNone /\
     forall c, In c cats ->
       exists items, work_items_of c = Ok items /\
                     Forall (fun i => has_id wid i = false) items) \/
    (has_id wid r = true /\
     exists c items, In c cats /\ work_items_of c = Ok items /\ In r items).
Proof.
  induction cats as [| c cats IH]; intros r H; cbn [rfor_each] in H.
  - injection H as <-. left. split; [reflexivity |]. intros c [].
  - destruct (work_items_of c) as [items | e] eqn:Ew; [| discriminate H].
    cbn [rbind] in H.
    destruct (find_by_id wid items) as [[[i x] |] | e] eqn:Ef; [| | discriminate H];
      cbn [rbind] in H.
    + destruct (find_by_id_some wid items i x Ef) as [Hx Hin].
      rewrite (scan_found wid cats x (has_id_not_none wid x Hx)) in H.
      injection H as <-. right. split; [exact Hx |].
      exists c, items. repeat split; [now left | exact Ew | exact Hin].
    + destruct (IH r H) as [[-> Hall] | (Hr & c' & items' & Hc & Hw & Hi)].
      * left. split; [reflexivity |]. intros c' [<- | Hc'].
        -- exists items. split; [exact Ew | now apply find_by_id_absent].
        -- now apply Hall.
      * right. split; [exact Hr |]. exists c', items'.
        repeat split; [now right | exact Hw | exact Hi].
Qed.

(** X15. [find_work_item_by_id] changes nothing.  When it returns, the
    categories of the document could be gone through, and either it
    returns a work item that has the id and is among the work items of
    one of them, or it returns [None] and every category was searched and
    none of its work items has the id. *)
Theorem find_work_item_by_id_finds :
  forall (work_item_id item : pyval) (w w' : world),
    find_work_item_by_id work_item_id w = (Ok item, w') ->
    w' = w /\
    exists v cats,
      py_get (document w) "categories" (VList []) = Ok v /\
      py_iter v = Ok cats /\
      ((item = VNone /\
        forall c, In c cats ->
          exists items, work_items_of c = Ok items /\
                        Forall (fun i => has_id work_item_id i = false) items) \/
       (has_id work_item_id item = true /\
        exists c items, In c cats /\ work_items_of c = Ok items /\ In item items)).
Proof.
  intros wid item w w' H.
  unfold find_work_item_by_id, get_all_categories, _load_json_data, bind, lift in H.
  fold (document w) in H.
  destruct (py_get (document w) "categories" (VList [])) as [v | e]; [| discriminate H].
  destruct (py_iter v) as [cats | e] eqn:Ei; [| discriminate H].
  injection H as H <-. split; [reflexivity |].
  exists v, cats. split; [reflexivity | split; [exact Ei |]].
  now apply scan_sound.
Qed.
End FindWorkItem.

(** ** The inventory form *)

Create HintDb inventory.

Section Inventory.
Context {B : Builtins}.

#[local] Hint Resolve keeps_json_ret keeps_json_raise keeps_json_lift
  keeps_json_fresh_uuid keeps_json_write_csv keeps_json_load keeps_json_save
  keeps_json_delete_master_item : inventory.
#[local] Hint Resolve writes_only_ret writes_only_raise writes_only_lift
  writes_only_fresh_uuid writes_only_write_csv writes_only_load writes_only_save
  writes_only_delete_master_item : inventory.

Lemma keeps_json_inventory_row t kd : keeps_json (inventory_row t kd).
Proof.
  destruct kd as [id data]. unfold inventory_row, update_master_item, add_master_item.
  repeat first
    [ solve [auto with inventory]
    | apply keeps_json_bind; [| intros ?]
    | match goal with |- keeps_json (if ?x then _ else _) => destruct x end ].
Qed.

Lemma writes_only_inventory_row t kd : writes_only_csv t (inventory_row t kd).
Proof.
  destruct kd as [id data]. unfold inventory_row, update_master_item, add_master_item.
  repeat first
    [ solve [auto with inventory]
    | apply writes_only_bind; [| intros ?]
    | match goal with |- writes_only_csv _ (if ?x then _ else _) => destruct x end ].
Qed.

Lemma names_catalog_false f w :
  names_catalog f = false -> inventory_post f w = (Ok InvalidCategory, w).
Proof.
  unfold names_catalog, inventory_post.
  destruct (form_get "item_type" f) as [t |]; [| reflexivity].
  now intros ->.
Qed.

(** X16. Whatever the form and the files, the POST branch of
    [inventory_manager] leaves [data.json] as it was, writes no catalog
    but the one the form names, and never ends in a [ValueError], a
    [TypeError] or a [KeyError]: those are flashed.  When the form names
    none of labor, material and equipment it changes nothing at all. *)
Theorem inventory_post_frame :
  forall (f : form) (w : world),
    let r := inventory_post f w in
    json_file (snd r) = json_file w /\
    (forall t, form_get "item_type" f <> Some t ->
               csv_files (snd r) !! t = csv_files w !! t) /\
    (forall e, fst r = Raise e -> caught_vtk e = false) /\
    (names_catalog f = false -> r = (Ok InvalidCategory, w)).
Proof.
  intros f w r. subst r.
  destruct (names_catalog f) eqn:En.
  2:{ rewrite (names_catalog_false f w En). repeat split; try discriminate. }
  unfold names_catalog in En. unfold inventory_post.
  destruct (form_get "item_type" f) as [t |]; [| discriminate En]. rewrite En.
  set (m := bind (lift (inventory_rows f))
              (fun items_data =>
                 for_each items_data (fun _ kd => inventory_row t kd) tt)).
  assert (Hj : keeps_json m).
  { apply keeps_json_bind; [apply keeps_json_lift | intros rows].
    apply keeps_json_for_each. intros s x. apply keeps_json_inventory_row. }
  assert (Hw : writes_only_csv t m).
  { apply writes_only_bind; [apply writes_only_lift | intros rows].
    apply writes_only_for_each. intros s x. apply writes_only_inventory_row. }
  specialize (Hj w). destruct (Hw w) as [Hc _].
  destruct (m w) as [[u | e] w1]; cbn [fst snd] in *.
  - repeat split; try discriminate; [exact Hj |].
    intros t' Hne. apply Hc. congruence.
  - destruct (caught_vtk e) eqn:Ec; cbn [fst snd]; repeat split;
      try discriminate; try exact Hj;
      try (intros t' Hne; apply Hc; congruence).
    intros e' [= <-]. exact Ec.
Qed.

Lemma idle_row_skipped t kd w :
  idle_row kd = true -> inventory_row t kd w = (Ok tt, w).
Proof.
  destruct kd as [id data]. unfold idle_row, inventory_row. cbn [snd].
  destruct (py_eqb _ (VStr "delete")); [discriminate |].
  destruct (py_eqb _ (VStr "update")) eqn:Eu; cbn [orb].
  - unfold row_data.
    destruct (py_float _) as [p |]; [| discriminate]. intros H.
    unfold bind, lift. cbn [rbind all_truthy forallb snd].
    apply negb_true_iff in H. rewrite andb_true_r, andb_assoc, H. reflexivity.
  - destruct (py_eqb _ (VStr "create")); [| reflexivity].
    unfold row_data.
    destruct (py_float _) as [p |]; [| discriminate]. intros H.
    unfold bind, lift. cbn [rbind all_truthy forallb snd].
    apply negb_true_iff in H. rewrite andb_true_r, andb_assoc, H. reflexivity.
Qed.

Lemma idle_rows_skipped t (rows : list (string * dict)) w :
  forallb idle_row rows = true ->
  for_each rows (fun _ kd => inventory_row t kd) tt w = (Ok tt, w).
Proof.
  induction rows as [| kd rows IH]; [reflexivity |].
  cbn [forallb for_each]. intros H. apply andb_true_iff in H. destruct H as [H1 H2].
  unfold bind. rewrite (idle_row_skipped t kd w H1). now apply IH.
Qed.

(** X17. When the inventory form names a catalog and each of its rows
    asks for nothing to be done (no action, or an update or a create with
    an empty name, an empty unit, or a price that is missing or reads as
    zero), the POST branch of [inventory_manager] reads and writes no
    file and still flashes that the inventory was updated. *)
Theorem inventory_post_idle_rows :
  forall (f : form) (item_type : string) (rows : list (string * dict)) (w : world),
    form_get "item_type" f = Some item_type ->
    names_catalog f = true ->
    inventory_rows f = Ok rows ->
    forallb idle_row rows = true ->
    inventory_post f w =
      (Ok (InventoryUpdated
             (str_capitalize item_type ++ " inventory updated successfully.")), w).
Proof.
  intros f t rows w Ht Hn Hr Hi. unfold names_catalog in Hn. rewrite Ht in Hn.
  unfold inventory_post. rewrite Ht, Hn.
  rewrite (bind_lift_ok _ _ _ _ Hr), (idle_rows_skipped t rows w Hi). reflexivity.
Qed.
End Inventory.

(** ** The grand total on the two project pages *)

Section Totals.
Context {B : Builtins}.

Lemma add_line_total (items : list pyval) :
  forall (acc : list pyval) (g : pyval),
    rfor_each items add_line g =
    (r <- rfor_each items line_total (acc, g) ;; Ok (snd r)).
Proof.
  induction items as [| item items IH]; intros acc g; [reflexivity |].
  cbn [rfor_each]. unfold add_line at 1, line_total at 1.
  destruct item as [| | | | | | d]; try reflexivity.
  cbn [py_get rbind].
  destruct (py_mul _ _) as [t | e]; [| reflexivity].
  cbn [rbind py_setitem].
  destruct (py_add g t) as [g' | e]; [| reflexivity].
  cbn [rbind]. apply IH.
Qed.

Lemma get_project_by_id_reads id w project w' :
  get_project_by_id id w = (Ok project, w') ->
  w' = w /\ exists d, document w = VDict d.
Proof.
  unfold get_project_by_id, get_projects, _load_json_data, bind, lift.
  fold (document w). destruct (document w) as [| | | | | | d]; try discriminate.
  cbn [py_get]. destruct (py_iter _) as [ps | e]; [| discriminate].
  destruct (find_by_id id ps) as [r | e]; [| discriminate].
  intros [= _ <-]. split; [reflexivity | now exists d].
Qed.

(** X18. The project page and the list of projects agree on the grand
    total of a project.  For a stored project, on a request that is not a
    POST: when the list computes the project's grand total, the project
    page is rendered and shows the same grand total; when the list raises
    on the project, the project page raises the same exception.  Both
    write nothing. *)
Theorem grand_totals_agree :
  forall (project_id : string) (req : request) (w w' : world) (project : pyval),
    String.eqb (method req) "POST" = false ->
    get_project_by_id (VStr project_id) w = (Ok project, w') ->
    py_truthy project = true ->
    match with_grand_total project with
    | Ok listed =>
        exists shown all_work_items,
          project_detail project_id req w =
            (Ok (Render "project_detail.html"
                   [("project", shown); ("all_work_items", all_work_items)]), w) /\
          field "grand_total" shown = field "grand_total" listed /\
          field "grand_total" listed <> None
    | Raise e => project_detail project_id req w = (Raise e, w)
    end.
Proof.
  intros pid req w w' project Hm Hp Ht.
  destruct (get_project_by_id_reads _ _ _ _ Hp) as [-> [d Hd]].
  unfold project_detail. rewrite (bind_ok _ _ _ _ _ Hp), Ht, Hm. cbn [negb].
  unfold with_grand_total.
  destruct (py_get project "items" (VList [])) as [v | e] eqn:Ev;
    [| reflexivity].
  rewrite (bind_lift_ok _ _ _ _ eq_refl). cbn [rbind].
  destruct (py_iter v) as [items | e]; [| reflexivity].
  rewrite (bind_lift_ok _ _ _ _ eq_refl). cbn [rbind].
  rewrite (add_line_total items [] (VInt 0)).
  destruct (rfor_each items line_total ([], VInt 0)) as [[items' g] | e];
    [| reflexivity].
  rewrite (bind_lift_ok _ _ _ _ eq_refl). cbn [rbind snd].
  destruct project as [| | | | | | p]; try discriminate Ev.
  assert (Hput : exists p', put_items (VDict p) items' = VDict p').
  { unfold put_items. destruct (dict_get "items" p) as [[] |]; eauto. }
  destruct Hput as [p' ->]. cbn [py_setitem].
  rewrite (bind_lift_ok _ _ _ _ eq_refl).
  unfold get_all_categories, _load_json_data, bind, lift, ret.
  fold (document w). rewrite Hd. cbn [py_get].
  eexists. eexists. split; [reflexivity |].
  cbn [field]. rewrite !dict_get_set_eq. split; [reflexivity | discriminate].
Qed.
End Totals.

(** ** The lines a form selects *)

Lemma filled_values_set k s (d : dict) :
  s <> "" -> filled_values d -> filled_values (dict_set k (VStr s) d).
Proof.
  intros Hs Hd k' v. destruct (String.eqb_spec k k') as [<- | Hne].
  - rewrite dict_get_set_eq. intros [= <-]. now exists s.
  - rewrite dict_get_set_ne by exact Hne. apply Hd.
Qed.

Lemma items_set_filled key field value (items : list (string * dict)) :
  item_key key -> value <> "" ->
  Forall (fun kd => item_key (fst kd) /\ filled_values (snd kd)) items ->
  Forall (fun kd => item_key (fst kd) /\ filled_values (snd kd))
         (items_set key field value items).
Proof.
  intros Hk Hv. induction 1 as [| [k d] items [H1 H2] Hi IH]; cbn [items_set].
  - repeat constructor; cbn [fst snd]; [exact Hk |].
    apply (filled_values_set field value [] Hv). intros k v. discriminate.
  - destruct (String.eqb k key).
    + constructor; [| exact Hi]. split; [exact H1 |].
      now apply filled_values_set.
    + constructor; [now split | exact IH].
Qed.

Lemma data_append_selected t v (data : list (string * list pyval)) :
  str_has "-" t = false -> selected_line v ->
  Forall selected_lines data -> Forall selected_lines (data_append t v data).
Proof.
  intros Ht Hv. induction 1 as [| [k l] data (H1 & H2 & H3) Hd IH]; cbn [data_append].
  - repeat constructor; cbn [fst snd]; [exact Ht | discriminate | exact Hv].
  - destruct (String.eqb k t).
    + constructor; [| exact Hd]. cbn [fst snd] in *. repeat split.
      * exact H1.
      * now destruct l.
      * apply Forall_app. split; [exact H3 | now repeat constructor].
    + constructor; [now repeat split | exact IH].
Qed.

Lemma collect_items_filled (f : form) :
  forall items,
    Forall (fun kd => item_key (fst kd) /\ filled_values (snd kd)) items ->
    Forall (fun kd => item_key (fst kd) /\ filled_values (snd kd))
      (fold_left
         (fun items kv =>
            let '(key, value) := kv in
            if str_has "-" key then
              match str_split "-" key with
              | [item_type; index; field] =>
                  if negb (String.eqb value "")
                  then items_set (item_type ++ "-" ++ index) field value items
                  else items
              | _ => items
              end
            else items)
         f items).
Proof.
  induction f as [| [key value] f IH]; intros items Hi; cbn [fold_left]; [exact Hi |].
  apply IH.
  destruct (str_has "-" key); [| exact Hi].
  pose proof (str_split_no_sep "-" key) as Hs.
  destruct (str_split "-" key) as [| a [| b [| c [| ? ?]]]]; try exact Hi.
  destruct (String.eqb_spec value "") as [| Hv]; [exact Hi |]. cbn [negb].
  apply items_set_filled; [| exact Hv | exact Hi].
  inversion Hs as [| ? ? Ha Hs']; subst. inversion Hs' as [| ? ? Hb _]; subst.
  exists a, b. repeat split; assumption.
Qed.

Lemma data_of_items_selected (items : list (string * dict)) :
  Forall (fun kd => item_key (fst kd) /\ filled_values (snd kd)) items ->
  forall data,
    Forall selected_lines data ->
    exists data',
      rfor_each items
        (fun data kd =>
           let '(key, value_dict) := kd in
           if dict_mem "id" value_dict then
             match str_split "-" key with
             | [item_type; _] => Ok (data_append item_type (VDict value_dict) data)
             | _ => Raise ValueError
             end
           else Ok data)
        data = Ok data' /\ Forall selected_lines data'.
Proof.
  induction 1 as [| [key d] items [Hk Hd] _ IH]; intros data Hdata; cbn [rfor_each].
  - now exists data.
  - cbn [fst snd] in Hk, Hd. destruct (dict_mem "id" d) eqn:Em.
    + destruct Hk as (a & b & -> & Ha & Hb).
      rewrite (str_split_join "-" a b Ha Hb). cbn [rbind].
      apply IH. apply data_append_selected; [exact Ha | | exact Hdata].
      now exists d.
    + cbn [rbind]. now apply IH.
Qed.

(** X19. [parse_form_data] raises on no form.  What it returns holds, for
    each kind of line, at least one line; the name of a kind has no dash;
    and every line is a record with an id, all of whose values are
    strings that are not empty: a field sent empty is left out, and a
    line whose id is missing or empty is dropped with all its fields. *)
Theorem parse_form_data_lines :
  forall f : form,
    exists data, parse_form_data f = Ok data /\ Forall selected_lines data.
Proof.
  intros f. unfold parse_form_data.
  apply data_of_items_selected; [| constructor].
  apply collect_items_filled. constructor.
Qed.

(** ** What a catalog is loaded as *)

Section Loading.
Context {B : Builtins}.

Lemma load_row_priced t row w r w' :
  load_row t row w = (Ok r, w') -> priced_item r.
Proof.
  unfold load_row.
  assert (Hstep : forall row1 w1,
             dict_mem "id" row1 = true ->
             (p <~ lift (py_float (dict_get_default "Price" (VFloat 0%float) row1)) ;;
              let row := dict_set "Price" (VFloat p) row1 in
              let type_key := type_key_of t in
              let row :=
                match dict_get type_key row with
                | Some v => dict_set "name" v (dict_del type_key row)
                | None =>
                    match dict_get "Type" row with
                    | Some v => dict_set "name" v (dict_del "Type" row)
                    | None => row
                    end
                end in
              ret (VDict row)) w1 = (Ok r, w') ->
             priced_item r).
  { intros row1 w1 Hid. unfold bind, lift, ret.
    destruct (py_float _) as [p |]; [| discriminate].
    assert (Hp : dict_get "Price" (dict_set "Price" (VFloat p) row1) = Some (VFloat p))
      by apply dict_get_set_eq.
    assert (Hi : dict_mem "id" (dict_set "Price" (VFloat p) row1) = true).
    { unfold dict_mem in *. now rewrite dict_get_set_ne by discriminate. }
    revert Hp Hi. generalize (dict_set "Price" (VFloat p) row1). intros row2 Hp Hi.
    cbv zeta. unfold dict_mem in Hi.
    destruct (dict_get (type_key_of t) row2) as [v |].
    - intros [= <- _]. exists (dict_set "name" v (dict_del (type_key_of t) row2)), p.
      split; [reflexivity |]. unfold dict_mem.
      rewrite !dict_get_set_ne by discriminate.
      rewrite !dict_get_del_ne by (first [apply type_key_neq_id | apply type_key_neq_Price]).
      split; [exact Hi | exact Hp].
    - destruct (dict_get "Type" row2) as [v |].
      + intros [= <- _]. exists (dict_set "name" v (dict_del "Type" row2)), p.
        split; [reflexivity |]. unfold dict_mem.
        rewrite !dict_get_set_ne by discriminate.
        rewrite !dict_get_del_ne by discriminate.
        split; [exact Hi | exact Hp].
      + intros [= <- _]. exists row2, p. now repeat split. }
  unfold bind at 1.
  destruct (dict_get "SerialNo" row) as [v |].
  - cbn [ret]. apply Hstep. unfold dict_mem. now rewrite dict_get_set_eq.
  - unfold bind at 1, fresh_uuid, ret. apply Hstep.
    unfold dict_mem. now rewrite dict_get_set_eq.
Qed.

Lemma load_loop_priced t hdr (rs : list (list string)) :
  forall acc w items w',
    Forall priced_item acc ->
    for_each rs
      (fun data row =>
         r <~ load_row t (DictReader_row hdr row) ;; ret (data ++ [r])%list)
      acc w = (Ok items, w') ->
    Forall priced_item items.
Proof.
  induction rs as [| row rs IH]; intros acc w items w' Hacc H; cbn [for_each] in H.
  - now injection H as <- <-.
  - unfold bind at 1 2 in H.
    destruct (load_row t _ w) as [[r | e] w1] eqn:Hr; [| discriminate H].
    apply load_row_priced in Hr. cbn [ret] in H.
    apply IH in H; [exact H |].
    apply Forall_app. split; [exact Hacc | now constructor].
Qed.

Lemma none_fold_keeps k (ks : list string) :
  forall d : dict,
    dict_get k d = Some VNone ->
    dict_get k (fold_left (fun d k => dict_set k VNone d) ks d) = Some VNone.
Proof.
  induction ks as [| k' ks IH]; intros d Hd; cbn [fold_left]; [exact Hd |].
  apply IH. destruct (String.eqb_spec k' k) as [-> | Hne].
  - apply dict_get_set_eq.
  - now rewrite dict_get_set_ne.
Qed.

Lemma none_fold_sets k (ks : list string) :
  In k ks ->
  forall d : dict,
    dict_get k (fold_left (fun d k => dict_set k VNone d) ks d) = Some VNone.
Proof.
  induction ks as [| k' ks IH]; intros Hin d; [destruct Hin |].
  cbn [fold_left]. destruct Hin as [-> | Hin].
  - apply none_fold_keeps, dict_get_set_eq.
  - now apply IH.
Qed.

(** X20. What [_load_master_csv] returns can be relied on, whatever the
    file holds: when there is no file it is the empty list and nothing
    changes, and when it returns, every item is a dict with an id and a
    float under [Price].  It does not always return: a first row that is
    too short to reach the [Price] column makes it raise [TypeError],
    since [csv.DictReader] fills the column with [None], and then so does
    every operation on that catalog. *)
Theorem load_master_csv_items :
  forall (item_type : string) (w : world),
    (csv_files w !! item_type = None -> _load_master_csv item_type w = (Ok [], w)) /\
    (forall items w',
        _load_master_csv item_type w = (Ok items, w') -> Forall priced_item items) /\
    (forall f row rest,
        csv_files w !! item_type = Some f ->
        DictReader_rows f = row :: rest ->
        In "Price" (drop (Datatypes.length row) (header f)) ->
        fst (_load_master_csv item_type w) = Raise TypeError /\
        fst (get_master_item_map item_type w) = Raise TypeError /\
        (forall data, fst (add_master_item item_type data w) = Raise TypeError) /\
        (forall id data, fst (update_master_item item_type id data w) = Raise TypeError) /\
        (forall id, fst (delete_master_item item_type id w) = Raise TypeError)).
Proof.
  intros t w. split; [| split].
  - intros H. unfold _load_master_csv. now rewrite H.
  - intros items w'. unfold _load_master_csv.
    destruct (csv_files w !! t) as [f |].
    + apply load_loop_priced. constructor.
    + intros [= <- _]. constructor.
  - intros f row rest Hf Hrows Hin.
    assert (Hload : exists w1, _load_master_csv t w = (Raise TypeError, w1)).
    { unfold _load_master_csv. rewrite Hf, Hrows. cbn [for_each].
      assert (Hp : dict_get "Price" (DictReader_row (header f) row) = Some VNone).
      { unfold DictReader_row. now apply none_fold_sets. }
      unfold bind at 1 2. unfold load_row. unfold bind at 1.
      destruct (dict_get "SerialNo" (DictReader_row (header f) row)) as [v |].
      - cbn [ret]. unfold bind at 1, lift. unfold dict_get_default.
        rewrite dict_get_set_ne by discriminate. rewrite Hp. cbn [py_float]. eauto.
      - unfold bind at 1, fresh_uuid, ret. unfold bind at 1, lift.
        unfold dict_get_default.
        rewrite dict_get_set_ne by discriminate. rewrite Hp. cbn [py_float]. eauto. }
    destruct Hload as [w1 Hload].
    repeat split; intros;
      unfold get_master_item_map, add_master_item, update_master_item,
        delete_master_item;
      rewrite ?(bind_raise _ _ _ _ _ Hload); now rewrite ?Hload.
Qed.
End Loading.

(** ** Requests for what is not there *)

Section Unknown.
Context {B : Builtins}.

Lemma get_category_by_id_none id w :
  no_category id w -> get_category_by_id id w = (Ok VNone, w).
Proof.
  intros (cats & Hs & Hall).
  unfold get_category_by_id, get_all_categories, _load_json_data, bind.
  unfold stored_categories in Hs.
  destruct (json_file w) as [[] |] eqn:Hj; try discriminate Hs.
  - cbn [lift py_get]. unfold dict_get_default.
    destruct (dict_get "categories" d) as [[] |]; try discriminate Hs;
      injection Hs as <-; cbn [py_iter]; now rewrite find_by_id_none.
  - injection Hs as <-. reflexivity.
Qed.

Lemma get_project_by_id_none id w :
  no_project id w -> get_project_by_id id w = (Ok VNone, w).
Proof.
  intros (ps & Hs & Hall).
  unfold get_project_by_id, get_projects, _load_json_data, bind.
  unfold stored_projects in Hs.
  destruct (json_file w) as [[] |] eqn:Hj; try discriminate Hs.
  - cbn [lift py_get]. unfold dict_get_default.
    destruct (dict_get "projects" d) as [[] |]; try discriminate Hs;
      injection Hs as <-; cbn [py_iter]; now rewrite find_by_id_none.
  - injection Hs as <-. reflexivity.
Qed.

(** X21. Requests that name a category or a project the document does not
    have change nothing.  The category page answers that the category
    was not found; the project page and the addition of a line answer
    that the project was not found; the deletion of a work item answers
    that the work item was deleted, although nothing was. *)
Theorem unknown_ids_change_nothing :
  forall (id : string) (req : request) (w : world),
    (no_category (VStr id) w ->
     category_detail id req w =
       (Ok (Redirect "main_bp.categories_list" "error" "Category not found."), w) /\
     forall work_item_id,
       route_delete_work_item id work_item_id w =
         (Ok (Redirect "main_bp.category_detail" "success"
                "Work Item deleted successfully."), w)) /\
    (no_project (VStr id) w ->
     project_detail id req w =
       (Ok (Redirect "main_bp.projects_list" "error" "Project not found."), w) /\
     add_item_to_project id req w =
       (Ok (Redirect "main_bp.projects_list" "error" "Project not found."), w)).
Proof.
  intros id req w. split.
  - intros H. split.
    + unfold category_detail.
      now rewrite (bind_ok _ _ _ _ _ (get_category_by_id_none _ _ H)).
    + intros wid. unfold route_delete_work_item, delete_work_item.
      now rewrite (bind_ok _ _ _ _ _ (with_category_none _ _ _ H)).
  - intros H. split.
    + unfold project_detail.
      now rewrite (bind_ok _ _ _ _ _ (get_project_by_id_none _ _ H)).
    + unfold add_item_to_project.
      now rewrite (bind_ok _ _ _ _ _ (get_project_by_id_none _ _ H)).
Qed.
End Unknown.


(** ** The rows of the inventory form *)

Lemma str_app_assoc (a b c : string) : (a ++ b) ++ c = a ++ (b ++ c).
Proof.
  induction a as [| x a IH]; [reflexivity |].
  change (String x ((a ++ b) ++ c) = String x (a ++ (b ++ c))). now rewrite IH.
Qed.

Lemma str_has_app c (a b : string) : str_has c (a ++ b) = str_has c a || str_has c b.
Proof.
  induction a as [| x a IH]; [reflexivity |].
  change (str_has c (String x (a ++ b)) = str_has c (String x a) || str_has c b).
  cbn [str_has str_exists]. unfold str_has in IH. now rewrite IH, orb_assoc.
Qed.

Lemma str_rstrip_keep c (s : string) : str_has c s = false -> str_rstrip c s = s.
Proof.
  induction s as [| a s IH]; [reflexivity |].
  cbn [str_has str_exists]. intros H. apply orb_false_iff in H. destruct H as [H1 H2].
  cbn [str_rstrip]. unfold str_has in IH. rewrite (IH H2).
  destruct s; [| reflexivity]. now rewrite Ascii.eqb_sym, H1.
Qed.

Lemma str_rstrip_after c x (a b : string) :
  Ascii.eqb x c = false -> str_has c b = false ->
  str_rstrip c (a ++ String x b) = a ++ String x b.
Proof.
  intros Hx Hb. induction a as [| y a IH].
  - change (str_rstrip c (String x b) = String x b).
    cbn [str_rstrip]. rewrite (str_rstrip_keep c b Hb).
    destruct b; [now rewrite Hx | reflexivity].
  - change (str_rstrip c (String y (a ++ String x b)) = String y (a ++ String x b)).
    cbn [str_rstrip]. rewrite IH. now destruct a.
Qed.

Lemma str_rstrip_snoc c (s : string) :
  str_rstrip c (s ++ String c EmptyString) = str_rstrip c s.
Proof.
  induction s as [| a s IH].
  - change (str_rstrip c (String c EmptyString) = EmptyString).
    cbn [str_rstrip]. now rewrite Ascii.eqb_refl.
  - change (str_rstrip c (String a (s ++ String c EmptyString)) = str_rstrip c (String a s)).
    cbn [str_rstrip]. now rewrite IH.
Qed.

Lemma str_split_cons c (a rest : string) :
  str_has c a = false ->
  str_split c (a ++ String c rest) = a :: str_split c rest.
Proof.
  induction a as [| x a IH]; intros Ha.
  - change (str_split c (String c rest) = EmptyString :: str_split c rest).
    cbn [str_split]. now rewrite Ascii.eqb_refl.
  - cbn [str_has str_exists] in Ha. apply orb_false_iff in Ha. destruct Ha as [H1 H2].
    change (str_split c (String x (a ++ String c rest)) = String x a :: str_split c rest).
    cbn [str_split]. unfold str_has in IH. rewrite Ascii.eqb_sym, H1, (IH H2).
    reflexivity.
Qed.

Lemma str_eqb_app_l (a b c : string) : String.eqb (a ++ b) (a ++ c) = String.eqb b c.
Proof.
  induction a as [| x a IH]; [reflexivity |].
  change (String.eqb (String x (a ++ b)) (String x (a ++ c)) = String.eqb b c).
  cbn [String.eqb]. now rewrite Ascii.eqb_refl.
Qed.

(** The key [items[<id>][<field>]] is split into [items], [<id>]] and
    [<field>]: [strip] takes the last bracket off, and the one that
    closes the id stays. *)
Lemma inventory_key_parts (id field : string) :
  bracket_free id = true -> bracket_free field = true ->
  str_split "[" (str_strip "]" (inventory_key id field)) = ["items"; id ++ "]"; field].
Proof.
  unfold bracket_free. intros Hi Hf.
  apply andb_true_iff in Hi. destruct Hi as [Hi1 Hi2].
  apply andb_true_iff in Hf. destruct Hf as [Hf1 Hf2].
  apply negb_true_iff in Hi1, Hi2, Hf1, Hf2.
  unfold str_strip, inventory_key.
  change (str_lstrip "]" ("items[" ++ id ++ "][" ++ field ++ "]"))
    with ("items[" ++ id ++ "][" ++ field ++ "]").
  replace ("items[" ++ id ++ "][" ++ field ++ "]")
    with (("items[" ++ id ++ "]" ++ String "[" field) ++ "]").
  2:{ rewrite !str_app_assoc. reflexivity. }
  rewrite str_rstrip_snoc.
  replace ("items[" ++ id ++ "]" ++ String "[" field)
    with (("items[" ++ id ++ "]") ++ String "[" field).
  2:{ rewrite !str_app_assoc. reflexivity. }
  rewrite (str_rstrip_after "]" "[" _ field eq_refl Hf2).
  replace (("items[" ++ id ++ "]") ++ String "[" field)
    with ("items" ++ String "[" ((id ++ "]") ++ String "[" field)).
  2:{ change ("items" ++ String "[" ((id ++ "]") ++ String "[" field))
        with ("items[" ++ ((id ++ "]") ++ String "[" field)).
      now rewrite !str_app_assoc. }
  rewrite (str_split_cons "[" "items" _ eq_refl).
  rewrite (str_split_join "[" (id ++ "]") field); [reflexivity | | exact Hf1].
  rewrite str_has_app, Hi1. reflexivity.
Qed.

Lemma inventory_key_prefix (id field : string) :
  str_startswith "items[" (inventory_key id field) = true.
Proof.
  unfold inventory_key, str_startswith.
  set (rest := id ++ "][" ++ field ++ "]"). clearbody rest.
  cbv [String.append]. cbn. now destruct rest.
Qed.

Lemma inventory_key_not_type (id field : string) :
  String.eqb (inventory_key id field) "item_type" = false.
Proof. reflexivity. Qed.

Lemma inventory_key_eqb (id f1 f2 : string) :
  String.eqb (inventory_key id f1) (inventory_key id f2) =
  String.eqb (f1 ++ "]") (f2 ++ "]").
Proof. unfold inventory_key. now rewrite !str_eqb_app_l. Qed.

Lemma inventory_rows_delete (t id : string) :
  bracket_free id = true ->
  inventory_rows [("item_type", t); (inventory_key id "action", "delete")] =
  Ok [(id ++ "]", [("id", VStr (id ++ "]")); ("action", VStr "delete")])].
Proof.
  intros Hid. unfold inventory_rows, form_items.
  cbn [form_items_from existsb]. rewrite inventory_key_not_type. cbn [orb].
  cbn [rfor_each].
  change (str_startswith "items[" "item_type") with false. cbn [rbind].
  rewrite inventory_key_prefix, (inventory_key_parts id "action" Hid eq_refl).
  reflexivity.
Qed.

Lemma inventory_rows_update (t id name unit price : string) :
  bracket_free id = true ->
  inventory_rows
    [("item_type", t); (inventory_key id "action", "update");
     (inventory_key id "name", name); (inventory_key id "unit", unit);
     (inventory_key id "price", price)] =
  Ok [(id ++ "]",
       [("id", VStr (id ++ "]")); ("action", VStr "update"); ("name", VStr name);
        ("unit", VStr unit); ("price", VStr price)])].
Proof.
  intros Hid. unfold inventory_rows, form_items.
  cbn [form_items_from existsb].
  rewrite !inventory_key_not_type, !inventory_key_eqb.
  repeat match goal with
         | |- context [String.eqb ?a ?b] =>
             let r := eval vm_compute in (String.eqb a b) in
             change (String.eqb a b) with r
         end.
  cbn [orb rfor_each].
  change (str_startswith "items[" "item_type") with false. cbn [rbind].
  rewrite !inventory_key_prefix.
  rewrite (inventory_key_parts id "action" Hid eq_refl),
    (inventory_key_parts id "name" Hid eq_refl),
    (inventory_key_parts id "unit" Hid eq_refl),
    (inventory_key_parts id "price" Hid eq_refl).
  cbn [rbind]. repeat (cbn [inventory_set]; rewrite String.eqb_refl).
  reflexivity.
Qed.

Section MissedRows.
Context {B : Builtins}.

Lemma filter_keeps_all id (items : list pyval) :
  Forall (fun item => has_id id item = false) items ->
  List.filter (fun x => negb (has_id id x)) items = items.
Proof.
  induction 1 as [| x items Hx _ IH]; [reflexivity |].
  cbn [List.filter]. now rewrite Hx, IH.
Qed.

Lemma delete_unknown_id t id w w1 (items : list pyval) :
  _load_master_csv t w = (Ok items, w1) ->
  Forall (fun item => has_id id item = false) items ->
  delete_master_item t id w = (Ok tt, catalog_written t (map (saved_row t) items) w1).
Proof.
  intros Hload Hn.
  destruct (load_master_csv_ok t w items w1 Hload) as [Hall _].
  apply loaded_dicts in Hall. unfold delete_master_item.
  rewrite (bind_ok _ _ _ _ _ Hload).
  rewrite (bind_lift_ok _ _ _ _ (keep_others_filter id items Hall)).
  rewrite (filter_keeps_all id items Hn). now apply save_dicts.
Qed.

Lemma update_unknown_id t id data w w1 (items : list pyval) :
  _load_master_csv t w = (Ok items, w1) ->
  Forall (fun item => has_id id item = false) items ->
  update_master_item t id data w =
    (Ok tt, catalog_written t (map (saved_row t) items) w1).
Proof.
  intros Hload Hn.
  destruct (load_master_csv_ok t w items w1 Hload) as [Hall _].
  apply loaded_dicts in Hall. unfold update_master_item.
  rewrite (bind_ok _ _ _ _ _ Hload).
  rewrite (bind_lift_ok _ _ _ _ (update_first_none id data items Hall Hn)).
  now apply save_dicts.
Qed.

Lemma inventory_row_delete t (i : string) :
  inventory_row t (i, [("id", VStr i); ("action", VStr "delete")]) =
  delete_master_item t (VStr i).
Proof. reflexivity. Qed.

Lemma inventory_row_update t (i name unit price : string) (p : float) w :
  str_to_float price = Some p ->
  name <> "" -> unit <> "" -> PrimFloat.eqb p 0 = false ->
  inventory_row t
    (i, [("id", VStr i); ("action", VStr "update"); ("name", VStr name);
         ("unit", VStr unit); ("price", VStr price)]) w =
  update_master_item t (VStr i)
    (VDict [("name", VStr name); ("unit", VStr unit); ("price", VFloat p)]) w.
Proof.
  intros Hp Hn Hu Hz. unfold inventory_row.
  change (dict_get_default "action" VNone _) with (VStr "update").
  change (py_eqb (VStr "update") (VStr "delete")) with false.
  change (py_eqb (VStr "update") (VStr "update")) with true. cbv iota.
  unfold row_data.
  change (dict_get_default "price" (VInt 0) _) with (VStr price).
  change (dict_get_default "name" VNone _) with (VStr name).
  change (dict_get_default "unit" VNone _) with (VStr unit).
  cbn [py_float]. rewrite Hp. cbn [rbind]. unfold bind, lift.
  cbn [all_truthy forallb snd py_truthy].
  apply String.eqb_neq in Hn, Hu. rewrite Hn, Hu, Hz. reflexivity.
Qed.

(** X22. The inventory form never reaches the row it names.  The key
    [items[<id>][<field>]] is parsed into the id [<id>]] (the bracket
    that closes the id stays on it), so a delete or a complete update of
    the row [<id>] is carried out for the id [<id>]]: when no item of the
    catalog has that id, as with the serial numbers [add_master_item]
    gives, the catalog is written again with every item as it was loaded,
    and the form still flashes that the inventory was updated. *)
Theorem inventory_post_misses_the_row :
  forall (item_type id name unit price : string) (p : float) (w w1 : world)
         (all_items : list pyval),
    existsb (String.eqb item_type) ["labor"; "material"; "equipment"] = true ->
    bracket_free id = true ->
    _load_master_csv item_type w = (Ok all_items, w1) ->
    Forall (fun item => has_id (VStr (id ++ "]")) item = false) all_items ->
    let flashed :=
      InventoryUpdated (str_capitalize item_type ++ " inventory updated successfully.") in
    let unchanged :=
      catalog_written item_type (map (saved_row item_type) all_items) w1 in
    inventory_rows [("item_type", item_type); (inventory_key id "action", "delete")] =
      Ok [(id ++ "]", [("id", VStr (id ++ "]")); ("action", VStr "delete")])] /\
    inventory_post
      [("item_type", item_type); (inventory_key id "action", "delete")] w =
      (Ok flashed, unchanged) /\
    (str_to_float price = Some p -> name <> "" -> unit <> "" ->
     PrimFloat.eqb p 0 = false ->
     inventory_post
       [("item_type", item_type); (inventory_key id "action", "update");
        (inventory_key id "name", name); (inventory_key id "unit", unit);
        (inventory_key id "price", price)] w =
       (Ok flashed, unchanged)).
Proof.
  intros t id name unit price p w w1 items Ht Hid Hload Hn flashed unchanged.
  split; [now apply inventory_rows_delete |]. split.
  - unfold inventory_post.
    change (form_get "item_type" (("item_type", t) :: _)) with (Some t).
    cbv beta iota. rewrite Ht.
    rewrite (bind_lift_ok _ _ _ _ (inventory_rows_delete t id Hid)).
    cbn [for_each]. unfold bind at 1. rewrite inventory_row_delete.
    now rewrite (delete_unknown_id t _ w w1 items Hload Hn).
  - intros Hp Hne Hue Hz. unfold inventory_post.
    change (form_get "item_type" (("item_type", t) :: _)) with (Some t).
    cbv beta iota. rewrite Ht.
    rewrite (bind_lift_ok _ _ _ _ (inventory_rows_update t id name unit price Hid)).
    cbn [for_each]. unfold bind at 1.
    rewrite (inventory_row_update t _ name unit price p w Hp Hne Hue Hz).
    now rewrite (update_unknown_id t _ _ w w1 items Hload Hn).
Qed.
End MissedRows.


(** ** Changing a project *)

Section ProjectEdits.
Context {B : Builtins}.

Lemma has_id_nonempty id (d : dict) : has_id id (VDict d) = true -> id <> VNone ->
  py_truthy (VDict d) = true.
Proof.
  destruct d; [| reflexivity]. cbn. destruct id; try discriminate. congruence.
Qed.

Lemma get_project_by_id_first id w d pre p post :
  first_project id w d pre p post ->
  get_project_by_id id w = (Ok (VDict p), w).
Proof.
  intros (Hdoc & Hps & Hpre & Hid & _).
  unfold get_project_by_id, get_projects, _load_json_data, bind.
  fold (document w). rewrite Hdoc. cbn [lift py_get]. unfold dict_get_default.
  rewrite Hps. cbn [py_iter].
  now rewrite (find_by_id_first id pre post p Hpre Hid).
Qed.

(** [update_project] with a record that has the id of the first project
    [p]: what is saved, and what is found under the id afterwards. *)
Lemma update_project_first (id : string) w w0 d pre p post (p' : dict) :
  first_project (VStr id) w d pre p post ->
  document w0 = VDict d ->
  dict_get_default "id" VNone p' = dict_get_default "id" VNone p ->
  let w' := projects_saved d (projects_with pre p' post) w0 in
  update_project (VDict p') w0 = (Ok tt, w') /\
  get_project_by_id (VStr id) w' = (Ok (VDict p'), w').
Proof.
  intros (_ & Hps & Hpre & Hid & Hpost) Hdoc Hsame w'.
  assert (Hidv : dict_get_default "id" VNone p = VStr id).
  { cbn [has_id] in Hid. now apply py_eqb_str_r in Hid. }
  assert (Hid' : has_id (VStr id) (VDict p') = true).
  { cbn [has_id]. rewrite Hsame, Hidv. cbn. apply String.eqb_refl. }
  assert (Hd : Forall (fun q => is_dict q = true) (pre ++ VDict p :: post)).
  { apply Forall_app. split.
    - eapply Forall_impl; [exact Hpre |]. now intros x [? _].
    - now constructor. }
  split.
  - unfold update_project, _load_json_data, bind. fold (document w0). rewrite Hdoc.
    cbn [lift py_get]. unfold dict_get_default at 1. rewrite Hps. cbn [py_iter].
    pose proof (replace_items_map p' _ Hd) as Hm. cbn [py_get rbind] in Hm |- *.
    rewrite Hm. unfold w', projects_saved, projects_with, _save_json_data.
    rewrite map_app, map_cons. rewrite Hsame, Hidv. rewrite Hid.
    rewrite map_unchanged; [reflexivity |].
    eapply Forall_impl; [exact Hpre |]. now intros x [_ ?].
  - unfold get_project_by_id, get_projects, _load_json_data, bind, w', projects_saved.
    cbn [json_file lift py_get]. unfold dict_get_default at 1.
    rewrite dict_get_set_eq. cbn [py_iter]. unfold projects_with.
    now rewrite (find_by_id_first (VStr id) pre _ p' Hpre Hid').
Qed.

(** X23. When the project and the work item are there and the quantity
    is a number for [float()] (1.0 when the form has none),
    [add_item_to_project] draws an identifier and appends to the lines of
    the first project with the id a line with that identifier, the id,
    the name and the unit of the work item, its [sum_total] as the unit
    price (0 when it has none) and the quantity; it saves the document
    once, and [get_project_by_id] then returns the project with the new
    line as its last.  The price is copied: the line does not follow the
    work item afterwards. *)
Theorem add_item_to_project_appends :
  forall (project_id : string) (req : request) (w : world) (d p wi : dict)
         (pre post l : list pyval) (q : float),
    first_project (VStr project_id) w d pre p post ->
    find_work_item_by_id (opt_str (form_get "work_item_id" (rform req))) w =
      (Ok (VDict wi), w) ->
    wi <> [] ->
    str_to_float (match form_get "quantity" (rform req) with
                  | Some s => s
                  | None => "1.0"
                  end) = Some q ->
    dict_get_default "items" (VList []) p = VList l ->
    let line :=
      VDict [("instance_id", VStr (uuid4 (uuid_next w)));
             ("work_item_id", opt_str (form_get "work_item_id" (rform req)));
             ("name", dict_get_default "name" VNone wi);
             ("unit_of_measure", dict_get_default "unit_of_measure" VNone wi);
             ("unit_price", dict_get_default "sum_total" (VInt 0) wi);
             ("quantity", VFloat q)] in
    let p' := dict_set "items" (VList (l ++ [line])) p in
    let w' := projects_saved d (projects_with pre p' post) (bump 1 w) in
    add_item_to_project project_id req w =
      (Ok (Redirect "main_bp.project_detail" "success"
             ("Added '" ++ py_str (dict_get_default "name" VNone wi) ++
              "' to the project.")), w') /\
    get_project_by_id (VStr project_id) w' = (Ok (VDict p'), w').
Proof.
  intros pid req w d p wi pre post l q Hf Hw Hne Hq Hl line p' w'.
  destruct (update_project_first pid w (bump 1 w) d pre p post p' Hf) as [Hu Hg].
  { destruct Hf as (Hdoc & _). exact Hdoc. }
  { unfold p', dict_get_default. now rewrite dict_get_set_ne by discriminate. }
  split; [| exact Hg].
  unfold add_item_to_project.
  rewrite (bind_ok _ _ _ _ _ (get_project_by_id_first _ _ _ _ _ _ Hf)).
  assert (Ht : py_truthy (VDict p) = true).
  { destruct Hf as (_ & _ & _ & Hid & _).
    apply (has_id_nonempty (VStr pid) p Hid). discriminate. }
  rewrite Ht. cbn [negb]. rewrite (bind_ok _ _ _ _ _ Hw).
  assert (Htw : py_truthy (VDict wi) = true) by now destruct wi.
  rewrite Htw. cbn [negb].
  unfold bind at 1. cbn [fresh_uuid]. rewrite bump_fresh.
  cbn [py_get py_float]. rewrite Hq, Hl.
  rewrite !(bind_lift_ok _ _ _ _ eq_refl). cbn [py_setitem].
  rewrite (bind_lift_ok _ _ _ _ eq_refl).
  fold line. fold p'. unfold bind. rewrite Hu. reflexivity.
Qed.

(** X24. A POST to the page of a project that is there, whose lines are a
    list on which the update of the quantities goes through, saves the
    document once with the updated lines in the place of the lines of
    the first project with the id, and answers that the project was
    updated; [get_project_by_id] then returns the project with the
    updated lines. *)
Theorem project_detail_post_stores :
  forall (project_id : string) (req : request) (w : world) (d p : dict)
         (pre post l l' : list pyval),
    String.eqb (method req) "POST" = true ->
    first_project (VStr project_id) w d pre p post ->
    dict_get "items" p = Some (VList l) ->
    rmap (set_quantity (rform req)) l = Ok l' ->
    let p' := dict_set "items" (VList l') p in
    let w' := projects_saved d (projects_with pre p' post) w in
    project_detail project_id req w =
      (Ok (Redirect "main_bp.project_detail" "success" "Project updated successfully."),
       w') /\
    get_project_by_id (VStr project_id) w' = (Ok (VDict p'), w').
Proof.
  intros pid req w d p pre post l l' Hm Hf Hl Hr p' w'.
  destruct (update_project_first pid w w d pre p post p' Hf) as [Hu Hg].
  { destruct Hf as (Hdoc & _). exact Hdoc. }
  { unfold p', dict_get_default. now rewrite dict_get_set_ne by discriminate. }
  split; [| exact Hg].
  unfold project_detail.
  rewrite (bind_ok _ _ _ _ _ (get_project_by_id_first _ _ _ _ _ _ Hf)).
  assert (Ht : py_truthy (VDict p) = true).
  { destruct Hf as (_ & _ & _ & Hid & _).
    apply (has_id_nonempty (VStr pid) p Hid). discriminate. }
  rewrite Ht, Hm. cbn [negb py_get]. unfold dict_get_default. rewrite Hl.
  rewrite (bind_lift_ok _ _ _ _ eq_refl). cbn [py_iter].
  rewrite (bind_lift_ok _ _ _ _ eq_refl), (bind_lift_ok _ _ _ _ Hr).
  unfold put_items. rewrite Hl. fold p'. unfold bind. rewrite Hu. reflexivity.
Qed.
End ProjectEdits.


(** ** What the work item forms store *)

Section StoredRecords.
Context {B : Builtins}.

Lemma first_category_bump id w d pre c post n :
  first_category id w d pre c post -> first_category id (bump n w) d pre c post.
Proof. now intros H. Qed.

Lemma rollup_outcome_reads_id f name (wid : string) w :
  catalogs_read w = true -> wid <> "" ->
  exists n,
    rollup_outcome f name (Some wid) w =
    (Ok (Some (empty_record wid name (unit_of f) (basis_of f))), bump n w).
Proof.
  unfold catalogs_read. intros H Hne.
  apply andb_true_iff in H. destruct H as [H H3].
  apply andb_true_iff in H. destruct H as [H1 H2].
  unfold rollup_outcome. destruct wid as [| a s]; [now contradiction Hne |].
  cbn [record_id].
  destruct (get_master_item_map_reads "labor" w H1) as (m1 & n1 & ->).
  destruct (get_master_item_map_reads "material" (bump n1 w) H2) as (m2 & n2 & ->).
  rewrite bump_bump.
  destruct (get_master_item_map_reads "equipment" (bump (n1 + n2) w) H3)
    as (m3 & n3 & ->).
  rewrite bump_bump. now eexists.
Qed.

(** X25. What the work item forms store.  With a name in the form, the
    three catalogs readable and the category there, [save_work_item]
    appends to the work items of the category a record with a new id, the
    name, the unit and the basis quantity of the form, and no line and
    zero totals, whatever lines the form selects; [update_work_item]
    replaces every work item that has the id of the route by such a
    record with that id, so the lines and the totals an item had are
    lost.  Either saves the document once and answers with a success
    message, and [get_category_by_id] then returns the category with
    these work items. *)
Theorem work_item_forms_store_empty_records :
  forall (category_id : string) (req : request) (w : world) (d c : dict)
         (pre post l : list pyval) (name : string),
    form_get "name" (rform req) = Some name ->
    name <> "" ->
    catalogs_read w = true ->
    first_category (VStr category_id) w d pre c post ->
    dict_get_default "work_items" (VList []) c = VList l ->
    (exists id n,
        let record := empty_record id name (unit_of (rform req)) (basis_of (rform req)) in
        let c' := with_work_items c (l ++ [record]) in
        let w' := categories_saved d (pre ++ c' :: post) (bump n w) in
        save_work_item category_id req w =
          (Ok (Redirect "main_bp.category_detail" "success"
                 ("Work Item '" ++ name ++ "' saved successfully.")), w') /\
        get_category_by_id (VStr category_id) w' = (Ok c', w')) /\
    (forall work_item_id : string,
        work_item_id <> "" ->
        Forall (fun item => is_dict item = true) l ->
        exists n,
          let record :=
            empty_record work_item_id name (unit_of (rform req)) (basis_of (rform req)) in
          let c' :=
            with_work_items c
              (map (fun item => if has_id (VStr work_item_id) item then record else item)
                   l) in
          let w' := categories_saved d (pre ++ c' :: post) (bump n w) in
          route_update_work_item category_id work_item_id req w =
            (Ok (Redirect "main_bp.category_detail" "success"
                   ("Work Item '" ++ name ++ "' updated successfully.")), w') /\
          get_category_by_id (VStr category_id) w' = (Ok c', w')).
Proof.
  intros cid req w d c pre post l name Hn Hne Hread Hf Hl. split.
  - destruct (rollup_outcome_reads (rform req) name None w Hread) as (id & n & Hr).
    exists id, n. intros record c' w'.
    destruct (category_edit (VStr cid)
                (fun category =>
                   v <- py_get category "work_items" (VList []) ;;
                   match v with
                   | VList l => set_work_items category (l ++ [record])
                   | _ => Raise AttributeError
                   end)
                (bump n w) d pre c post (l ++ [record])%list
                (first_category_bump _ _ _ _ _ _ n Hf)) as (H1 & H2 & _).
    { cbn [py_get rbind]. now rewrite Hl. }
    split; [| exact H2].
    unfold save_work_item.
    rewrite <- (process_work_item_form_named _ _ _ _ Hn Hne) in Hr.
    rewrite (bind_ok _ _ _ _ _ Hr).
    unfold add_work_item_to_category. fold record.
    rewrite (bind_ok _ _ _ _ _ H1). reflexivity.
  - intros wid Hwid Hd.
    destruct (rollup_outcome_reads_id (rform req) name wid w Hread Hwid) as (n & Hr).
    exists n. intros record c' w'.
    destruct (category_edit (VStr cid)
                (fun category =>
                   items <- work_items_of category ;;
                   items' <- rmap (fun item =>
                                     a <- py_get item "id" VNone ;;
                                     b <- py_get record "id" VNone ;;
                                     Ok (if py_eqb a b then record else item)) items ;;
                   set_work_items category items')
                (bump n w) d pre c post
                (map (fun item => if has_id (VStr wid) item then record else item) l)
                (first_category_bump _ _ _ _ _ _ n Hf)) as (H1 & H2 & _).
    { unfold work_items_of. cbn [py_get rbind]. rewrite Hl. cbn [py_iter rbind].
      pose proof (update_items_map
                    [("id", VStr wid); ("name", VStr name);
                     ("unit_of_measure", VStr (unit_of (rform req)));
                     ("basis_quantity", VFloat (basis_of (rform req)));
                     ("labor", VList []); ("material", VList []); ("equipment", VList []);
                     ("labor_total", VInt 0); ("material_total", VInt 0);
                     ("equipment_total", VInt 0);
                     ("total_cost_per_unit", VInt 0);
                     ("contractor_overhead_15_percent", VFloat 0%float);
                     ("sum_total", VFloat 0%float);
                     ("price_per_unit", VFloat (0 / basis_of (rform req))%float)]
                    l Hd) as Hm.
      cbn [py_get rbind] in Hm. unfold record, empty_record. cbn [py_get rbind].
      rewrite Hm. reflexivity. }
    split; [| exact H2].
    unfold route_update_work_item.
    rewrite <- (process_work_item_form_named _ _ _ _ Hn Hne) in Hr.
    rewrite (bind_ok _ _ _ _ _ Hr).
    unfold update_work_item. fold record.
    rewrite (bind_ok _ _ _ _ _ H1). reflexivity.
Qed.
End StoredRecords.

(** ** The name column after a load *)

Lemma unique_keys_set k v (d : dict) :
  unique_keys d -> unique_keys (dict_set k v d).
Proof.
  induction d as [| [k' v'] d IH]; cbn [dict_set unique_keys].
  - now intros _.
  - intros [Hk Hd]. destruct (String.eqb_spec k' k) as [-> | Hne]; cbn [unique_keys].
    + now split.
    + split; [| now apply IH]. rewrite dict_get_set_ne; [exact Hk | congruence].
Qed.

Lemma unique_keys_del k (d : dict) :
  unique_keys d -> unique_keys (dict_del k d) /\ dict_get k (dict_del k d) = None.
Proof.
  induction d as [| [k' v'] d IH]; cbn [dict_del unique_keys].
  - now intros _.
  - intros [Hk Hd]. destruct (String.eqb_spec k' k) as [-> | Hne].
    + now split.
    + destruct (IH Hd) as [H1 H2]. cbn [unique_keys dict_get]. split.
      * split; [| exact H1]. rewrite dict_get_del_ne; [exact Hk | congruence].
      * apply String.eqb_neq in Hne. now rewrite Hne.
Qed.

Lemma unique_keys_fold {A} (f : A -> string) (g : A -> pyval) (l : list A) :
  forall d, unique_keys d ->
            unique_keys (fold_left (fun d x => dict_set (f x) (g x) d) l d).
Proof.
  induction l as [| x l IH]; intros d Hd; cbn [fold_left]; [exact Hd |].
  apply IH. now apply unique_keys_set.
Qed.

Lemma DictReader_row_unique fieldnames row :
  unique_keys (DictReader_row fieldnames row).
Proof.
  unfold DictReader_row.
  apply (unique_keys_fold (fun k => k) (fun _ => VNone)).
  apply (unique_keys_fold (fun kv => fst kv) (fun kv => VStr (snd kv))).
  exact I.
Qed.

Section NameColumn.
Context {B : Builtins}.

Lemma load_row_no_type_key t row w r w' :
  unique_keys row ->
  load_row t row w = (Ok r, w') -> lacks_key (type_key_of t) r = true.
Proof.
  intros Hrow. unfold load_row.
  assert (Hstep : forall row1 w1,
             unique_keys row1 ->
             (p <~ lift (py_float (dict_get_default "Price" (VFloat 0%float) row1)) ;;
              let row := dict_set "Price" (VFloat p) row1 in
              let type_key := type_key_of t in
              let row :=
                match dict_get type_key row with
                | Some v => dict_set "name" v (dict_del type_key row)
                | None =>
                    match dict_get "Type" row with
                    | Some v => dict_set "name" v (dict_del "Type" row)
                    | None => row
                    end
                end in
              ret (VDict row)) w1 = (Ok r, w') ->
             lacks_key (type_key_of t) r = true).
  { intros row1 w1 Hu. unfold bind, lift, ret.
    destruct (py_float _) as [p |]; [| discriminate].
    pose proof (unique_keys_set "Price" (VFloat p) row1 Hu) as Hu2.
    revert Hu2. generalize (dict_set "Price" (VFloat p) row1). intros row2 Hu2.
    cbv zeta. destruct (dict_get (type_key_of t) row2) as [v |] eqn:Et.
    - intros [= <- _]. cbn [lacks_key]. unfold dict_mem.
      rewrite dict_get_set_ne
        by (intros E; symmetry in E; now apply type_key_neq_name in E).
      now rewrite (proj2 (unique_keys_del (type_key_of t) row2 Hu2)).
    - destruct (dict_get "Type" row2) as [v |] eqn:ET.
      + intros [= <- _]. cbn [lacks_key]. unfold dict_mem.
        rewrite dict_get_set_ne
          by (intros E; symmetry in E; now apply type_key_neq_name in E).
        destruct (String.eqb_spec "Type" (type_key_of t)) as [E | Hne].
        * rewrite <- E. now rewrite (proj2 (unique_keys_del "Type" row2 Hu2)).
        * rewrite dict_get_del_ne by exact Hne. now rewrite Et.
      + intros [= <- _]. cbn [lacks_key]. unfold dict_mem. now rewrite Et. }
  unfold bind at 1.
  destruct (dict_get "SerialNo" row) as [v |].
  - cbn [ret]. apply Hstep. now apply unique_keys_set.
  - unfold bind at 1, fresh_uuid, ret. apply Hstep. now apply unique_keys_set.
Qed.

Lemma load_loop_no_type_key t hdr (rs : list (list string)) :
  forall acc w items w',
    Forall (fun i => lacks_key (type_key_of t) i = true) acc ->
    for_each rs
      (fun data row =>
         r <~ load_row t (DictReader_row hdr row) ;; ret (data ++ [r])%list)
      acc w = (Ok items, w') ->
    Forall (fun i => lacks_key (type_key_of t) i = true) items.
Proof.
  induction rs as [| row rs IH]; intros acc w items w' Hacc H; cbn [for_each] in H.
  - now injection H as <- <-.
  - unfold bind at 1 2 in H.
    destruct (load_row t _ w) as [[r | e] w1] eqn:Hr; [| discriminate H].
    apply load_row_no_type_key in Hr; [| apply DictReader_row_unique].
    cbn [ret] in H. apply IH in H; [exact H |].
    apply Forall_app. split; [exact Hacc | now constructor].
Qed.

Lemma standardize_without_key k (items : list pyval) :
  Forall (fun i => lacks_key k i = true) items ->
  standardize_item_key items k = Ok items.
Proof.
  unfold standardize_item_key.
  induction 1 as [| v items Hv _ IH]; [reflexivity |].
  destruct v as [| | | | | | d]; try discriminate Hv.
  cbn [lacks_key] in Hv. apply negb_true_iff in Hv.
  cbn [rmap]. rewrite (dict_mem_get _ _ Hv), IH. reflexivity.
Qed.

(** X26. No item [_load_master_csv] returns has the type column of its
    catalog ([LaborType], [MaterialType], [EquipmentType]) among its keys:
    the column was renamed to [name].  So [standardize_item_key], as the
    category page calls it on the three catalogs, finds nothing to
    rename and returns the items as they were loaded; no [Type] key is
    made. *)
Theorem standardize_item_key_changes_nothing :
  forall (item_type : string) (w w' : world) (items : list pyval),
    _load_master_csv item_type w = (Ok items, w') ->
    Forall (fun item => lacks_key (type_key_of item_type) item = true) items /\
    standardize_item_key items (type_key_of item_type) = Ok items /\
    type_key_of "labor" = "LaborType" /\
    type_key_of "material" = "MaterialType" /\
    type_key_of "equipment" = "EquipmentType".
Proof.
  intros t w w' items Hload.
  assert (H : Forall (fun item => lacks_key (type_key_of t) item = true) items).
  { unfold _load_master_csv in Hload. destruct (csv_files w !! t) as [f |].
    - eapply load_loop_no_type_key; [| exact Hload]. constructor.
    - injection Hload as <- _. constructor. }
  split; [exact H |]. split; [now apply standardize_without_key |].
  repeat split.
Qed.
End NameColumn.


(** ** The program on the example data, with [sample_builtins] *)

(** C1. On the scenario of the specification the master item "1" is in the
    map of the labor catalog, under the key "1", the form selects it, and
    the line's quantity and the item's price are numbers; yet the record
    comes back with no line and zero totals.  The line is looked up under
    the int 1, which is no key of the map, and is skipped. *)
Theorem rollup_example_keeps_no_line :
  fst (get_master_item_map "labor" example_world) =
    Ok [(VStr "1",
         VDict [("SerialNo", VStr "1"); ("Unit", VStr "PerDay");
                ("Price", VFloat 100%float); ("id", VStr "1");
                ("name", VStr "Mason")])] /\
  parse_form_data example_form =
    Ok [("labor", [VDict [("id", VStr "1"); ("quantity", VStr "2")]]);
        ("material", [VDict [("id", VStr "1"); ("quantity", VStr "5")]])] /\
  py_float (VStr "2") = Ok 2%float /\
  process_work_item_form example_form None example_world =
    (Ok (Some (empty_record "uuid-0" "Brick wall" "Cubic Meter" 2%float)),
     bump 1 example_world).
Proof. repeat split; vm_compute; reflexivity. Qed.

(** C2, as stated, fails: a basis quantity submitted as "nan" passes the
    guard [basis_quantity <= 0] and is stored as NaN, which is not above 0. *)
Lemma nan_basis_not_positive :
  exists rec w',
    process_work_item_form nan_basis_form None example_world = (Ok (Some rec), w') /\
    field "basis_quantity" rec = Some (VFloat nan) /\
    PrimFloat.ltb 0 nan = false.
Proof. eexists _, _. repeat split; vm_compute; reflexivity. Qed.

Lemma process_work_item_form_totals_witness :
  exists rec w',
    process_work_item_form example_form None example_world = (Ok (Some rec), w') /\
    exists labor_total material_total equipment_total total_cost_per_unit
           overhead sum_total price_per_unit basis_quantity,
      field "labor_total" rec = Some labor_total /\
      field "material_total" rec = Some material_total /\
      field "equipment_total" rec = Some equipment_total /\
      field "total_cost_per_unit" rec = Some total_cost_per_unit /\
      field "contractor_overhead_15_percent" rec = Some overhead /\
      field "sum_total" rec = Some sum_total /\
      field "price_per_unit" rec = Some price_per_unit /\
      field "basis_quantity" rec = Some (VFloat basis_quantity) /\
      (x <- py_add labor_total material_total ;; py_add x equipment_total)
        = Ok total_cost_per_unit /\
      py_mul total_cost_per_unit (VFloat 0.15%float) = Ok overhead /\
      py_mul total_cost_per_unit (VFloat 1.15%float) = Ok sum_total /\
      py_truediv sum_total (VFloat basis_quantity) = Ok price_per_unit /\
      PrimFloat.leb basis_quantity 0 = false /\
      (PrimFloat.ltb 0 basis_quantity = true \/ PrimFloat.is_nan basis_quantity = true).
Proof.
  eexists _, _. split.
  - vm_compute. reflexivity.
  - apply (process_work_item_form_totals example_form None example_world
             (bump 1 example_world)).
    vm_compute. reflexivity.
Defined.

Lemma process_work_item_form_keeps_no_line_witness :
  exists rec w',
    process_work_item_form example_form None example_world = (Ok (Some rec), w') /\
    exists id name, rec = empty_record id name (unit_of example_form) (basis_of example_form).
Proof.
  eexists _, _. split.
  - vm_compute. reflexivity.
  - apply (process_work_item_form_keeps_no_line example_form None example_world
             (bump 1 example_world)).
    vm_compute. reflexivity.
Defined.


(** C4, as stated, fails: a stored work item whose basis quantity is 0 is
    shown with the basis quantity 0, not 1.0 (and with its [sum_total] as
    price per unit). *)
Lemma zero_basis_shown_as_stored :
  exists context shown w',
    category_detail "c1" (Request "GET" [] []) example_world =
      (Ok (Render "category_detail.html" context), w') /\
    dict_get "category" context = Some shown /\
    work_items shown =
      [VDict [("id", VStr "w1"); ("name", VStr "Old wall");
              ("basis_quantity", VInt 0); ("sum_total", VFloat 10%float);
              ("price_per_unit", VFloat 10%float)]] /\
    py_eqb (VInt 0) (VFloat 1%float) = false.
Proof. eexists _, _, _. repeat split; vm_compute; reflexivity. Qed.

Lemma category_detail_migrates_witness :
  exists template context w',
    category_detail "c1" (Request "GET" [] []) example_world =
      (Ok (Render template context), w') /\
    exists category shown,
      get_category_by_id (VStr "c1") example_world = (Ok category, example_world) /\
      dict_get "category" context = Some shown /\
      forall i stored,
        work_items category !! i = Some stored -> is_dict stored = true ->
        exists item, work_items shown !! i = Some item /\ migrated stored item.
Proof.
  eexists _, _, _. split.
  - vm_compute. reflexivity.
  - apply (category_detail_migrates "c1" (Request "GET" [] []) example_world
             example_world "category_detail.html").
    vm_compute. reflexivity.
Defined.

(** C5. With the quantity "abc", the update of the quantities in
    [project_detail] stores 0 and answers as usual, while
    [add_item_to_project] ends in the [ValueError] of [float()], after it
    drew the identifier of the new line; the document is not written. *)
Theorem malformed_quantity_example :
  let updated :=
    project_detail "p1" (Request "POST" [] [("quantity-i1", "abc")]) example_world in
  fst updated =
    Ok (Redirect "main_bp.project_detail" "success" "Project updated successfully.") /\
  fst (get_project_by_id (VStr "p1") (snd updated)) =
    Ok (VDict [("id", VStr "p1"); ("name", VStr "House");
               ("items",
                VList [VDict [("instance_id", VStr "i1");
                              ("work_item_id", VStr "w1");
                              ("name", VStr "Old wall");
                              ("unit_of_measure", VStr "Cubic Meter");
                              ("unit_price", VFloat 10%float);
                              ("quantity", VInt 0)]])]) /\
  add_item_to_project "p1"
    (Request "POST" [] [("work_item_id", "w1"); ("quantity", "abc")]) example_world =
  (Raise ValueError, bump 1 example_world).
Proof. repeat split; vm_compute; reflexivity. Qed.

Lemma master_csv_round_trip_witness :
  Forall storable_item example_master_items /\
  exists items',
    _load_master_csv "labor"
      (snd (_save_master_csv "labor" example_master_items example_world)) =
      (Ok items', snd (_save_master_csv "labor" example_master_items example_world)) /\
    map master_item_fields items' = map master_item_fields example_master_items.
Proof.
  assert (H : Forall storable_item example_master_items).
  { repeat constructor.
    - exists "1", "Mason", "PerDay", 100%float. split; vm_compute; reflexivity.
    - exists "2", "Cement, grey", "PerKg", 2.5%float. split; vm_compute; reflexivity. }
  split; [exact H |].
  destruct (master_csv_round_trip "labor" example_master_items example_world H)
    as [Hs (items' & Hl & Hm & _)].
  exists items'. rewrite Hs. cbn [snd]. split; [exact Hl | exact Hm].
Defined.

(** C7, as stated, fails: with the serial number -3 as the only id, the
    maximum of the parsed ids is -3 and one more is -2, but the new item
    is saved under the id 1. *)
Lemma negative_ids_restart_at_one :
  exists all_items w1,
    _load_master_csv "labor" negative_id_world = (Ok all_items, w1) /\
    parsed_ids all_items = [-3] /\
    pretty (max_of_parsed (parsed_ids all_items) + 1) = "-2" /\
    csv_files (snd (add_master_item "labor" new_master_item negative_id_world)) !! "labor" =
      Some (CsvFile ["SerialNo"; "LaborType"; "Unit"; "Price"]
                    [["-3"; "Mason"; "PerDay"; "100.0"];
                     ["1"; "Helper"; "PerDay"; "50.0"]]).
Proof. eexists _, _. repeat split; vm_compute; reflexivity. Qed.

Lemma add_master_item_new_id_witness :
  exists all_items w1,
    _load_master_csv "labor" example_world = (Ok all_items, w1) /\
    add_master_item "labor" new_master_item example_world =
    (Ok tt,
     World (<["labor" :=
               CsvFile ["SerialNo"; "LaborType"; "Unit"; "Price"]
                       [["1"; "Mason"; "PerDay"; "100.0"];
                        ["2"; "Helper"; "PerDay"; "50.0"]]]> (csv_files w1))
           (json_file w1) ("labor.csv" :: writes w1) (uuid_next w1)).
Proof.
  eexists _, _. split.
  - vm_compute. reflexivity.
  - exact (add_master_item_new_id "labor" new_master_item
             (VStr "Helper") (VStr "PerDay") (VFloat 50%float)
             example_world example_world _ eq_refl eq_refl eq_refl eq_refl).
Defined.

Lemma no_category_no_write_witness :
  no_category (VStr "gone") example_world /\
  add_work_item_to_category (VStr "gone") (VDict []) example_world = (Ok tt, example_world) /\
  update_work_item (VStr "gone") (VDict []) example_world = (Ok tt, example_world) /\
  delete_work_item (VStr "gone") (VStr "w1") example_world = (Ok tt, example_world).
Proof.
  assert (H : no_category (VStr "gone") example_world).
  { eexists. split; [reflexivity |]. repeat constructor. }
  split; [exact H |].
  exact (no_category_no_write (VStr "gone") (VDict []) (VDict []) (VStr "w1")
           example_world H).
Defined.


Lemma set_quantity_never_raises_witness :
  set_quantity [("quantity-i1", "abc")]
    (VDict [("instance_id", VStr "i1"); ("quantity", VFloat 2%float)]) =
  Ok (VDict [("instance_id", VStr "i1"); ("quantity", VInt 0)]).
Proof.
  exact (set_quantity_never_raises [("quantity-i1", "abc")]
           [("instance_id", VStr "i1"); ("quantity", VFloat 2%float)]
           (VStr "i1") eq_refl).
Defined.

Lemma add_item_to_project_malformed_quantity_witness :
  add_item_to_project "p1"
    (Request "POST" [] [("work_item_id", "w1"); ("quantity", "1,5")]) example_world =
  (Raise ValueError, bump 1 example_world).
Proof.
  apply (add_item_to_project_malformed_quantity "p1"
           (Request "POST" [] [("work_item_id", "w1"); ("quantity", "1,5")])
           example_world
           (VDict [("id", VStr "p1"); ("name", VStr "House");
                   ("items",
                    VList [VDict [("instance_id", VStr "i1");
                                  ("work_item_id", VStr "w1");
                                  ("name", VStr "Old wall");
                                  ("unit_of_measure", VStr "Cubic Meter");
                                  ("unit_price", VFloat 10%float);
                                  ("quantity", VFloat 2%float)]])])
           (VDict [("id", VStr "w1"); ("name", VStr "Old wall");
                   ("basis_quantity", VInt 0); ("sum_total", VFloat 10%float)])
           "1,5");
    vm_compute; reflexivity.
Defined.

(** ** Further runs on the example data *)

Lemma pages_write_nothing_witness :
  String.eqb (method (Request "GET" [] [])) "POST" = false /\
  reads_only (project_detail "p1" (Request "GET" [] [])) /\
  reads_only (projects_list (Request "GET" [] [])) /\
  reads_only (categories_list (Request "GET" [] [])).
Proof.
  split; [reflexivity |].
  exact (proj2 (proj2 (pages_write_nothing "p1" (Request "GET" [] []))) eq_refl).
Defined.

Lemma add_master_item_id_is_new_witness :
  exists all_items w1,
    _load_master_csv "labor" duplicate_serial_world = (Ok all_items, w1) /\
    str_to_int "3" = Some 3 /\
    Forall (fun item => has_id (VStr "3") item = false) all_items.
Proof.
  eexists _, _. split; [vm_compute; reflexivity |]. split; [reflexivity |].
  exact (proj2 (add_master_item_id_is_new "labor" new_master_item
                  (VStr "Helper") (VStr "PerDay") (VFloat 50%float)
                  duplicate_serial_world duplicate_serial_world _
                  eq_refl eq_refl eq_refl eq_refl eq_refl)).
Defined.

Lemma delete_master_item_removes_witness :
  _load_master_csv "labor" duplicate_serial_world =
    (Ok [VDict loaded_mason; VDict loaded_foreman; VDict loaded_helper],
     duplicate_serial_world) /\
  delete_master_item "labor" (VStr "1") duplicate_serial_world =
    (Ok tt, catalog_written "labor" [["2"; "Helper"; "PerDay"; "50.0"]]
              duplicate_serial_world).
Proof.
  split; [vm_compute; reflexivity |].
  exact (proj1 (delete_master_item_removes "labor" (VStr "1")
                  duplicate_serial_world duplicate_serial_world
                  [VDict loaded_mason; VDict loaded_foreman; VDict loaded_helper]
                  eq_refl)).
Defined.

Lemma update_master_item_first_match_witness :
  _load_master_csv "labor" duplicate_serial_world =
    (Ok [VDict loaded_mason; VDict loaded_foreman; VDict loaded_helper],
     duplicate_serial_world) /\
  update_master_item "labor" (VStr "1") new_master_item duplicate_serial_world =
    (Ok tt,
     catalog_written "labor"
       [["1"; "Helper"; "PerDay"; "50.0"]; ["1"; "Foreman"; "PerDay"; "150.0"];
        ["2"; "Helper"; "PerDay"; "50.0"]]
       duplicate_serial_world).
Proof.
  split; [vm_compute; reflexivity |].
  exact (proj2 (update_master_item_first_match "labor" (VStr "1") new_master_item
                  duplicate_serial_world duplicate_serial_world
                  [VDict loaded_mason; VDict loaded_foreman; VDict loaded_helper]
                  eq_refl)
           [] loaded_mason [VDict loaded_foreman; VDict loaded_helper]
           (VStr "Helper") (VStr "PerDay") (VFloat 50%float)
           eq_refl (List.Forall_nil _) eq_refl eq_refl eq_refl eq_refl).
Defined.

Lemma get_master_item_map_last_wins_witness :
  _load_master_csv "labor" duplicate_serial_world =
    (Ok [VDict loaded_mason; VDict loaded_foreman; VDict loaded_helper],
     duplicate_serial_world) /\
  exists m,
    get_master_item_map "labor" duplicate_serial_world = (Ok m, duplicate_serial_world) /\
    pymap_getitem m (VStr "1") = Ok (VDict loaded_foreman).
Proof.
  split; [vm_compute; reflexivity |].
  exact (get_master_item_map_last_wins "labor" "1"
           duplicate_serial_world duplicate_serial_world
           [VDict loaded_mason; VDict loaded_foreman; VDict loaded_helper] eq_refl).
Defined.

Lemma example_first_category :
  first_category (VStr "c1") example_world example_fields [] example_category [].
Proof. repeat split. constructor. Qed.

Lemma add_work_item_to_category_appends_witness :
  first_category (VStr "c1") example_world example_fields [] example_category [] /\
  let c' := with_work_items example_category
              [example_work_item; VDict [("id", VStr "w2")]] in
  let w' := categories_saved example_fields [c'] example_world in
  add_work_item_to_category (VStr "c1") (VDict [("id", VStr "w2")]) example_world =
    (Ok tt, w') /\
  get_category_by_id (VStr "c1") w' = (Ok c', w') /\
  work_items c' = [example_work_item; VDict [("id", VStr "w2")]].
Proof.
  split; [exact example_first_category |].
  exact (add_work_item_to_category_appends (VStr "c1") (VDict [("id", VStr "w2")])
           example_world example_fields example_category [] [] [example_work_item]
           example_first_category eq_refl).
Defined.

Lemma update_work_item_replaces_witness :
  let updated := [("id", VStr "w1"); ("name", VStr "New wall")] in
  let c' := with_work_items example_category [VDict updated] in
  let w' := categories_saved example_fields [c'] example_world in
  update_work_item (VStr "c1") (VDict updated) example_world = (Ok tt, w') /\
  get_category_by_id (VStr "c1") w' = (Ok c', w') /\
  work_items c' = [VDict updated] /\
  Datatypes.length [VDict updated] = 1%nat.
Proof.
  exact (update_work_item_replaces (VStr "c1")
           [("id", VStr "w1"); ("name", VStr "New wall")]
           example_world example_fields example_category [] [] [example_work_item]
           example_first_category eq_refl
           ltac:(repeat constructor)).
Defined.

Lemma delete_work_item_removes_witness :
  let c' := with_work_items example_category [] in
  let w' := categories_saved example_fields [c'] example_world in
  delete_work_item (VStr "c1") (VStr "w1") example_world = (Ok tt, w') /\
  get_category_by_id (VStr "c1") w' = (Ok c', w') /\
  work_items c' = [] /\
  Forall (fun item => has_id (VStr "w1") item = false) [].
Proof.
  exact (delete_work_item_removes (VStr "c1") (VStr "w1")
           example_world example_fields example_category [] [] [example_work_item]
           example_first_category eq_refl
           ltac:(repeat constructor)).
Defined.

Lemma update_project_replaces_witness :
  let ghost := [("id", VStr "p9"); ("name", VStr "Ghost")] in
  update_project (VDict ghost) example_world =
    (Ok tt, projects_saved example_fields [VDict example_project] example_world).
Proof.
  exact (proj1 (update_project_replaces
                  [("id", VStr "p9"); ("name", VStr "Ghost")]
                  example_fields [VDict example_project] example_world
                  eq_refl eq_refl
                  ltac:(repeat constructor))).
Defined.

Lemma categories_list_creates_witness :
  let req := Request "POST" [] [("category_name", "Floors")] in
  let w' := categories_saved example_fields
              [VDict example_category; new_category "uuid-0" "Floors"]
              (bump 1 example_world) in
  categories_list req example_world =
    (Ok (Redirect "main_bp.categories_list" "success"
           "Category 'Floors' created successfully."), w') /\
  get_category_by_id (VStr "uuid-0") w' = (Ok (new_category "uuid-0" "Floors"), w').
Proof.
  destruct (proj2 (categories_list_creates
                     (Request "POST" [] [("category_name", "Floors")])
                     example_world eq_refl)
              "Floors" example_fields [VDict example_category]
              eq_refl ltac:(discriminate) eq_refl eq_refl) as [H1 H2].
  split; [exact H1 |]. apply H2. repeat constructor.
Defined.


Lemma find_work_item_by_id_finds_witness :
  find_work_item_by_id (VStr "w1") example_world = (Ok example_work_item, example_world) /\
  has_id (VStr "w1") example_work_item = true /\
  In example_work_item [example_work_item].
Proof.
  split; [vm_compute; reflexivity |].
  destruct (find_work_item_by_id_finds (VStr "w1") example_work_item
              example_world example_world eq_refl)
    as (_ & v & cats & _ & _ & [[H _] | [H _]]).
  - discriminate H.
  - split; [exact H | now left].
Defined.

Lemma inventory_post_frame_witness :
  names_catalog [("item_type", "tools")] = false /\
  inventory_post [("item_type", "tools")] example_world =
    (Ok InvalidCategory, example_world).
Proof.
  split; [reflexivity |].
  exact (proj2 (proj2 (proj2 (inventory_post_frame [("item_type", "tools")]
                                example_world))) eq_refl).
Defined.

Lemma inventory_post_idle_rows_witness :
  inventory_rows zero_price_form =
    Ok [("new]", [("id", VStr "new]"); ("action", VStr "create");
                 ("name", VStr "Helper"); ("unit", VStr "PerDay");
                 ("price", VStr "0")])] /\
  inventory_post zero_price_form example_world =
    (Ok (InventoryUpdated "Labor inventory updated successfully."), example_world).
Proof.
  split; [vm_compute; reflexivity |].
  exact (inventory_post_idle_rows zero_price_form "labor" _ example_world
           eq_refl eq_refl eq_refl eq_refl).
Defined.

Lemma grand_totals_agree_witness :
  with_grand_total (VDict example_project) =
    Ok (VDict (dict_set "grand_total" (VFloat 20%float) example_project)) /\
  exists shown all_work_items,
    project_detail "p1" (Request "GET" [] []) example_world =
      (Ok (Render "project_detail.html"
             [("project", shown); ("all_work_items", all_work_items)]),
       example_world) /\
    field "grand_total" shown = Some (VFloat 20%float).
Proof.
  assert (E : with_grand_total (VDict example_project) =
              Ok (VDict (dict_set "grand_total" (VFloat 20%float) example_project)))
    by (vm_compute; reflexivity).
  split; [exact E |].
  pose proof (grand_totals_agree "p1" (Request "GET" [] []) example_world
                example_world (VDict example_project) eq_refl eq_refl eq_refl) as H.
  rewrite E in H. destruct H as (shown & cats & H1 & H2 & _).
  exists shown, cats. split; [exact H1 |]. rewrite H2. reflexivity.
Defined.

Lemma load_master_csv_items_witness :
  In "Price" (drop 2 ["SerialNo"; "LaborType"; "Unit"; "Price"]) /\
  fst (_load_master_csv "labor" short_row_world) = Raise TypeError /\
  fst (delete_master_item "labor" (VStr "1") short_row_world) = Raise TypeError.
Proof.
  assert (Hin : In "Price" (drop 2 ["SerialNo"; "LaborType"; "Unit"; "Price"]))
    by (right; left; reflexivity).
  split; [exact Hin |].
  destruct (proj2 (proj2 (load_master_csv_items "labor" short_row_world))
              (CsvFile ["SerialNo"; "LaborType"; "Unit"; "Price"] [["1"; "Mason"]])
              ["1"; "Mason"] [] eq_refl eq_refl Hin) as (H1 & _ & _ & _ & H2).
  split; [exact H1 | exact (H2 (VStr "1"))].
Defined.

Lemma unknown_ids_change_nothing_witness :
  no_category (VStr "gone") example_world /\
  no_project (VStr "gone") example_world /\
  category_detail "gone" (Request "GET" [] []) example_world =
    (Ok (Redirect "main_bp.categories_list" "error" "Category not found."),
     example_world) /\
  route_delete_work_item "gone" "w1" example_world =
    (Ok (Redirect "main_bp.category_detail" "success" "Work Item deleted successfully."),
     example_world) /\
  add_item_to_project "gone" (Request "POST" [] [("work_item_id", "w1")]) example_world =
    (Ok (Redirect "main_bp.projects_list" "error" "Project not found."), example_world).
Proof.
  assert (Hc : no_category (VStr "gone") example_world).
  { eexists. split; [reflexivity |]. repeat constructor. }
  assert (Hp : no_project (VStr "gone") example_world).
  { eexists. split; [reflexivity |]. repeat constructor. }
  split; [exact Hc |]. split; [exact Hp |].
  destruct (unknown_ids_change_nothing "gone" (Request "GET" [] []) example_world)
    as [H1 _].
  destruct (unknown_ids_change_nothing "gone"
              (Request "POST" [] [("work_item_id", "w1")]) example_world)
    as [_ H2].
  destruct (H1 Hc) as [H3 H4]. destruct (H2 Hp) as [_ H5].
  split; [exact H3 |]. split; [exact (H4 "w1") | exact H5].
Defined.

Lemma inventory_post_misses_the_row_witness :
  _load_master_csv "labor" duplicate_serial_world =
    (Ok [VDict loaded_mason; VDict loaded_foreman; VDict loaded_helper],
     duplicate_serial_world) /\
  inventory_post [("item_type", "labor"); ("items[2][action]", "delete")]
    duplicate_serial_world =
    (Ok (InventoryUpdated "Labor inventory updated successfully."),
     catalog_written "labor"
       [["1"; "Mason"; "PerDay"; "100.0"]; ["1"; "Foreman"; "PerDay"; "150.0"];
        ["2"; "Helper"; "PerDay"; "50.0"]]
       duplicate_serial_world).
Proof.
  split; [vm_compute; reflexivity |].
  exact (proj1 (proj2 (inventory_post_misses_the_row "labor" "2" "" "" "" 0%float
                         duplicate_serial_world duplicate_serial_world
                         [VDict loaded_mason; VDict loaded_foreman; VDict loaded_helper]
                         eq_refl eq_refl eq_refl ltac:(repeat constructor)))).
Defined.

Lemma example_first_project :
  first_project (VStr "p1") example_world example_fields [] example_project [].
Proof. repeat split; constructor. Qed.

Lemma add_item_to_project_appends_witness :
  let req := Request "POST" [] [("work_item_id", "w1"); ("quantity", "3")] in
  exists w' project,
    add_item_to_project "p1" req example_world =
      (Ok (Redirect "main_bp.project_detail" "success"
             "Added 'Old wall' to the project."), w') /\
    get_project_by_id (VStr "p1") w' = (Ok project, w') /\
    field "items" project =
      Some (VList [example_line 2%float;
                   VDict [("instance_id", VStr "uuid-0"); ("work_item_id", VStr "w1");
                          ("name", VStr "Old wall"); ("unit_of_measure", VNone);
                          ("unit_price", VFloat 10%float);
                          ("quantity", VFloat 3%float)]]).
Proof.
  intros req. eexists _, _.
  destruct (add_item_to_project_appends "p1" req example_world example_fields
              example_project
              [("id", VStr "w1"); ("name", VStr "Old wall");
               ("basis_quantity", VInt 0); ("sum_total", VFloat 10%float)]
              [] [] [example_line 2%float] 3%float
              example_first_project eq_refl ltac:(discriminate) eq_refl eq_refl)
    as [H1 H2].
  split; [exact H1 |]. split; [exact H2 | reflexivity].
Defined.

Lemma project_detail_post_stores_witness :
  let req := Request "POST" [] [("quantity-i1", "5")] in
  exists w' project,
    project_detail "p1" req example_world =
      (Ok (Redirect "main_bp.project_detail" "success" "Project updated successfully."),
       w') /\
    get_project_by_id (VStr "p1") w' = (Ok project, w') /\
    field "items" project = Some (VList [example_line 5%float]).
Proof.
  intros req.
  assert (Hr : rmap (set_quantity (rform req)) [example_line 2%float] =
               Ok [example_line 5%float]) by (vm_compute; reflexivity).
  eexists _, _.
  destruct (project_detail_post_stores "p1" req example_world example_fields
              example_project [] [] [example_line 2%float] [example_line 5%float]
              eq_refl example_first_project eq_refl Hr)
    as [H1 H2].
  split; [exact H1 |]. split; [exact H2 | reflexivity].
Defined.

Lemma work_item_forms_store_empty_records_witness :
  catalogs_read example_world = true /\
  exists id w' category,
    save_work_item "c1" (Request "POST" [] example_form) example_world =
      (Ok (Redirect "main_bp.category_detail" "success"
             "Work Item 'Brick wall' saved successfully."), w') /\
    get_category_by_id (VStr "c1") w' = (Ok category, w') /\
    work_items category =
      [example_work_item; empty_record id "Brick wall" "Cubic Meter" 2%float].
Proof.
  assert (Hread : catalogs_read example_world = true) by (vm_compute; reflexivity).
  split; [exact Hread |].
  destruct (proj1 (work_item_forms_store_empty_records "c1"
                     (Request "POST" [] example_form) example_world
                     example_fields example_category [] [] [example_work_item]
                     "Brick wall" eq_refl ltac:(discriminate) Hread
                     example_first_category eq_refl))
    as (id & n & H1 & H2).
  exists id. eexists _, _. split; [exact H1 |]. split; [exact H2 |].
  vm_compute. reflexivity.
Defined.

Lemma standardize_item_key_changes_nothing_witness :
  exists items,
    _load_master_csv "labor" example_world = (Ok items, example_world) /\
    standardize_item_key items "LaborType" = Ok items.
Proof.
  eexists. split; [vm_compute; reflexivity |].
  exact (proj1 (proj2 (standardize_item_key_changes_nothing "labor"
                         example_world example_world _ eq_refl))).
Defined.
